(** * The service launcher (start_system.py, run_dashboard.py)

    A shallow embedding of the two launcher scripts and the properties of
    the lifecycle they implement: probe the backend, spawn it when it is
    not there, wait for it with a bounded poll, spawn the dashboard,
    watch both children, stop what is owned.

    The scripts are sequential Python with module globals, exceptions and
    a signal handler.  They are embedded as functions in a monad that
    threads the two globals and the log of every call the script makes on
    its surroundings (HTTP, subprocess, time, sys, print) and that carries
    Python's exceptions.  The surroundings are an [environment]: total
    functions that answer those calls, so that a theorem about every
    environment is a theorem about every behaviour of the network, of
    the children and of whoever sends signals.

    Signals.  A handled signal is taken to arrive while the script is
    blocked: in [time.sleep], in [requests.get] or in [Popen.wait].  The
    handler then runs inside that call, and what it raises is raised by
    the call.  As the handler of start_system.py itself blocks in
    [Popen.wait], handlers can nest; the functions of that script take
    the greatest nesting depth [d] of a run as an argument, and the
    theorems hold for every [d].  A signal handled between two
    statements, outside these calls, is no behaviour of an
    [environment]: what is proved of a signal is proved of a signal that
    arrives in one of these calls, and the statements name the call.

    The monitoring loop of start_system.py has no exit of its own; it is
    given a number of rounds [fuel], and a run that has used them up is
    [StillRunning]. *)

From Stdlib Require Import List ZArith String Bool Arith Lia.
Import ListNotations.

Set Implicit Arguments.

(** ** Data *)

(** The two child processes a launcher can own.  A [Popen] object is
    identified with the service it was created for. *)
Inductive service : Type := Backend | Frontend.

(** What [requests.get] can come back with. *)
Inductive http_outcome : Type :=
| Status (code : Z)
| ConnectionFailed
| TimedOut.

(** The exceptions that occur in the scripts.  [SystemExit] and
    [KeyboardInterrupt] are not subclasses of [Exception]. *)
Inductive exn : Type :=
| SystemExit (code : Z)
| KeyboardInterrupt
| TimeoutExpired
| RequestException
| OSError.

(** The calls during which the script blocks, and so can be interrupted. *)
Inductive call : Type :=
| Get (timeout : Z)
| Sleep (secs : Z)
| Wait (p : service) (timeout : Z)
| WaitExit (p : service).

(** Printed lines; the pictograms that start most of them are left out. *)
Inductive message : Type :=
| Line (s : string)
| Checking (i n : nat)
| FailedWith (what : string).

(** One entry of the log per call, with the answer it got. *)
Inductive event : Type :=
| Print (m : message)
| Http (timeout : Z) (r : http_outcome)
| Slept (secs : Z)
| Popen (s : service) (ok : bool)
| Terminate (p : service)
| Waited (p : service) (timeout : Z) (exited : bool)
| Kill (p : service)
| Joined (p : service)
| Polled (p : service) (rc : option Z)
| Signal (during : call)
| Exit (code : Z).

(** The module globals of start_system.py, and the log. *)
Record world : Type := mkWorld {
  trace : list event;
  api_process : option service;
  streamlit_process : option service
}.

Definition initial : world := mkWorld [] None None.

(** The surroundings.  [health k] answers the [k]-th completed request to
    the health endpoint (from 0); the other answers depend on the moment
    of asking, which is the length of the log.  [exits_within p t] says
    whether [p] exits during a wait begun at moment [t]; [signalled t]
    whether a signal arrives during the blocking call begun at [t]. *)
Record environment : Type := mkEnv {
  health : nat -> http_outcome;
  spawns : service -> bool;
  exits_within : service -> nat -> bool;
  returncode : service -> nat -> option Z;
  signalled : nat -> bool
}.

Inductive outcome (A : Type) : Type :=
| Normal (a : A)
| Raised (e : exn)
| StillRunning.
Arguments Raised {A} e.
Arguments StillRunning {A}.

Definition M (A : Type) : Type := world -> outcome A * world.

(** How the interpreter has ended, if it has. *)
Inductive termination : Type :=
| Exited (code : Z)
| NotYet.

Definition ret {A} (a : A) : M A := fun w => (Normal a, w).

Definition bind {A B} (m : M A) (k : A -> M B) : M B :=
  fun w =>
    match m w with
    | (Normal a, w') => k a w'
    | (Raised e, w') => (Raised e, w')
    | (StillRunning, w') => (StillRunning, w')
    end.

Notation "x <- m ;; k" := (bind m (fun x => k))
  (at level 61, m at next level, right associativity).
Notation "m ;; k" := (bind m (fun _ => k))
  (at level 61, right associativity).

Definition raise {A} (e : exn) : M A := fun w => (Raised e, w).
Definition still_running {A} : M A := fun w => (StillRunning, w).

Definition log (e : event) (w : world) : world :=
  mkWorld (trace w ++ [e]) (api_process w) (streamlit_process w).

Definition emit (e : event) : M unit := fun w => (Normal tt, log e w).

Definition now (w : world) : nat := List.length (trace w).

(** try: body / except <class>: handler *)
Definition try_except {A} (body : M A) (catches : exn -> bool)
           (handler : M A) : M A :=
  fun w =>
    match body w with
    | (Raised e, w') => if catches e then handler w' else (Raised e, w')
    | r => r
    end.

(** try: body / finally: fin *)
Definition try_finally {A} (body : M A) (fin : M unit) : M A :=
  fun w =>
    match body w with
    | (StillRunning, w') => (StillRunning, w')
    | (o, w') =>
        match fin w' with
        | (Normal _, w'') => (o, w'')
        | (Raised e, w'') => (Raised e, w'')
        | (StillRunning, w'') => (StillRunning, w'')
        end
    end.

(** The three except clauses of the scripts. *)
Definition any_exception (_ : exn) : bool := true.

Definition is_Exception (e : exn) : bool :=
  match e with
  | SystemExit _ | KeyboardInterrupt => false
  | TimeoutExpired | RequestException | OSError => true
  end.

Definition is_TimeoutExpired (e : exn) : bool :=
  match e with TimeoutExpired => true | _ => false end.

Definition is_KeyboardInterrupt (e : exn) : bool :=
  match e with KeyboardInterrupt => true | _ => false end.

Definition is_http (e : event) : bool :=
  match e with Http _ _ => true | _ => false end.

(** Number of completed health requests in a log. *)
Definition probes (l : list event) : nat := List.length (filter is_http l).

Definition get_api : M (option service) := fun w => (Normal (api_process w), w).
Definition get_streamlit : M (option service) :=
  fun w => (Normal (streamlit_process w), w).
Definition set_api (p : option service) : M unit :=
  fun w => (Normal tt, mkWorld (trace w) p (streamlit_process w)).
Definition set_streamlit (p : option service) : M unit :=
  fun w => (Normal tt, mkWorld (trace w) (api_process w) p).

Definition is_some {A} (o : option A) : bool :=
  match o with Some _ => true | None => false end.

(** ** The calls on the surroundings *)

Section Calls.

Variable E : environment.

Definition print (m : message) : M unit := emit (Print m).

(** A blocking call made while [h] is the installed signal handler.
    When a handled signal arrives the interpreter runs the handler in
    the middle of the call; were the handler to return, the call would
    be resumed.  [None] stands for a stretch with no signal delivered. *)
Definition blocking {A} (h : option (M unit)) (c : call)
           (complete : M A) : M A :=
  fun w =>
    match h with
    | Some handler =>
        if signalled E (now w)
        then (emit (Signal c) ;; handler ;; complete) w
        else complete w
    | None => complete w
    end.

(** time.sleep(secs) *)
Definition time_sleep (h : option (M unit)) (secs : Z) : M unit :=
  blocking h (Sleep secs) (emit (Slept secs)).

(** requests.get(".../health", timeout=t): the status code, or one of
    the exceptions of requests. *)
Definition requests_get (h : option (M unit)) (timeout : Z) : M Z :=
  blocking h (Get timeout)
    (fun w =>
       let r := health E (probes (trace w)) in
       match r with
       | Status c => (Normal c, log (Http timeout r) w)
       | ConnectionFailed | TimedOut =>
           (Raised RequestException, log (Http timeout r) w)
       end).

(** subprocess.Popen([...]) *)
Definition popen (s : service) : M service :=
  fun w =>
    if spawns E s
    then (Normal s, log (Popen s true) w)
    else (Raised OSError, log (Popen s false) w).

(** p.terminate(), p.kill() *)
Definition terminate (p : service) : M unit := emit (Terminate p).
Definition kill (p : service) : M unit := emit (Kill p).

(** p.wait(timeout=t) *)
Definition wait (h : option (M unit)) (p : service) (timeout : Z) : M unit :=
  blocking h (Wait p timeout)
    (fun w =>
       if exits_within E p (now w)
       then (Normal tt, log (Waited p timeout true) w)
       else (Raised TimeoutExpired, log (Waited p timeout false) w)).

(** p.wait(): returns when the process has exited, and not before. *)
Definition wait_exit (h : option (M unit)) (p : service) : M unit :=
  blocking h (WaitExit p)
    (fun w =>
       if exits_within E p (now w)
       then (Normal tt, log (Joined p) w)
       else (StillRunning, w)).

(** p.poll() *)
Definition poll (p : service) : M (option Z) :=
  fun w =>
    let rc := returncode E p (now w) in
    (Normal rc, log (Polled p rc) w).

(** sys.exit(code) *)
Definition sys_exit {A} (code : Z) : M A :=
  fun w => (Raised (SystemExit code), log (Exit code) w).

End Calls.

(** ** start_system.py *)

Module StartSystem.

Section Script.

Variable E : environment.

(** Lines 23-28 and 30-35 of [cleanup]: the same statements, once for
    each global.
<<
    if p:
        p.terminate()
        try:
            p.wait(timeout=5)
        except subprocess.TimeoutExpired:
            p.kill()
>> *)
Definition stop (h : option (M unit)) (p : option service) : M unit :=
  match p with
  | Some proc =>
      terminate proc ;;
      try_except (wait E h proc 5) is_TimeoutExpired (kill proc)
  | None => ret tt
  end.

(** [cleanup], lines 18-37, run while [h] is the installed handler. *)
Definition cleanup_body (h : option (M unit)) : M unit :=
  print (Line "Shutting down services...") ;;
  sp <- get_streamlit ;;
  stop h sp ;;
  ap <- get_api ;;
  stop h ap ;;
  print (Line "All services stopped").

(** The handler that [main] installs for SIGINT and SIGTERM is
    [signal_handler], which itself calls [cleanup], which blocks in
    [wait], where the next signal can arrive.  [installed d] is the
    handler with at most [d] deliveries nested inside one another;
    [installed 0] delivers nothing. *)
Fixpoint installed (d : nat) : option (M unit) :=
  match d with
  | O => None
  | S d' => Some (cleanup_body (installed d') ;; sys_exit 0)
  end.

Definition cleanup (d : nat) : M unit := cleanup_body (installed d).

(** [signal_handler], lines 39-42. *)
Definition signal_handler (d : nat) : M unit :=
  cleanup d ;; sys_exit 0.

(** [check_api_running], lines 44-50. *)
Definition check_api_running (h : option (M unit)) : M bool :=
  try_except
    (code <- requests_get E h 3 ;;
     ret (code =? 200)%Z)
    any_exception
    (ret false).

(** The [for i in range(15)] loop of [start_api], lines 66-71, from
    index [i] with [n] rounds to go; [true] stands for the [return True]
    inside the loop, [false] for the loop running to its end. *)
Fixpoint wait_for_api (h : option (M unit)) (n i : nat) : M bool :=
  match n with
  | O => ret false
  | S n' =>
      time_sleep E h 1 ;;
      up <- check_api_running h ;;
      if up
      then print (Line "API server started successfully on http://localhost:8001") ;;
           ret true
      else print (Checking (i + 1) 15) ;;
           wait_for_api h n' (S i)
  end.

(** [start_api], lines 52-80. *)
Definition start_api (h : option (M unit)) : M bool :=
  print (Line "Starting API server...") ;;
  try_except
    (p <- popen E Backend ;;
     set_api (Some p) ;;
     print (Line "Waiting for API to start...") ;;
     up <- wait_for_api h 15 0 ;;
     if up then ret true
     else
       print (Line "API server failed to start within 15 seconds") ;;
       ap <- get_api ;;
       match ap with
       | Some proc => terminate proc
       | None => ret tt
       end ;;
       ret false)
    is_Exception
    (print (FailedWith "Failed to start API server") ;;
     ret false).

(** [start_streamlit], lines 82-102. *)
Definition start_streamlit (h : option (M unit)) : M bool :=
  print (Line "Starting Streamlit dashboard...") ;;
  try_except
    (p <- popen E Frontend ;;
     set_streamlit (Some p) ;;
     time_sleep E h 3 ;;
     print (Line "Streamlit dashboard started on http://localhost:8501") ;;
     ret true)
    is_Exception
    (print (FailedWith "Failed to start Streamlit") ;;
     ret false).

(** The [while True] loop of [main], lines 135-145, for at most [fuel]
    rounds; returning stands for [break]. *)
Fixpoint monitor (h : option (M unit)) (fuel : nat) : M unit :=
  match fuel with
  | O => still_running
  | S fuel' =>
      time_sleep E h 1 ;;
      ap <- get_api ;;
      api_gone <- match ap with
                  | Some proc => rc <- poll E proc ;; ret (is_some rc)
                  | None => ret false
                  end ;;
      if api_gone
      then print (Line "API server stopped unexpectedly")
      else
        sp <- get_streamlit ;;
        streamlit_gone <- match sp with
                          | Some proc => rc <- poll E proc ;; ret (is_some rc)
                          | None => ret false
                          end ;;
        if streamlit_gone
        then print (Line "Streamlit dashboard stopped unexpectedly")
        else monitor h fuel'
  end.

(** The second half of [main], lines 122-150: what it does once the
    backend is known to be there. *)
Definition main_after_api (d fuel : nat) : M unit :=
  let h := installed d in
  dashboard <- start_streamlit h ;;
  (if dashboard then ret tt
   else cleanup d ;; sys_exit 1) ;;
  print (Line "Fraud Detection System is ready!") ;;
  print (Line "Dashboard: http://localhost:8501") ;;
  print (Line "API: http://localhost:8001/docs") ;;
  print (Line "Press Ctrl+C to stop all services") ;;
  print (Line "==================================================") ;;
  try_finally
    (try_except (monitor h fuel) is_KeyboardInterrupt (ret tt))
    (cleanup d).

(** [main], lines 104-150, from the point where the exit function and
    the signal handlers are registered. *)
Definition main (d fuel : nat) : M unit :=
  let h := installed d in
  print (Line "Fraud Detection System Launcher") ;;
  print (Line "==================================================") ;;
  running <- check_api_running h ;;
  (if running
   then print (Line "API server is already running")
   else
     started <- start_api h ;;
     if started then ret tt
     else print (Line "Cannot start system without API server") ;;
          sys_exit 1) ;;
  main_after_api d fuel.

(** The script as a process: [main], then the function registered with
    [atexit], then the exit status: 0 when [main] returns, the code of
    a [SystemExit], 1 for any other exception.  What an exit function
    raises is dropped. *)
Definition run (d fuel : nat) : termination * world :=
  match main d fuel initial with
  | (Normal _, w) => (Exited 0, snd (cleanup d w))
  | (Raised (SystemExit code), w) => (Exited code, snd (cleanup d w))
  | (Raised _, w) => (Exited 1, snd (cleanup d w))
  | (StillRunning, w) => (NotYet, w)
  end.

End Script.

End StartSystem.

(** ** run_dashboard.py *)

Module RunDashboard.

Section Script.

Variable E : environment.

(** This script installs no handler: SIGINT raises [KeyboardInterrupt]
    at the call it interrupts. *)
Definition default_int_handler : option (M unit) :=
  Some (raise KeyboardInterrupt).

(** [check_api_running], lines 11-17. *)
Definition check_api_running : M bool :=
  try_except
    (code <- requests_get E default_int_handler 5 ;;
     ret (code =? 200)%Z)
    any_exception
    (ret false).

(** The [for i in range(10)] loop of [start_api], lines 31-36;
    [Some p] stands for the [return api_process] inside the loop. *)
Fixpoint wait_for_api (p : service) (n i : nat) : M (option service) :=
  match n with
  | O => ret None
  | S n' =>
      time_sleep E default_int_handler 1 ;;
      up <- check_api_running ;;
      if up
      then print (Line "API server started successfully!") ;;
           ret (Some p)
      else print (Checking (i + 1) 10) ;;
           wait_for_api p n' (S i)
  end.

(** [start_api], lines 19-44. *)
Definition start_api : M (option service) :=
  print (Line "Starting API server...") ;;
  try_except
    (p <- popen E Backend ;;
     print (Line "Waiting for API to start...") ;;
     r <- wait_for_api p 10 0 ;;
     match r with
     | Some q => ret (Some q)
     | None =>
         print (Line "API server failed to start within 10 seconds") ;;
         terminate p ;;
         ret None
     end)
    is_Exception
    (print (FailedWith "Failed to start API server") ;;
     ret None).

(** [start_streamlit], lines 46-58. *)
Definition start_streamlit : M (option service) :=
  print (Line "Starting Streamlit dashboard...") ;;
  try_except
    (p <- popen E Frontend ;;
     ret (Some p))
    is_Exception
    (print (FailedWith "Failed to start Streamlit") ;;
     ret None).

(** [main], lines 60-94. *)
Definition main : M unit :=
  print (Line "Fraud Detection Dashboard Launcher") ;;
  print (Line "==================================================") ;;
  running <- check_api_running ;;
  api_process <-
    (if running
     then print (Line "API server is already running") ;;
          ret None
     else
       r <- start_api ;;
       match r with
       | Some p => ret (Some p)
       | None => print (Line "Cannot start dashboard without API server") ;;
                 sys_exit 1
       end) ;;
  r <- start_streamlit ;;
  match r with
  | None =>
      match api_process with
      | Some p => terminate p
      | None => ret tt
      end ;;
      sys_exit 1
  | Some streamlit_process =>
      print (Line "Fraud Detection System is ready!") ;;
      print (Line "Dashboard: http://localhost:8501") ;;
      print (Line "API: http://localhost:8001/docs") ;;
      print (Line "Press Ctrl+C to stop all services") ;;
      try_except
        (wait_exit E default_int_handler streamlit_process)
        is_KeyboardInterrupt
        (print (Line "Stopping services...") ;;
         match api_process with
         | Some p => terminate p
         | None => ret tt
         end ;;
         terminate streamlit_process ;;
         print (Line "All services stopped"))
  end.

End Script.

End RunDashboard.

(** ** Vocabulary of the properties *)

(** No signal arrives, whenever the script blocks. *)
Definition quiet (E : environment) : Prop :=
  forall t, signalled E t = false.

(** The HTTP status codes that mean success. *)
Definition success_status (c : Z) : bool :=
  ((200 <=? c) && (c <? 300))%Z.

(** The same world with more log. *)
Definition extend (w : world) (l : list event) : world :=
  mkWorld (trace w ++ l) (api_process w) (streamlit_process w).

(** [k] rounds of the polling loop of start_system.py in which the probe
    does not see the backend: the rounds with loop index [i], [i+1], ...,
    whose probes are requests number [p], [p+1], ... *)
Fixpoint failed_rounds (E : environment) (p i k : nat) : list event :=
  match k with
  | O => []
  | S k' =>
      [Slept 1; Http 3 (health E p); Print (Checking (i + 1) 15)]
        ++ failed_rounds E (S p) (S i) k'
  end.

(** The round in which the probe sees the backend. *)
Definition ready_round : list event :=
  [Slept 1; Http 3 (Status 200);
   Print (Line "API server started successfully on http://localhost:8001")].

Definition is_sleep (e : event) : bool :=
  match e with Slept _ => true | _ => false end.

(** What [start_api] logs before its polling loop when the spawn works. *)
Definition spawn_backend : list event :=
  [Print (Line "Starting API server..."); Popen Backend true;
   Print (Line "Waiting for API to start...")].

(** What [start_api] logs after the loop has run to its end. *)
Definition loop_exhausted : list event :=
  [Print (Line "API server failed to start within 15 seconds");
   Terminate Backend].

(** What lines 23-28 (30-35) log for an owned process [p] when they start
    at moment [t] and no signal arrives: the wait is the call made at
    moment [t + 1]. *)
Definition stop_events (E : environment) (p : service) (t : nat) : list event :=
  if exits_within E p (S t)
  then [Terminate p; Waited p 5 true]
  else [Terminate p; Waited p 5 false; Kill p].

Definition owned_stop_events (E : environment) (o : option service) (t : nat)
  : list event :=
  match o with
  | Some p => stop_events E p t
  | None => []
  end.

(** What an undisturbed [cleanup] logs, begun in world [w]. *)
Definition cleanup_events (E : environment) (w : world) : list event :=
  let front :=
    Print (Line "Shutting down services...")
      :: owned_stop_events E (streamlit_process w) (S (now w)) in
  front
    ++ owned_stop_events E (api_process w) (now w + List.length front)
    ++ [Print (Line "All services stopped")].

Definition banner : list event :=
  [Print (Line "Fraud Detection System Launcher");
   Print (Line "==================================================")].

(** What a run logs up to and including [sys.exit(1)] when the backend is
    spawned and never answers. *)
Definition timed_out_startup (E : environment) : list event :=
  banner ++ [Http 3 (health E 0)] ++ spawn_backend
    ++ failed_rounds E 1 0 15 ++ loop_exhausted
    ++ [Print (Line "Cannot start system without API server"); Exit 1].

(** [wp m Q w]: run from [w], the script [m] ends in an outcome and a
    world that satisfy [Q]. *)
Definition wp {A} (m : M A) (Q : outcome A -> world -> Prop) (w : world) : Prop :=
  Q (fst (m w)) (snd (m w)).

(** [p] is a process the script holds a handle of. *)
Definition owned (w : world) (p : service) : Prop :=
  api_process w = Some p \/ streamlit_process w = Some p.

(** The world after a successful [Popen] has been stored in its global. *)
Definition spawned (s : service) (w : world) : world :=
  match s with
  | Backend => mkWorld (trace w ++ [Popen Backend true]) (Some Backend)
                       (streamlit_process w)
  | Frontend => mkWorld (trace w ++ [Popen Frontend true]) (api_process w)
                        (Some Frontend)
  end.

(** A handler that keeps the property [I] of worlds and never returns:
    it ends in [SystemExit(0)]. *)
Definition leaves (I : world -> Prop) (h : option (M unit)) : Prop :=
  forall handler, h = Some handler ->
  forall w, I w ->
    wp handler (fun o w' => I w' /\ o = Raised (SystemExit 0)) w.

(** The outcomes of a piece of script that returns unless a signal makes
    the handler end the run. *)
Definition returns_or_exits {A} (o : outcome A) : Prop :=
  match o with
  | Normal _ => True
  | Raised e => e = SystemExit 0
  | StillRunning => False
  end.

(** The outcomes of [check_api_running], [start_api] and
    [start_streamlit]: [True] only in a world with the property [R]. *)
Definition answers (R : world -> Prop) (o : outcome bool) (w : world) : Prop :=
  match o with
  | Normal true => R w
  | Normal false => True
  | Raised e => e = SystemExit 0
  | StillRunning => False
  end.

(** The outcomes of the monitoring loop. *)
Definition exits_cleanly {A} (o : outcome A) : Prop :=
  match o with
  | Raised e => e = SystemExit 0
  | _ => True
  end.

(** The outcomes of [main]. *)
Definition exits_0_or_1 {A} (o : outcome A) : Prop :=
  match o with
  | Raised e => e = SystemExit 0 \/ e = SystemExit 1
  | _ => True
  end.



(** The first probe of [main] runs to its end: no handler is run during
    it.  It is the call made right after the two lines of the banner. *)
Definition first_probe_undisturbed (E : environment) (d : nat) : Prop :=
  d = 0 \/ signalled E (List.length banner) = false.

(** What [main] logs when its first probe finds the backend. *)
Definition found_running : list event :=
  banner ++ [Http 3 (Status 200); Print (Line "API server is already running")].


(** A probe in the log got status 200. *)
Definition seen_ready (l : list event) : Prop :=
  exists t, In (Http t (Status 200)) l.

(** Wherever the log has a spawn of the dashboard (successful or not),
    a probe that got status 200 comes before it. *)
Definition gated (l : list event) : Prop :=
  forall pre ok post,
    l = pre ++ Popen Frontend ok :: post -> seen_ready pre.

Definition log_gated (w : world) : Prop := gated (trace w).
Definition log_seen_ready (w : world) : Prop := seen_ready (trace w).

Definition is_frontend_spawn (e : event) : bool :=
  match e with
  | Popen Frontend _ => true
  | _ => false
  end.

(** What is known of a handler in the proofs about [cleanup]: it ends in
    [SystemExit(0)], changes no global, and has by then asked every owned
    process to terminate. *)
Definition terminating_handler (h : option (M unit)) : Prop :=
  forall handler, h = Some handler ->
  forall w, exists l,
    handler w = (Raised (SystemExit 0), extend w (l ++ [Exit 0])) /\
    forall p, owned w p -> In (Terminate p) l.

(** How a piece of [cleanup] that logs [l] can end: it returns, or a
    handler run inside it has ended the run with [sys.exit(0)]. *)
Definition ended (o : outcome unit) (l : list event) : Prop :=
  o = Normal tt \/
  (o = Raised (SystemExit 0) /\ exists l', l = l' ++ [Exit 0]).

Definition is_poll (e : event) : bool :=
  match e with Polled _ _ => true | _ => false end.

(** No liveness check has been made: the monitoring loop has not begun. *)
Definition not_monitoring (w : world) : Prop :=
  Forall (fun e => is_poll e = false) (trace w).

(** A call that manipulates a child process. *)
Definition is_process_call (e : event) : bool :=
  match e with
  | Terminate _ | Waited _ _ _ | Kill _ | Joined _ => true
  | _ => false
  end.

(** The process calls that a log shows between the delivery of a signal
    and the [sys.exit] that ends its handler. *)
Fixpoint handler_calls (inside : bool) (l : list event) : list event :=
  match l with
  | [] => []
  | Signal _ :: l' => handler_calls true l'
  | Exit _ :: l' => handler_calls false l'
  | e :: l' =>
      if inside && is_process_call e
      then e :: handler_calls inside l'
      else handler_calls inside l'
  end.

(** [e] collects the exit status of [p]. *)
Definition reaps (p : service) (e : event) : bool :=
  match e, p with
  | Waited Backend _ true, Backend | Waited Frontend _ true, Frontend => true
  | Joined Backend, Backend | Joined Frontend, Frontend => true
  | Polled Backend (Some _), Backend | Polled Frontend (Some _), Frontend => true
  | _, _ => false
  end.

(** After every [kill] of [p] in the log, its exit status is collected. *)
Definition reaped_after_kill (p : service) (l : list event) : Prop :=
  forall pre post,
    l = pre ++ Kill p :: post -> exists e, In e post /\ reaps p e = true.

(** *** Surroundings used in the examples *)

(** Nothing listens on the health endpoint; processes start, and exit
    when asked to. *)
Definition never_up : environment :=
  mkEnv (fun _ => ConnectionFailed) (fun _ => true) (fun _ _ => true)
        (fun _ _ => None) (fun _ => false).

(** The backend answers 503 twice after the refused first probe, then 200. *)
Definition slow_start : environment :=
  mkEnv (fun k => match k with
                  | 0 => ConnectionFailed
                  | 1 | 2 => Status 503
                  | _ => Status 200
                  end)
        (fun _ => true) (fun _ _ => true) (fun _ _ => None) (fun _ => false).

(** A backend is already there; the dashboard runs on and on. *)
Definition external : environment :=
  mkEnv (fun _ => Status 200) (fun _ => true) (fun _ _ => true)
        (fun _ _ => None) (fun _ => false).

(** As [external], but the dashboard is found dead (status 1) from
    moment 16 on, which is the second round of the monitoring loop. *)
Definition frontend_dies : environment :=
  mkEnv (fun _ => Status 200) (fun _ => true) (fun _ _ => true)
        (fun s t => match s with
                    | Frontend => if 16 <=? t then Some 1%Z else None
                    | Backend => None
                    end)
        (fun _ => false).

(** As [external], but a signal arrives at moment 13, during the first
    sleep of the monitoring loop. *)
Definition interrupted : environment :=
  mkEnv (fun _ => Status 200) (fun _ => true) (fun _ _ => true)
        (fun _ _ => None) (fun t => t =? 13).

(** Processes that ignore the termination request for more than 5 s. *)
Definition stubborn : environment :=
  mkEnv (fun _ => Status 200) (fun _ => true) (fun _ _ => false)
        (fun _ _ => None) (fun _ => false).

(** Both children owned, nothing logged. *)
Definition both_owned : world := mkWorld [] (Some Backend) (Some Frontend).

Definition is_signal (e : event) : bool :=
  match e with Signal _ => true | _ => false end.

(** How [main] can end: by returning, by the handler's [sys.exit(0)], or
    by [sys.exit(1)] before any liveness check. *)
Definition main_outcome (o : outcome unit) (w : world) : Prop :=
  match o with
  | Raised e =>
      e = SystemExit 0 \/
      (e = SystemExit 1 /\ In (Exit 1) (trace w) /\ not_monitoring w)
  | _ => True
  end.


(** What [start_streamlit] logs when the spawn works, and what [main]
    prints after it. *)
Definition dashboard_started : list event :=
  [Print (Line "Starting Streamlit dashboard..."); Popen Frontend true;
   Slept 3;
   Print (Line "Streamlit dashboard started on http://localhost:8501")].

Definition ready_lines : list event :=
  [Print (Line "Fraud Detection System is ready!");
   Print (Line "Dashboard: http://localhost:8501");
   Print (Line "API: http://localhost:8001/docs");
   Print (Line "Press Ctrl+C to stop all services");
   Print (Line "==================================================")].


(** The world of [main] in [slow_start] after its first probe. *)
Definition probed_once : world :=
  mkWorld (banner ++ [Http 3 ConnectionFailed]) None None.

(** ** Vocabulary of further properties *)

(** The answer of [check_api_running] to an outcome of its request. *)
Definition is_ready (o : http_outcome) : bool :=
  match o with
  | Status c => (c =? 200)%Z
  | _ => false
  end.

(** Among the answers number [p], [p+1], ..., [p+n-1] of the health
    endpoint, the offset of the first that is status 200. *)
Fixpoint first_ready (E : environment) (p n : nat) : option nat :=
  match n with
  | O => None
  | S n' =>
      if is_ready (health E p) then Some 0
      else option_map S (first_ready E (S p) n')
  end.

(** What [start_api] logs when the spawn raises. *)
Definition backend_not_spawned : list event :=
  [Print (Line "Starting API server..."); Popen Backend false;
   Print (FailedWith "Failed to start API server")].

(** What [start_streamlit] logs when the spawn raises. *)
Definition dashboard_not_spawned : list event :=
  [Print (Line "Starting Streamlit dashboard..."); Popen Frontend false;
   Print (FailedWith "Failed to start Streamlit")].

(** The last two entries of the log of a monitoring loop that has found
    the process [p] of world [w] dead: the liveness check and the line
    that goes with the global holding [p]. *)
Definition found_dead (w : world) (p : service) (tail : list event) : Prop :=
  exists rc,
    (api_process w = Some p /\
     tail = [Polled p (Some rc);
             Print (Line "API server stopped unexpectedly")]) \/
    (streamlit_process w = Some p /\
     tail = [Polled p (Some rc);
             Print (Line "Streamlit dashboard stopped unexpectedly")]).

(** The process an event makes a call on, spawns apart. *)
Definition process_of (e : event) : option service :=
  match e with
  | Terminate p | Waited p _ _ | Kill p | Joined p | Polled p _ => Some p
  | _ => None
  end.

(** Every call on a process in the log comes after a successful spawn of
    that process. *)
Definition spawned_first (l : list event) : Prop :=
  forall pre e post p,
    l = pre ++ e :: post -> process_of e = Some p -> In (Popen p true) pre.

(** ... and the globals hold only processes the log shows spawned. *)
Definition own_only (w : world) : Prop :=
  spawned_first (trace w) /\
  forall p, owned w p -> In (Popen p true) (trace w).

Definition is_spawn_of (s : service) (e : event) : bool :=
  match e, s with
  | Popen Backend _, Backend | Popen Frontend _, Frontend => true
  | _, _ => false
  end.

(** Number of spawns of [s], successful or not, in a log. *)
Definition spawn_attempts (s : service) (l : list event) : nat :=
  List.length (filter (is_spawn_of s) l).

Definition is_spawn (e : event) : bool :=
  match e with Popen _ _ => true | _ => false end.

(** At most [b] spawns of the backend and [f] of the dashboard so far. *)
Definition attempts_within (b f : nat) (w : world) : Prop :=
  spawn_attempts Backend (trace w) <= b /\
  spawn_attempts Frontend (trace w) <= f.

(** *** run_dashboard.py *)

Definition is_terminate (e : event) : bool :=
  match e with Terminate _ => true | _ => false end.

Definition is_join (e : event) : bool :=
  match e with Joined _ => true | _ => false end.

Definition is_kill_or_timed_wait (e : event) : bool :=
  match e with Kill _ | Waited _ _ _ => true | _ => false end.

(** The log has no event of the kind [f]. *)
Definition never (f : event -> bool) (w : world) : Prop :=
  Forall (fun e => f e = false) (trace w).

(** How [main] of run_dashboard.py can end, and what its log is like
    then. *)
Definition rd_main_outcome (o : outcome unit) (w : world) : Prop :=
  never is_kill_or_timed_wait w /\
  match o with
  | Normal _ =>
      (never is_terminate w /\ In (Joined Frontend) (trace w)) \/
      (never is_join w /\ In (Terminate Frontend) (trace w) /\
       (In (Popen Backend true) (trace w) -> In (Terminate Backend) (trace w)))
  | Raised KeyboardInterrupt =>
      never is_process_call w /\ In (Popen Backend true) (trace w)
  | Raised e => e = SystemExit 1
  | StillRunning => never is_process_call w
  end.

(** [k] rounds of the polling loop of run_dashboard.py in which the
    probe does not see the backend. *)
Fixpoint rd_failed_rounds (E : environment) (p i k : nat) : list event :=
  match k with
  | O => []
  | S k' =>
      [Slept 1; Http 5 (health E p); Print (Checking (i + 1) 10)]
        ++ rd_failed_rounds E (S p) (S i) k'
  end.

Definition rd_ready_round : list event :=
  [Slept 1; Http 5 (Status 200);
   Print (Line "API server started successfully!")].

Definition rd_loop_exhausted : list event :=
  [Print (Line "API server failed to start within 10 seconds");
   Terminate Backend].

(** The startup of start_system.py can succeed: the dashboard can be
    spawned, and the backend is there at the first probe, or can be
    spawned and answers 200 to one of the 15 probes that follow. *)
Definition startup_succeeds (E : environment) : bool :=
  spawns E Frontend
  && (is_ready (health E 0)
      || (spawns E Backend && is_some (first_ready E 1 15))).

(** ** streamlit_app.py: where the dashboard looks for the backend *)

Module StreamlitApp.

(** A Python [str], as the list of its characters. *)
Definition str : Type := list Ascii.ascii.

Definition lit (s : string) : str := list_ascii_of_string s.

(** s.startswith(p) *)
Fixpoint startswith (s p : str) : bool :=
  match p, s with
  | [], _ => true
  | _ :: _, [] => false
  | c :: p', d :: s' => Ascii.eqb c d && startswith s' p'
  end.

(** s.endswith(p) *)
Definition endswith (s p : str) : bool := startswith (rev s) (rev p).

(** The longest run of [c] at the head of [s] taken off. *)
Fixpoint lstrip_char (c : Ascii.ascii) (s : str) : str :=
  match s with
  | [] => []
  | d :: s' => if Ascii.eqb c d then lstrip_char c s' else s
  end.

(** s.rstrip(c), for a single character [c]. *)
Definition rstrip_char (c : Ascii.ascii) (s : str) : str :=
  rev (lstrip_char c (rev s)).

(** s.replace(old, new) for a non-empty [old]: the occurrences of [old]
    are found from left to right, the search going on behind each one.
    [fuel] bounds the number of steps; one more than the length of [s]
    is enough. *)
Fixpoint replace_loop (fuel : nat) (old new s : str) : str :=
  match fuel with
  | O => s
  | S fuel' =>
      match s with
      | [] => []
      | c :: s' =>
          if startswith s old
          then new ++ replace_loop fuel' old new (skipn (List.length old) s)
          else c :: replace_loop fuel' old new s'
      end
  end.

Definition replace (old new s : str) : str :=
  replace_loop (S (List.length s)) old new s.

Definition api_suffix : str := lit "/api".

(** The character [/]. *)
Definition slash : Ascii.ascii := Ascii.ascii_of_nat 47.

(** Lines 27-30: the base URL, from the environment variable
    [API_BASE_URL] when it is set.
<<
    API_BASE_URL = os.environ.get("API_BASE_URL", "http://localhost:8001")
    if not API_BASE_URL.endswith('/api'):
        API_BASE_URL = f"{API_BASE_URL.rstrip('/')}/api"
>> *)
Definition api_base_url (env : option str) : str :=
  let base := match env with
              | Some v => v
              | None => lit "http://localhost:8001"
              end in
  if endswith base api_suffix then base
  else rstrip_char slash base ++ api_suffix.

(** The URL that [check_api_status] requests, line 128:
    f"{API_BASE_URL.replace('/api', '')}/health" *)
Definition health_url (base : str) : str :=
  replace api_suffix [] base ++ lit "/health".

End StreamlitApp.

(** [old] occurs in [s]. *)
Definition occurs (old s : StreamlitApp.str) : Prop :=
  exists pre post, s = pre ++ old ++ post.

(** *** More surroundings for the examples *)


(** The backend can be started, the dashboard cannot. *)
Definition no_dashboard : environment :=
  mkEnv (fun k => match k with 0 => ConnectionFailed | _ => Status 200 end)
        (fun s => match s with Backend => true | Frontend => false end)
        (fun _ _ => true) (fun _ _ => None) (fun _ => false).

(** Nothing listens; an interrupt arrives at moment 6, which in
    run_dashboard.py is the first sleep of the polling loop. *)
Definition interrupted_startup : environment :=
  mkEnv (fun _ => ConnectionFailed) (fun _ => true) (fun _ _ => true)
        (fun _ _ => None) (fun t => t =? 6).

(** The backend answers the first probe after its spawn; the dashboard
    never exits; an interrupt arrives at moment 15, when run_dashboard.py
    is waiting for the dashboard. *)
Definition interrupted_dashboard : environment :=
  mkEnv (fun k => match k with 0 => ConnectionFailed | _ => Status 200 end)
        (fun _ => true) (fun _ _ => false) (fun _ _ => None)
        (fun t => t =? 15).

(** The world of start_system.py when it enters its monitoring loop with
    a backend that was already there. *)
Definition monitoring_world : world :=
  mkWorld (found_running ++ dashboard_started ++ ready_lines) None (Some Frontend).

(** ** Vocabulary of the signal and startup properties *)


(** A signal delivered during a [time.sleep]. *)
Definition is_sleep_signal (e : event) : bool :=
  match e with
  | Signal (Sleep _) => true
  | _ => false
  end.




(** The first two lines of run_dashboard.py. *)
Definition rd_banner : list event :=
  [Print (Line "Fraud Detection Dashboard Launcher");
   Print (Line "==================================================")].

(** *** Surroundings with a signal during startup *)


(** Nothing listens; an interrupt arrives at moment 9, which in
    run_dashboard.py is the second sleep of the polling loop. *)
Definition interrupted_polling : environment :=
  mkEnv (fun _ => ConnectionFailed) (fun _ => true) (fun _ _ => true)
        (fun _ _ => None) (fun t => t =? 9).

(** How a piece of [main] stands with the signals that arrive in a
    sleep: none has arrived so far, or the [SystemExit(0)] of the
    handler is on its way up. *)
Definition sleep_outcome {A} (o : outcome A) (w : world) : Prop :=
  never is_sleep_signal w \/ o = Raised (SystemExit 0).

Unset Implicit Arguments.

(** ** The monad *)

Ltac worlds :=
  unfold log, extend, now in *;
  cbn [trace api_process streamlit_process fst snd] in *.

Lemma log_extend (e : event) (w : world) : log e w = extend w [e].
Proof. reflexivity. Qed.

Lemma extend_extend (w : world) (l1 l2 : list event) :
  extend (extend w l1) l2 = extend w (l1 ++ l2).
Proof. unfold extend; simpl. now rewrite app_assoc. Qed.

Lemma extend_nil (w : world) : extend w [] = w.
Proof. destruct w; unfold extend; simpl. now rewrite app_nil_r. Qed.

Lemma probes_app (l1 l2 : list event) :
  probes (l1 ++ l2) = probes l1 + probes l2.
Proof. unfold probes. now rewrite filter_app, length_app. Qed.

(** With no signal about, a blocking call just completes. *)
Lemma blocking_quiet (E : environment) (A : Type) (h : option (M unit))
      (c : call) (m : M A) (w : world) :
  signalled E (now w) = false -> blocking E h c m w = m w.
Proof.
  intros Hq. unfold blocking. destruct h; [now rewrite Hq | reflexivity].
Qed.

(** With a signal and a handler, the handler runs first. *)
Lemma blocking_signalled (E : environment) (A : Type) (handler : M unit)
      (c : call) (m : M A) (w : world) :
  signalled E (now w) = true ->
  blocking E (Some handler) c m w = (emit (Signal c) ;; handler ;; m) w.
Proof. intros Hs. unfold blocking. now rewrite Hs. Qed.

Lemma never_log (f : event -> bool) (e : event) (w : world) :
  f e = false -> never f w -> never f (log e w).
Proof. intros He Hw. apply Forall_app. split; [exact Hw | auto]. Qed.

(** ** The readiness probe *)

Lemma check_api_running_quiet (E : environment) (h : option (M unit)) (w : world) :
  signalled E (now w) = false ->
  StartSystem.check_api_running E h w =
    (Normal (match health E (probes (trace w)) with
             | Status c => (c =? 200)%Z
             | _ => false
             end),
     extend w [Http 3 (health E (probes (trace w)))]).
Proof.
  intros Hq. unfold StartSystem.check_api_running, try_except, bind, requests_get.
  rewrite blocking_quiet by assumption.
  destruct (health E (probes (trace w))); reflexivity.
Qed.

Lemma run_dashboard_check_quiet (E : environment) (w : world) :
  signalled E (now w) = false ->
  RunDashboard.check_api_running E w =
    (Normal (match health E (probes (trace w)) with
             | Status c => (c =? 200)%Z
             | _ => false
             end),
     extend w [Http 5 (health E (probes (trace w)))]).
Proof.
  intros Hq. unfold RunDashboard.check_api_running, try_except, bind, requests_get.
  rewrite blocking_quiet by assumption.
  destruct (health E (probes (trace w))); reflexivity.
Qed.

(** C8.  One call of the readiness probe during which no signal arrives
    makes exactly one request to the health endpoint, with a timeout (3 s
    in start_system.py, 5 s in run_dashboard.py) and no retry; it never
    raises; it answers [True] only for a success status (200), and it
    answers the same [False] for a refused connection, a timeout and
    every status that is not a success, leaving the globals alone. *)
Theorem probe_single_round_trip_uniform :
  forall (E : environment) (h : option (M unit)) (w : world),
    signalled E (now w) = false ->
    let o := health E (probes (trace w)) in
    let r1 := StartSystem.check_api_running E h w in
    let r2 := RunDashboard.check_api_running E w in
    snd r1 = extend w [Http 3 o] /\
    snd r2 = extend w [Http 5 o] /\
    fst r2 = fst r1 /\
    (fst r1 = Normal true \/ fst r1 = Normal false) /\
    (fst r1 = Normal true ->
     exists c, o = Status c /\ success_status c = true) /\
    (o = ConnectionFailed \/ o = TimedOut \/
     (exists c, o = Status c /\ success_status c = false) ->
     fst r1 = Normal false).
Proof.
  intros E h w Hq o r1 r2. subst r1 r2.
  rewrite check_api_running_quiet, run_dashboard_check_quiet by assumption.
  fold o. simpl.
  repeat split.
  - destruct o as [c| |]; [destruct (c =? 200)%Z|..]; auto.
  - destruct o as [c| |]; try discriminate.
    intros Heq. injection Heq as Heq. apply Z.eqb_eq in Heq. subst c.
    exists 200%Z. split; reflexivity.
  - intros [-> | [-> | [c [-> Hc]]]]; try reflexivity.
    destruct (Z.eqb_spec c 200) as [-> | _]; [discriminate Hc | reflexivity].
Qed.

(** ** The polling loop of [start_api] *)

Lemma time_sleep_quiet (E : environment) (h : option (M unit)) (s : Z) (w : world) :
  signalled E (now w) = false ->
  time_sleep E h s w = (Normal tt, extend w [Slept s]).
Proof. intros Hq. unfold time_sleep. now rewrite blocking_quiet. Qed.

Lemma not_ready_false (o : http_outcome) :
  o <> Status 200 ->
  match o with Status c => (c =? 200)%Z | _ => false end = false.
Proof.
  destruct o as [c| |]; try reflexivity.
  intros Hc. apply Z.eqb_neq. congruence.
Qed.

(** One round that does not see the backend. *)
Lemma wait_for_api_miss (E : environment) (h : option (M unit)) (n i : nat) (w : world) :
  quiet E ->
  health E (probes (trace w)) <> Status 200 ->
  StartSystem.wait_for_api E h (S n) i w =
  StartSystem.wait_for_api E h n (S i)
    (extend w (failed_rounds E (probes (trace w)) i 1)).
Proof.
  intros Hq Hmiss. simpl StartSystem.wait_for_api at 1. unfold bind at 1.
  rewrite time_sleep_quiet by apply Hq.
  unfold bind at 1. rewrite check_api_running_quiet by apply Hq.
  cbn [trace extend]. rewrite probes_app.
  change (probes [Slept 1]) with 0. rewrite Nat.add_0_r.
  rewrite not_ready_false by assumption.
  unfold bind, print, emit. rewrite !log_extend, !extend_extend. reflexivity.
Qed.

(** One round that sees it. *)
Lemma wait_for_api_hit (E : environment) (h : option (M unit)) (n i : nat) (w : world) :
  quiet E ->
  health E (probes (trace w)) = Status 200 ->
  StartSystem.wait_for_api E h (S n) i w = (Normal true, extend w ready_round).
Proof.
  intros Hq Hhit. simpl StartSystem.wait_for_api. unfold bind at 1.
  rewrite time_sleep_quiet by apply Hq.
  unfold bind at 1. rewrite check_api_running_quiet by apply Hq.
  cbn [trace extend]. rewrite probes_app.
  change (probes [Slept 1]) with 0. rewrite Nat.add_0_r, Hhit.
  unfold bind, print, emit, ret. simpl.
  rewrite !log_extend, !extend_extend. reflexivity.
Qed.

Lemma failed_rounds_probes (E : environment) (k p i : nat) :
  probes (failed_rounds E p i k) = k.
Proof.
  revert p i. induction k as [|k IH]; intros p i; [reflexivity|].
  simpl. unfold probes in *. simpl. now rewrite IH.
Qed.

Lemma failed_rounds_snoc (E : environment) (k p i : nat) :
  failed_rounds E p i (S k) =
  failed_rounds E p i k ++ failed_rounds E (p + k) (i + k) 1.
Proof.
  revert p i. induction k as [|k IH]; intros p i.
  - simpl. now rewrite !Nat.add_0_r.
  - change (failed_rounds E p i (S (S k)))
      with ([Slept 1; Http 3 (health E p); Print (Checking (i + 1) 15)]
              ++ failed_rounds E (S p) (S i) (S k)).
    rewrite IH.
    replace (S p + k) with (p + S k) by lia.
    replace (S i + k) with (i + S k) by lia. reflexivity.
Qed.

(** [k] rounds that do not see the backend, out of [n + k]. *)
Lemma wait_for_api_misses (E : environment) (h : option (M unit)) :
  quiet E ->
  forall (k n i : nat) (w : world),
    (forall j, j < k -> health E (probes (trace w) + j) <> Status 200) ->
    StartSystem.wait_for_api E h (k + n) i w =
    StartSystem.wait_for_api E h n (i + k)
      (extend w (failed_rounds E (probes (trace w)) i k)).
Proof.
  intros Hq k. induction k as [|k IH]; intros n i w Hmiss.
  - simpl. now rewrite extend_nil, Nat.add_0_r.
  - change (S k + n) with (S (k + n)).
    rewrite wait_for_api_miss; try assumption.
    2:{ specialize (Hmiss 0). rewrite Nat.add_0_r in Hmiss. apply Hmiss. lia. }
    rewrite IH.
    + rewrite extend_extend. cbn [trace extend].
      rewrite probes_app, failed_rounds_probes.
      replace (S i + k) with (i + S k) by lia.
      replace (probes (trace w) + 1) with (S (probes (trace w))) by lia.
      reflexivity.
    + intros j Hj. cbn [trace extend].
      rewrite probes_app, failed_rounds_probes.
      replace (probes (trace w) + 1 + j) with (probes (trace w) + S j) by lia.
      apply Hmiss. lia.
Qed.

Lemma failed_rounds_sleeps (E : environment) (k p i : nat) :
  List.length (filter is_sleep (failed_rounds E p i k)) = k.
Proof.
  revert p i. induction k as [|k IH]; intros p i; [reflexivity|].
  simpl. now rewrite IH.
Qed.

Lemma popen_ok (E : environment) (s : service) (w : world) :
  spawns E s = true -> popen E s w = (Normal s, extend w [Popen s true]).
Proof. intros H. unfold popen. now rewrite H. Qed.

(** [start_api] when the spawn works and the probe sees the backend in
    round [k + 1] for the first time. *)
Lemma start_api_ready (E : environment) (h : option (M unit)) (w : world) (k : nat) :
  quiet E -> spawns E Backend = true -> k < 15 ->
  (forall j, j < k -> health E (probes (trace w) + j) <> Status 200) ->
  health E (probes (trace w) + k) = Status 200 ->
  StartSystem.start_api E h w =
  (Normal true,
   mkWorld (trace w ++ spawn_backend
              ++ failed_rounds E (probes (trace w)) 0 k ++ ready_round)
           (Some Backend) (streamlit_process w)).
Proof.
  intros Hq Hs Hk Hmiss Hhit.
  unfold StartSystem.start_api, try_except, bind, print, emit.
  rewrite popen_ok by assumption.
  unfold set_api. cbn [trace extend log api_process streamlit_process].
  match goal with
  | |- context [StartSystem.wait_for_api E h 15 0 ?u] => set (w1 := u)
  end.
  assert (Hp : probes (trace w1) = probes (trace w)).
  { subst w1. cbn [log trace]. rewrite !probes_app. cbn. lia. }
  replace 15 with (k + S (14 - k)) by lia.
  rewrite (wait_for_api_misses E h Hq k (S (14 - k)) 0 w1)
    by (intros j Hj; rewrite Hp; auto).
  rewrite wait_for_api_hit; try assumption.
  - unfold ret. rewrite Hp. f_equal. subst w1.
    unfold extend, log. cbn [trace api_process streamlit_process].
    now rewrite <- !app_assoc.
  - cbn [trace extend]. rewrite probes_app, failed_rounds_probes, Hp. assumption.
Qed.


(** ** Undisturbed cleanup *)

Lemma stop_quiet (E : environment) (h : option (M unit)) (o : option service) (w : world) :
  quiet E ->
  StartSystem.stop E h o w = (Normal tt, extend w (owned_stop_events E o (now w))).
Proof.
  intros Hq. destruct o as [p|]; simpl.
  - unfold bind, terminate, emit, try_except, wait.
    rewrite blocking_quiet by apply Hq.
    unfold owned_stop_events, stop_events, now, log. cbn [trace].
    rewrite length_app. cbn [List.length]. rewrite Nat.add_1_r.
    destruct (exits_within E p (S (List.length (trace w)))).
    + unfold extend. cbn [trace api_process streamlit_process].
      now rewrite <- app_assoc.
    + unfold kill, emit, log, extend. cbn [trace api_process streamlit_process].
      now rewrite <- !app_assoc.
  - unfold ret. now rewrite extend_nil.
Qed.

Lemma cleanup_body_quiet (E : environment) (h : option (M unit)) (w : world) :
  quiet E ->
  StartSystem.cleanup_body E h w = (Normal tt, extend w (cleanup_events E w)).
Proof.
  intros Hq. unfold StartSystem.cleanup_body, bind, print, emit, get_streamlit, get_api.
  rewrite !stop_quiet by assumption.
  unfold cleanup_events, log, extend, now.
  cbn [trace api_process streamlit_process].
  f_equal. f_equal.
  rewrite !length_app. cbn [List.length].
  rewrite <- !app_assoc. cbn [app].
  rewrite Nat.add_1_r.
  replace (S (List.length (trace w)) +
           List.length (owned_stop_events E (streamlit_process w) (S (List.length (trace w)))))
    with (List.length (trace w) +
          S (List.length (owned_stop_events E (streamlit_process w) (S (List.length (trace w))))))
    by lia.
  reflexivity.
Qed.

Lemma cleanup_quiet (E : environment) (d : nat) (w : world) :
  quiet E ->
  StartSystem.cleanup E d w = (Normal tt, extend w (cleanup_events E w)).
Proof. intros Hq. now apply cleanup_body_quiet. Qed.

(** ** Startup that times out *)

Lemma wait_for_api_exhausted (E : environment) (h : option (M unit)) (i : nat) (w : world) :
  StartSystem.wait_for_api E h 0 i w = (Normal false, w).
Proof. reflexivity. Qed.

Lemma start_api_timeout (E : environment) (h : option (M unit)) (w : world) :
  quiet E -> spawns E Backend = true ->
  (forall j, j < 15 -> health E (probes (trace w) + j) <> Status 200) ->
  StartSystem.start_api E h w =
  (Normal false,
   mkWorld (trace w ++ spawn_backend
              ++ failed_rounds E (probes (trace w)) 0 15 ++ loop_exhausted)
           (Some Backend) (streamlit_process w)).
Proof.
  intros Hq Hs Hmiss.
  unfold StartSystem.start_api, try_except, bind, print, emit.
  rewrite popen_ok by assumption.
  unfold set_api. cbn [trace extend log api_process streamlit_process].
  match goal with
  | |- context [StartSystem.wait_for_api E h 15 0 ?u] => set (w1 := u)
  end.
  assert (Hp : probes (trace w1) = probes (trace w)).
  { subst w1. cbn [log trace]. rewrite !probes_app. cbn. lia. }
  change 15 with (15 + 0) at 1.
  rewrite (wait_for_api_misses E h Hq 15 0 0 w1)
    by (intros j Hj; rewrite Hp; auto).
  rewrite wait_for_api_exhausted, Hp.
  unfold get_api, terminate, emit, ret. subst w1. worlds.
  f_equal. f_equal. now rewrite <- !app_assoc.
Qed.

Lemma failed_rounds_no_popen (E : environment) (s : service) (ok : bool) (k p i : nat) :
  ~ In (Popen s ok) (failed_rounds E p i k).
Proof.
  revert p i. induction k as [|k IH]; intros p i; simpl.
  - tauto.
  - intros [H | [H | [H | H]]]; try discriminate. now apply IH in H.
Qed.

Lemma stop_events_no_popen (E : environment) (s p : service) (ok : bool) (t : nat) :
  ~ In (Popen s ok) (stop_events E p t).
Proof.
  unfold stop_events. destruct (exits_within E p (S t)); simpl;
    intuition discriminate.
Qed.

Lemma in_timed_out_loop_exhausted (E : environment) (e : event) :
  In e loop_exhausted -> In e (timed_out_startup E).
Proof. unfold timed_out_startup. rewrite !in_app_iff. tauto. Qed.

(** C4.  When the backend is spawned but its health endpoint never
    answers 200 and no signal arrives, the run ends with exit status 1:
    after the probe made before the spawn, [start_api] sleeps one second
    and probes, 15 times over, prints that the server failed to start
    within 15 seconds and sends the backend a termination request; [main]
    calls [sys.exit(1)]; the exit function terminates the backend once
    more and waits for it.  The dashboard is never spawned. *)
Theorem startup_timeout_aborts :
  forall (E : environment) (d fuel : nat),
    quiet E ->
    spawns E Backend = true ->
    (forall k, health E k <> Status 200) ->
    let r := StartSystem.run E d fuel in
    fst r = Exited 1 /\
    trace (snd r) =
      timed_out_startup E
        ++ Print (Line "Shutting down services...")
        :: stop_events E Backend (S (List.length (timed_out_startup E)))
        ++ [Print (Line "All services stopped")] /\
    probes (failed_rounds E 1 0 15) = 15 /\
    List.length (filter is_sleep (failed_rounds E 1 0 15)) = 15 /\
    In (Print (Line "API server failed to start within 15 seconds"))
       (trace (snd r)) /\
    In (Terminate Backend) (trace (snd r)) /\
    (forall ok, ~ In (Popen Frontend ok) (trace (snd r))) /\
    streamlit_process (snd r) = None.
Proof.
  intros E d fuel Hq Hs Hnever r.
  assert (Hmain : StartSystem.main E d fuel initial =
                  (Raised (SystemExit 1),
                   mkWorld (timed_out_startup E) (Some Backend) None)).
  { unfold StartSystem.main, bind at 1 2 3, print, emit.
    rewrite check_api_running_quiet by apply Hq.
    cbn [log initial trace app probes filter List.length].
    rewrite not_ready_false by apply Hnever.
    unfold bind at 1 2.
    rewrite start_api_timeout; try assumption; [|intros; apply Hnever].
    reflexivity. }
  assert (Hr : r = (Exited 1,
                    extend (mkWorld (timed_out_startup E) (Some Backend) None)
                           (cleanup_events E
                              (mkWorld (timed_out_startup E) (Some Backend) None)))).
  { subst r. unfold StartSystem.run. rewrite Hmain.
    now rewrite cleanup_quiet. }
  rewrite Hr. unfold cleanup_events. worlds. cbn [owned_stop_events List.length].
  rewrite Nat.add_1_r. cbn [app].
  split; [reflexivity|]. split; [reflexivity|].
  split; [apply failed_rounds_probes|].
  split; [apply failed_rounds_sleeps|].
  split; [|split; [|split; [|reflexivity]]].
  - apply in_or_app. left. apply in_timed_out_loop_exhausted. simpl. auto.
  - apply in_or_app. left. apply in_timed_out_loop_exhausted. simpl. auto.
  - intros ok Hin. apply in_app_or in Hin as [Hin | Hin].
    + unfold timed_out_startup in Hin. rewrite !in_app_iff in Hin.
      destruct Hin as [Hin | [Hin | [Hin | [Hin | [Hin | Hin]]]]];
        try (now apply failed_rounds_no_popen in Hin);
        simpl in Hin; intuition discriminate.
    + destruct Hin as [Hin | Hin]; [discriminate|].
      apply in_app_or in Hin as [Hin | Hin].
      * now apply stop_events_no_popen in Hin.
      * simpl in Hin. intuition discriminate.
Qed.

(** ** Reasoning about any run *)

Lemma wp_bind (A B : Type) (m : M A) (k : A -> M B)
      (Q : outcome B -> world -> Prop) (w : world) :
  wp m (fun o w' =>
          match o with
          | Normal a => wp (k a) Q w'
          | Raised e => Q (Raised e) w'
          | StillRunning => Q StillRunning w'
          end) w ->
  wp (bind m k) Q w.
Proof. unfold wp, bind. destruct (m w) as [[a|e|] w']; auto. Qed.

Lemma wp_try_except (A : Type) (body : M A) (catches : exn -> bool)
      (handler : M A) (Q : outcome A -> world -> Prop) (w : world) :
  wp body (fun o w' =>
             match o with
             | Raised e => if catches e then wp handler Q w' else Q (Raised e) w'
             | _ => Q o w'
             end) w ->
  wp (try_except body catches handler) Q w.
Proof.
  unfold wp, try_except. destruct (body w) as [[a|e|] w']; auto.
  cbn [fst snd]. destruct (catches e); auto.
Qed.

Lemma wp_try_finally (A : Type) (body : M A) (fin : M unit)
      (Q : outcome A -> world -> Prop) (w : world) :
  wp body (fun o w' =>
             match o with
             | StillRunning => Q StillRunning w'
             | _ => wp fin (fun o2 w'' =>
                              match o2 with
                              | Normal _ => Q o w''
                              | Raised e => Q (Raised e) w''
                              | StillRunning => Q StillRunning w''
                              end) w'
             end) w ->
  wp (try_finally body fin) Q w.
Proof.
  unfold wp, try_finally. destruct (body w) as [[a|e|] w']; cbn [fst snd]; auto.
  - destruct (fin w') as [[u|e|] w'']; auto.
  - destruct (fin w') as [[u|e2|] w'']; auto.
Qed.

Lemma wp_mono (A : Type) (m : M A) (Q Q' : outcome A -> world -> Prop) (w : world) :
  wp m Q w -> (forall o w', Q o w' -> Q' o w') -> wp m Q' w.
Proof. unfold wp. auto. Qed.

Lemma wp_blocking (E : environment) (A : Type) (h : option (M unit)) (c : call)
      (complete : M A) (Q : outcome A -> world -> Prop) (w : world) :
  wp complete Q w ->
  (forall handler, h = Some handler ->
     wp handler (fun o w' =>
                   match o with
                   | Normal _ => wp complete Q w'
                   | Raised e => Q (Raised e) w'
                   | StillRunning => Q StillRunning w'
                   end) (log (Signal c) w)) ->
  wp (blocking E h c complete) Q w.
Proof.
  intros Hc Hh. unfold blocking. destruct h as [handler|]; [|exact Hc].
  specialize (Hh handler eq_refl).
  unfold wp in *. destruct (signalled E (now w)); [|exact Hc].
  unfold bind, emit.
  destruct (handler (log (Signal c) w)) as [[u|e|] w']; auto.
Qed.

Lemma wp_emit (e : event) (Q : outcome unit -> world -> Prop) (w : world) :
  Q (Normal tt) (log e w) -> wp (emit e) Q w.
Proof. auto. Qed.

Lemma wp_ret (A : Type) (a : A) (Q : outcome A -> world -> Prop) (w : world) :
  Q (Normal a) w -> wp (ret a) Q w.
Proof. auto. Qed.

(** *** Properties that every step keeps

    [I] is a property of worlds that survives each call the script can
    make in a world that has it.  The calls on a process are only ever
    made on an owned one. *)
Section Safety.

Variable E : environment.
Variable I : world -> Prop.

Hypothesis I_print : forall m w, I w -> I (log (Print m) w).
Hypothesis I_signal : forall c w, I w -> I (log (Signal c) w).
Hypothesis I_exit : forall c w, I w -> I (log (Exit c) w).
Hypothesis I_slept : forall s w, I w -> I (log (Slept s) w).
Hypothesis I_http : forall t r w, I w -> I (log (Http t r) w).
Hypothesis I_terminate :
  forall p w, I w -> owned w p -> I (log (Terminate p) w).
Hypothesis I_waited :
  forall p t b w, I w -> owned w p -> I (log (Waited p t b) w).
Hypothesis I_kill : forall p w, I w -> owned w p -> I (log (Kill p) w).
Hypothesis I_polled :
  forall p rc w, I w -> owned w p -> I (log (Polled p rc) w).
Hypothesis I_backend_spawned : forall w, I w -> I (spawned Backend w).
Hypothesis I_frontend_spawned : forall w, I w -> I (spawned Frontend w).

(** [R]: the backend has been seen to be up. *)
Variable R : world -> Prop.
Hypothesis R_seen : forall t w, I w -> R (log (Http t (Status 200)) w).
Hypothesis R_log : forall e w, R w -> R (log e w).
Hypothesis I_backend_not_spawned :
  forall w, I w -> I (log (Popen Backend false) w).
Hypothesis I_frontend_not_spawned :
  forall w, I w -> I (log (Popen Frontend false) w).

Lemma stop_safe (h : option (M unit)) (o : option service) (w : world) :
  leaves I h -> I w -> (forall p, o = Some p -> owned w p) ->
  wp (StartSystem.stop E h o) (fun r w' => I w' /\ returns_or_exits r) w.
Proof using I_signal I_terminate I_waited I_kill.
  intros Hh HI Ho. destruct o as [p|]; [|apply wp_ret; split; [auto | exact Logic.I]].
  specialize (Ho p eq_refl).
  cbn [StartSystem.stop]. apply wp_bind. apply wp_emit.
  apply wp_try_except. apply wp_blocking.
  - unfold wp. cbn [now]. destruct (exits_within E p _); cbn [fst snd].
    + split; [auto | exact Logic.I].
    + cbn [is_TimeoutExpired]. unfold wp, kill, emit. cbn [fst snd].
      split; [|exact Logic.I].
      apply I_kill; [apply I_waited; auto|]; auto.
  - intros handler Hhandler.
    eapply wp_mono; [apply (Hh handler Hhandler); auto|].
    intros o w' [HI' ->]. cbn [is_TimeoutExpired]. split; [auto | reflexivity].
Qed.

Lemma cleanup_body_safe (h : option (M unit)) (w : world) :
  leaves I h -> I w ->
  wp (StartSystem.cleanup_body E h) (fun r w' => I w' /\ returns_or_exits r) w.
Proof using I_print I_signal I_terminate I_waited I_kill.
  intros Hh HI. unfold StartSystem.cleanup_body.
  apply wp_bind, wp_emit, wp_bind. unfold wp at 1, get_streamlit. cbn [fst snd].
  apply wp_bind.
  eapply wp_mono; [apply stop_safe; auto; intros p Hp; right; exact Hp|].
  intros [[]|e|] w1 [HI1 Hr]; cbn in Hr;
    [|split; [auto | exact Hr] | contradiction].
  apply wp_bind. unfold wp at 1, get_api. cbn [fst snd].
  apply wp_bind.
  eapply wp_mono; [apply stop_safe; auto; intros p Hp; left; exact Hp|].
  intros [[]|e|] w2 [HI2 Hr2]; cbn in Hr2;
    [|split; [auto | exact Hr2] | contradiction].
  apply wp_emit. split; [auto | exact Logic.I].
Qed.

(** The handler of start_system.py, at every depth. *)
Lemma installed_leaves (d : nat) : leaves I (StartSystem.installed E d).
Proof using I_print I_signal I_terminate I_waited I_kill I_exit.
  induction d as [|d IH]; intros handler Hhandler w HI; [discriminate|].
  cbn [StartSystem.installed] in Hhandler. injection Hhandler as <-.
  apply wp_bind.
  eapply wp_mono; [apply cleanup_body_safe; auto|].
  intros [[]|e|] w1 [HI1 Hr]; cbn in Hr; [| |contradiction].
  - unfold wp, sys_exit. cbn [fst snd]. auto.
  - subst e. auto.
Qed.

Lemma cleanup_safe (d : nat) (w : world) :
  I w ->
  wp (StartSystem.cleanup E d) (fun r w' => I w' /\ returns_or_exits r) w.
Proof using I_print I_signal I_terminate I_waited I_kill I_exit.
  intros HI. apply cleanup_body_safe; [apply installed_leaves | exact HI].
Qed.

Lemma check_api_running_safe (h : option (M unit)) (w : world) :
  leaves I h -> I w ->
  wp (StartSystem.check_api_running E h) (fun r w' => I w' /\ answers R r w') w.
Proof using I_signal I_http R_seen.
  intros Hh HI. unfold StartSystem.check_api_running.
  apply wp_try_except, wp_bind. unfold requests_get. apply wp_blocking.
  - unfold wp. destruct (health E (probes (trace w))) as [c| |] eqn:Hc;
      cbn [fst snd any_exception ret]; (split; [auto|]); try exact Logic.I.
    cbn [answers]. destruct (Z.eqb_spec c 200) as [-> | _]; [auto | exact Logic.I].
  - intros handler Hhandler.
    eapply wp_mono; [apply (Hh handler Hhandler); auto|].
    intros o w' [HI' ->]. cbn [any_exception]. apply wp_ret.
    split; [auto | exact Logic.I].
Qed.

Lemma time_sleep_safe (h : option (M unit)) (s : Z) (w : world) :
  leaves I h -> I w ->
  wp (time_sleep E h s) (fun r w' => I w' /\ returns_or_exits r) w.
Proof using I_signal I_slept.
  intros Hh HI. unfold time_sleep. apply wp_blocking.
  - apply wp_emit. split; [auto | exact Logic.I].
  - intros handler Hhandler.
    eapply wp_mono; [apply (Hh handler Hhandler); auto|].
    intros o w' [HI' ->]. split; [auto | reflexivity].
Qed.

Lemma wait_for_api_safe (h : option (M unit)) (n i : nat) (w : world) :
  leaves I h -> I w ->
  wp (StartSystem.wait_for_api E h n i) (fun r w' => I w' /\ answers R r w') w.
Proof using I_print I_signal I_slept I_http R_seen R_log.
  intros Hh. revert i w. induction n as [|n IH]; intros i w HI.
  - apply wp_ret. split; [auto | exact Logic.I].
  - cbn [StartSystem.wait_for_api]. apply wp_bind.
    eapply wp_mono; [apply time_sleep_safe; auto|].
    intros [[]|e|] w1 [HI1 Hr]; cbn in Hr;
      [|split; [auto | exact Hr] | contradiction].
    apply wp_bind.
    eapply wp_mono; [apply check_api_running_safe; auto|].
    intros [[|]|e|] w2 [HI2 Hr2]; cbn in Hr2;
      [| |split; [auto | exact Hr2] | contradiction].
    + apply wp_bind, wp_emit, wp_ret. split; [auto|]. cbn. auto.
    + apply wp_bind, wp_emit. apply IH. auto.
Qed.

Lemma start_api_safe (h : option (M unit)) (w : world) :
  leaves I h -> I w ->
  wp (StartSystem.start_api E h) (fun r w' => I w' /\ answers R r w') w.
Proof using I_print I_signal I_slept I_http I_terminate I_backend_spawned
      I_backend_not_spawned R_seen R_log.
  intros Hh HI. unfold StartSystem.start_api.
  apply wp_bind, wp_emit, wp_try_except, wp_bind.
  unfold wp at 1, popen.
  destruct (spawns E Backend); cbn [fst snd is_Exception].
  - apply wp_bind. unfold wp at 1, set_api. cbn [fst snd].
    apply wp_bind, wp_emit, wp_bind.
    assert (HI1 : I (log (Print (Line "Waiting for API to start..."))
                         (spawned Backend (log (Print (Line "Starting API server...")) w))))
      by auto.
    eapply wp_mono; [apply wait_for_api_safe; [exact Hh | exact HI1]|].
    intros [[|]|e|] w2 [HI2 Hr2]; cbn in Hr2;
      [| |subst e; cbn; split; [auto | reflexivity] | contradiction].
    + apply wp_ret. split; auto.
    + apply wp_bind, wp_emit, wp_bind. unfold wp at 1, get_api. cbn [fst snd].
      set (w3 := log _ w2). assert (HI3 : I w3) by (subst w3; auto).
      clearbody w3.
      destruct (api_process w3) as [p|] eqn:Hp.
      * apply wp_bind, wp_emit, wp_ret. split; [|exact Logic.I].
        apply I_terminate; [auto | now left].
      * apply wp_bind, wp_ret, wp_ret. split; [auto | exact Logic.I].
  - apply wp_bind, wp_emit, wp_ret. split; [auto | exact Logic.I].
Qed.

Lemma start_streamlit_safe (h : option (M unit)) (w : world) :
  leaves I h -> I w ->
  wp (StartSystem.start_streamlit E h)
     (fun r w' => I w' /\ answers (fun _ => True) r w') w.
Proof using I_print I_signal I_slept I_frontend_spawned
      I_frontend_not_spawned.
  intros Hh HI. unfold StartSystem.start_streamlit.
  apply wp_bind, wp_emit, wp_try_except, wp_bind.
  unfold wp at 1, popen.
  destruct (spawns E Frontend); cbn [fst snd is_Exception].
  - apply wp_bind. unfold wp at 1, set_streamlit. cbn [fst snd].
    apply wp_bind.
    assert (HI1 : I (spawned Frontend (log (Print (Line "Starting Streamlit dashboard...")) w)))
      by auto.
    eapply wp_mono; [apply time_sleep_safe; [exact Hh | exact HI1]|].
    intros [[]|e|] w2 [HI2 Hr2]; cbn in Hr2;
      [|subst e; cbn; split; [auto | reflexivity] | contradiction].
    apply wp_bind, wp_emit, wp_ret. split; [auto | exact Logic.I].
  - apply wp_bind, wp_emit, wp_ret. split; [auto | exact Logic.I].
Qed.

(** One liveness check of the monitoring loop. *)
Lemma poll_owned_safe (o : option service) (w : world) :
  I w -> (forall p, o = Some p -> owned w p) ->
  wp (match o with
      | Some proc => rc <- poll E proc ;; ret (is_some rc)
      | None => ret false
      end)
     (fun r w' => I w' /\ exists b, r = Normal b) w.
Proof using I_polled.
  intros HI Ho. destruct o as [p|].
  - apply wp_bind. unfold wp at 1, poll. cbn [fst snd]. apply wp_ret.
    split; [apply I_polled; auto | eauto].
  - apply wp_ret. split; [auto | eauto].
Qed.

Lemma monitor_safe (h : option (M unit)) (fuel : nat) (w : world) :
  leaves I h -> I w ->
  wp (StartSystem.monitor E h fuel) (fun r w' => I w' /\ exits_cleanly r) w.
Proof using I_print I_signal I_slept I_polled.
  intros Hh. revert w. induction fuel as [|fuel IH]; intros w HI.
  - unfold wp. cbn. auto.
  - cbn [StartSystem.monitor]. apply wp_bind.
    eapply wp_mono; [apply time_sleep_safe; auto|].
    intros [[]|e|] w1 [HI1 Hr]; cbn in Hr;
      [|split; [auto | exact Hr] | contradiction].
    apply wp_bind. unfold wp at 1, get_api. cbn [fst snd]. apply wp_bind.
    eapply wp_mono; [apply poll_owned_safe; [exact HI1 | intros p Hp; now left]|].
    intros r w2 [HI2 [b ->]]. destruct b.
    + apply wp_emit. split; [auto | exact Logic.I].
    + apply wp_bind. unfold wp at 1, get_streamlit. cbn [fst snd]. apply wp_bind.
      eapply wp_mono; [apply poll_owned_safe; [exact HI2 | intros p Hp; now right]|].
      intros r w3 [HI3 [b ->]]. destruct b.
      * apply wp_emit. split; [auto | exact Logic.I].
      * apply IH. exact HI3.
Qed.

Lemma monitor_finally_safe (d fuel : nat) (w : world) :
  I w ->
  wp (try_finally
        (try_except (StartSystem.monitor E (StartSystem.installed E d) fuel)
                    is_KeyboardInterrupt (ret tt))
        (StartSystem.cleanup E d))
     (fun r w' => I w' /\ exits_cleanly r) w.
Proof using I_print I_signal I_slept I_polled I_terminate I_waited I_kill I_exit.
  intros HI. apply wp_try_finally, wp_try_except.
  eapply wp_mono; [apply monitor_safe; [apply installed_leaves | exact HI]|].
  intros [[]|e|] w1 [HI1 Hr]; cbn in Hr; [| |auto using Logic.I].
  - eapply wp_mono; [apply cleanup_safe; exact HI1|].
    intros [[]|e|] w2 [HI2 Hr2]; cbn in Hr2; cbn; auto; contradiction.
  - subst e. cbn [is_KeyboardInterrupt].
    eapply wp_mono; [apply cleanup_safe; exact HI1|].
    intros [[]|e|] w2 [HI2 Hr2]; cbn in Hr2; cbn; auto; contradiction.
Qed.

Lemma main_after_api_safe (d fuel : nat) (w : world) :
  I w ->
  wp (StartSystem.main_after_api E d fuel) (fun r w' => I w' /\ exits_0_or_1 r) w.
Proof using I_print I_signal I_slept I_polled I_terminate I_waited I_kill
      I_exit I_frontend_spawned I_frontend_not_spawned.
  intros HI. unfold StartSystem.main_after_api. apply wp_bind.
  eapply wp_mono; [apply start_streamlit_safe; [apply installed_leaves | exact HI]|].
  intros [[|]|e|] w1 [HI1 Hr]; cbn in Hr;
    [| |subst e; cbn; auto | contradiction].
  - apply wp_bind, wp_ret.
    do 5 apply wp_bind, wp_emit.
    eapply wp_mono; [apply monitor_finally_safe; auto 10|].
    intros [[]|e|] w2 [HI2 Hr2]; cbn in Hr2; cbn; auto.
  - apply wp_bind, wp_bind.
    eapply wp_mono; [apply cleanup_safe; exact HI1|].
    intros [[]|e|] w2 [HI2 Hr2]; cbn in Hr2; [| |contradiction].
    + unfold wp, sys_exit. cbn. auto.
    + subst e. cbn. auto.
Qed.

End Safety.

(** ** A backend that was already running *)

Lemma blocking_undisturbed (E : environment) (A : Type) (d : nat) (c : call)
      (m : M A) (w : world) :
  d = 0 \/ signalled E (now w) = false ->
  blocking E (StartSystem.installed E d) c m w = m w.
Proof.
  intros [-> | Hq]; [reflexivity | now apply blocking_quiet].
Qed.

(** [main] when its first probe gets status 200. *)
Lemma main_found_running (E : environment) (d fuel : nat) :
  health E 0 = Status 200 ->
  first_probe_undisturbed E d ->
  StartSystem.main E d fuel initial =
  StartSystem.main_after_api E d fuel (mkWorld found_running None None).
Proof.
  intros Hup Hq. unfold StartSystem.main, bind at 1 2 3, print, emit.
  unfold StartSystem.check_api_running, try_except, bind at 1, requests_get.
  rewrite blocking_undisturbed by exact Hq.
  cbn [log initial trace app probes filter is_http List.length].
  rewrite Hup. reflexivity.
Qed.











(** ** The dashboard is spawned after the backend was seen *)

Lemma seen_ready_app (l l' : list event) : seen_ready l -> seen_ready (l ++ l').
Proof. intros [t Ht]. exists t. apply in_or_app. now left. Qed.

Lemma gated_snoc (l : list event) (e : event) :
  gated l -> is_frontend_spawn e = false \/ seen_ready l -> gated (l ++ [e]).
Proof.
  intros Hg He pre ok post Heq.
  destruct (exists_last (l := Popen Frontend ok :: post)) as (post' & x & Hlast);
    [discriminate|].
  rewrite Hlast, app_assoc in Heq. apply app_inj_tail in Heq as [Hl <-].
  destruct post' as [|y post'].
  - cbn in Hlast. injection Hlast as <- ->. rewrite app_nil_r in Hl. subst pre.
    destruct He as [He | He]; [discriminate | exact He].
  - cbn in Hlast. injection Hlast as <- Hpost.
    apply (Hg pre ok post'). exact Hl.
Qed.

Lemma gated_nil : gated [].
Proof. intros [|x pre] ok post H; discriminate. Qed.

Lemma gated_log (e : event) (w : world) :
  is_frontend_spawn e = false -> gated (trace w) -> gated (trace (log e w)).
Proof. intros He Hg. apply gated_snoc; auto. Qed.

(** Once the backend has been seen, anything may follow. *)
Lemma open_log (e : event) (w : world) :
  gated (trace w) /\ seen_ready (trace w) ->
  gated (trace (log e w)) /\ seen_ready (trace (log e w)).
Proof.
  intros [Hg Hs]. split; [apply gated_snoc; auto | now apply seen_ready_app].
Qed.

Lemma open_spawned (s : service) (w : world) :
  gated (trace w) /\ seen_ready (trace w) ->
  gated (trace (spawned s w)) /\ seen_ready (trace (spawned s w)).
Proof.
  intros [Hg Hs]. destruct s; cbn [spawned trace];
    (split; [apply gated_snoc; auto | now apply seen_ready_app]).
Qed.

Lemma open_main_after_api (E : environment) (d fuel : nat) (w : world) :
  gated (trace w) -> seen_ready (trace w) ->
  wp (StartSystem.main_after_api E d fuel) (fun _ w' => gated (trace w')) w.
Proof.
  intros Hg Hs.
  eapply wp_mono.
  - apply (main_after_api_safe E
             (fun w => gated (trace w) /\ seen_ready (trace w)));
      try (split; assumption); intros;
      solve [now apply open_log | now apply open_spawned].
  - intros o w' [[Hg' _] _]. exact Hg'.
Qed.

Lemma gated_main (E : environment) (d fuel : nat) :
  wp (StartSystem.main E d fuel) (fun _ w' => gated (trace w')) initial.
Proof.
  set (I := fun w : world => gated (trace w)).
  set (R := fun w : world => seen_ready (trace w)).
  assert (Hlog : forall e w, is_frontend_spawn e = false -> I w -> I (log e w))
    by (intros; now apply gated_log).
  assert (Hseen : forall t w, I w -> R (log (Http t (Status 200)) w)).
  { intros t w _. exists t. apply in_or_app. right. now left. }
  assert (Hmono : forall e w, R w -> R (log e w))
    by (intros e w Hw; now apply seen_ready_app).
  assert (Hh : leaves I (StartSystem.installed E d)).
  { apply installed_leaves; intros; now apply Hlog. }
  unfold StartSystem.main. do 2 apply wp_bind, wp_emit. apply wp_bind.
  eapply wp_mono.
  { apply (check_api_running_safe E I) with (R := R); auto.
    repeat apply Hlog; auto. exact gated_nil. }
  intros [[|]|e|] w1 [HI1 Hr]; cbn in Hr; [| |exact HI1 | contradiction].
  - apply wp_bind, wp_emit. apply open_main_after_api; [apply Hlog | apply Hmono]; auto.
  - apply wp_bind, wp_bind.
    eapply wp_mono.
    { apply (start_api_safe E I) with (R := R); auto.
      intros w Hw. cbn [spawned]. apply gated_snoc; auto. }
    intros [[|]|e|] w2 [HI2 Hr2]; cbn in Hr2; [| |exact HI2 | contradiction].
    + apply wp_ret. apply open_main_after_api; auto.
    + apply wp_bind, wp_emit. unfold wp, sys_exit. cbn [fst snd]. auto.
Qed.

(** The same for run_dashboard.py, where an interrupt raises
    [KeyboardInterrupt] in the call it arrives in. *)
Section RunDashboardGate.

Variable E : environment.


Lemma rd_log (e : event) (w : world) :
  is_frontend_spawn e = false -> log_gated w -> log_gated (log e w).
Proof. intros; now apply gated_log. Qed.

Lemma rd_mono (e : event) (w : world) : log_seen_ready w -> log_seen_ready (log e w).
Proof. intros Hw; now apply seen_ready_app. Qed.

Lemma rd_check_api_running (w : world) :
  log_gated w ->
  wp (RunDashboard.check_api_running E)
     (fun r w' => log_gated w' /\ answers log_seen_ready r w') w.
Proof.
  intros HI. unfold RunDashboard.check_api_running.
  apply wp_try_except, wp_bind. unfold requests_get. apply wp_blocking.
  - unfold wp. destruct (health E (probes (trace w))) as [c| |] eqn:Hc;
      cbn [fst snd any_exception ret];
      (split; [apply rd_log; auto|]); try exact Logic.I.
    cbn [answers]. destruct (Z.eqb_spec c 200) as [-> | _]; [|exact Logic.I].
    exists 5%Z. apply in_or_app. right. now left.
  - intros handler Hhandler. injection Hhandler as <-.
    unfold wp, raise. cbn [fst snd any_exception ret].
    split; [apply rd_log; auto | exact Logic.I].
Qed.

Lemma rd_time_sleep (s : Z) (w : world) :
  log_gated w ->
  wp (time_sleep E RunDashboard.default_int_handler s) (fun _ w' => log_gated w') w.
Proof.
  intros HI. unfold time_sleep. apply wp_blocking.
  - apply wp_emit. apply rd_log; auto.
  - intros handler Hhandler. injection Hhandler as <-.
    unfold wp, raise. cbn [fst snd]. apply rd_log; auto.
Qed.

Lemma rd_wait_for_api (p : service) (n i : nat) (w : world) :
  log_gated w ->
  wp (RunDashboard.wait_for_api E p n i)
     (fun r w' => log_gated w' /\ forall q, r = Normal (Some q) -> log_seen_ready w') w.
Proof.
  revert i w. induction n as [|n IH]; intros i w HI.
  - apply wp_ret. split; [auto | discriminate].
  - cbn [RunDashboard.wait_for_api]. apply wp_bind.
    eapply wp_mono; [apply rd_time_sleep; auto|].
    intros [[]|e|] w1 HI1; try (split; [auto | discriminate]).
    apply wp_bind.
    eapply wp_mono; [apply rd_check_api_running; auto|].
    intros [[|]|e|] w2 [HI2 Hr2]; cbn in Hr2;
      try (split; [auto | discriminate]).
    + apply wp_bind, wp_emit, wp_ret. split; [apply rd_log; auto|].
      intros _ _. now apply rd_mono.
    + apply wp_bind, wp_emit. apply IH. apply rd_log; auto.
Qed.

Lemma rd_start_api (w : world) :
  log_gated w ->
  wp (RunDashboard.start_api E)
     (fun r w' => log_gated w' /\ forall q, r = Normal (Some q) -> log_seen_ready w') w.
Proof.
  intros HI. unfold RunDashboard.start_api.
  apply wp_bind, wp_emit, wp_try_except, wp_bind.
  unfold wp at 1, popen.
  destruct (spawns E Backend); cbn [fst snd is_Exception].
  - apply wp_bind, wp_emit, wp_bind.
    eapply wp_mono; [apply rd_wait_for_api; repeat apply rd_log; auto|].
    intros [[q|]|e|] w2 [HI2 Hr2].
    + apply wp_ret. split; [auto | intros; eapply Hr2; reflexivity].
    + apply wp_bind, wp_emit, wp_bind, wp_emit, wp_ret.
      split; [repeat apply rd_log; auto | discriminate].
    + destruct (is_Exception e).
      * apply wp_bind, wp_emit, wp_ret.
        split; [apply rd_log; auto | discriminate].
      * split; [auto | discriminate].
    + split; [auto | discriminate].
  - apply wp_bind, wp_emit, wp_ret.
    split; [repeat apply rd_log; auto | discriminate].
Qed.

(** From the spawn of the dashboard on. *)
Lemma rd_open_log (e : event) (w : world) : log_gated w /\ log_seen_ready w -> log_gated (log e w) /\ log_seen_ready (log e w).
Proof. apply open_log. Qed.

Lemma rd_main_tail (api_process : option service) (w : world) :
  log_gated w -> log_seen_ready w ->
  wp (r <- RunDashboard.start_streamlit E ;;
      match r with
      | None =>
          match api_process with
          | Some p => terminate p
          | None => ret tt
          end ;;
          sys_exit 1
      | Some streamlit_process =>
          print (Line "Fraud Detection System is ready!") ;;
          print (Line "Dashboard: http://localhost:8501") ;;
          print (Line "API: http://localhost:8001/docs") ;;
          print (Line "Press Ctrl+C to stop all services") ;;
          try_except
            (wait_exit E RunDashboard.default_int_handler streamlit_process)
            is_KeyboardInterrupt
            (print (Line "Stopping services...") ;;
             match api_process with
             | Some p => terminate p
             | None => ret tt
             end ;;
             terminate streamlit_process ;;
             print (Line "All services stopped"))
      end)
     (fun _ w' => log_gated w') w.
Proof.
  intros HI HR.
  assert (Hterm : forall (Q : outcome unit -> world -> Prop) u,
             log_gated u /\ log_seen_ready u ->
             (forall u', log_gated u' /\ log_seen_ready u' -> Q (Normal tt) u') ->
             wp (match api_process with
                 | Some p => terminate p
                 | None => ret tt
                 end) Q u).
  { intros Q u Hu HQ. destruct api_process as [p|].
    - apply wp_emit, HQ. now apply rd_open_log.
    - apply wp_ret, HQ. exact Hu. }
  apply wp_bind. unfold RunDashboard.start_streamlit.
  apply wp_bind, wp_emit, wp_try_except, wp_bind.
  assert (H1 : log_gated (log (Print (Line "Starting Streamlit dashboard...")) w) /\
               log_seen_ready (log (Print (Line "Starting Streamlit dashboard...")) w))
    by (apply rd_open_log; auto).
  unfold wp at 1, popen.
  destruct (spawns E Frontend); cbn [fst snd is_Exception].
  - apply wp_ret. do 4 apply wp_bind, wp_emit.
    apply wp_try_except. unfold wait_exit. apply wp_blocking.
    + unfold wp. destruct (exits_within E Frontend _); cbn [fst snd];
        repeat (apply rd_open_log); auto.
    + intros handler Hhandler. injection Hhandler as <-.
      unfold wp at 1, raise. cbn [fst snd is_KeyboardInterrupt].
      apply wp_bind, wp_emit, wp_bind. apply Hterm.
      * repeat (apply rd_open_log); auto.
      * intros u' Hu'. apply wp_bind, wp_emit, wp_emit.
        repeat (apply rd_open_log); auto.
  - apply wp_bind, wp_emit, wp_ret, wp_bind. apply Hterm.
    + repeat (apply rd_open_log); auto.
    + intros u' Hu'. unfold wp, sys_exit. cbn [fst snd].
      apply rd_open_log; auto.
Qed.

Lemma rd_main : wp (RunDashboard.main E) (fun _ w' => log_gated w') initial.
Proof.
  unfold RunDashboard.main. do 2 apply wp_bind, wp_emit. apply wp_bind.
  eapply wp_mono.
  { apply rd_check_api_running. repeat apply rd_log; auto. exact gated_nil. }
  intros [[|]|e|] w1 [HI1 Hr]; cbn in Hr; [| |exact HI1 | contradiction].
  - apply wp_bind, wp_bind, wp_emit, wp_ret.
    apply (rd_main_tail None); [apply rd_log | apply rd_mono]; auto.
  - apply wp_bind, wp_bind.
    eapply wp_mono; [apply rd_start_api; exact HI1|].
    intros [[q|]|e|] w2 [HI2 Hr2]; try exact HI2.
    + apply wp_ret. apply (rd_main_tail (Some q));
        [exact HI2 | eapply Hr2; reflexivity].
    + apply wp_bind, wp_emit. unfold wp, sys_exit. cbn [fst snd].
      repeat apply rd_log; auto.
Qed.

End RunDashboardGate.

(** C5.  In every run of either launcher, of any length, with any
    signals, and whatever the surroundings answer, every spawn of the
    dashboard in the log, successful or not, comes after a probe of the
    health endpoint that got status 200. *)
Theorem frontend_spawned_only_after_ready :
  forall (E : environment) (d fuel : nat),
    gated (trace (snd (StartSystem.run E d fuel))) /\
    gated (trace (snd (RunDashboard.main E initial))).
Proof.
  intros E d fuel. split; [|apply rd_main].
  pose proof (gated_main E d fuel) as Hmain. unfold wp in Hmain.
  assert (Hclean : forall w, gated (trace w) ->
                             gated (trace (snd (StartSystem.cleanup E d w)))).
  { intros w Hw.
    apply (cleanup_safe E (fun w => gated (trace w))) with (d := d) in Hw;
      [exact (proj1 Hw) | intros; now apply gated_log ..]. }
  unfold StartSystem.run.
  destruct (StartSystem.main E d fuel initial) as [[[]|e|] w1];
    cbn [fst snd] in *.
  - now apply Hclean.
  - destruct e; cbn [snd]; now apply Hclean.
  - exact Hmain.
Qed.

(** ** What [cleanup] does, signals included *)

Lemma stop_spec (E : environment) (h : option (M unit)) (o : option service) (w : world) :
  terminating_handler h ->
  wp (StartSystem.stop E h o)
     (fun r w' =>
        exists l,
          w' = extend w l /\
          ((r = Normal tt /\ forall p, o = Some p -> In (Terminate p) l) \/
           (r = Raised (SystemExit 0) /\
            (exists l', l = l' ++ [Exit 0]) /\
            forall p, owned w p -> In (Terminate p) l))) w.
Proof.
  intros Hh. destruct o as [p|].
  2:{ apply wp_ret. exists []. rewrite extend_nil. split; [reflexivity|]. left.
      split; [reflexivity | discriminate]. }
  cbn [StartSystem.stop]. apply wp_bind, wp_emit, wp_try_except, wp_blocking.
  - unfold wp. destruct (exits_within E p _); cbn [fst snd is_TimeoutExpired].
    + exists [Terminate p; Waited p 5 true]. worlds. rewrite <- app_assoc.
      split; [reflexivity|]. left. split; [reflexivity|].
      intros q [= <-]. now left.
    + exists [Terminate p; Waited p 5 false; Kill p].
      unfold wp, kill, emit. worlds. rewrite <- !app_assoc.
      split; [reflexivity|]. left. split; [reflexivity|].
      intros q [= <-]. now left.
  - intros handler Hhandler.
    destruct (Hh handler Hhandler (log (Signal (Wait p 5)) (log (Terminate p) w)))
      as (l & Hrun & Hall).
    unfold wp at 1. rewrite Hrun. cbn [fst snd is_TimeoutExpired].
    exists ([Terminate p; Signal (Wait p 5)] ++ l ++ [Exit 0]).
    split; [worlds; now rewrite <- !app_assoc|].
    right. split; [reflexivity|]. split.
    + exists ([Terminate p; Signal (Wait p 5)] ++ l). now rewrite <- !app_assoc.
    + intros q Hq. apply in_or_app. right. apply in_or_app. left.
      apply Hall. exact Hq.
Qed.

Lemma cleanup_body_spec (E : environment) (h : option (M unit)) (w : world) :
  terminating_handler h ->
  wp (StartSystem.cleanup_body E h)
     (fun r w' =>
        exists l,
          w' = extend w l /\ ended r l /\
          forall p, owned w p -> In (Terminate p) l) w.
Proof.
  intros Hh. unfold StartSystem.cleanup_body.
  apply wp_bind, wp_emit, wp_bind. unfold wp at 1, get_streamlit. cbn [fst snd].
  apply wp_bind. rewrite log_extend.
  eapply wp_mono; [apply stop_spec; exact Hh|].
  intros r1 w1 (l1 & -> & [[-> Hin1] | (-> & [l' ->] & Hall)]).
  2:{ exists ([Print (Line "Shutting down services...")] ++ l' ++ [Exit 0]).
      rewrite extend_extend. split; [reflexivity|]. split.
      - right. split; [reflexivity|].
        exists ([Print (Line "Shutting down services...")] ++ l').
        now rewrite <- !app_assoc.
      - intros p Hp. apply in_or_app. right. now apply Hall. }
  apply wp_bind. unfold wp at 1, get_api. cbn [fst snd]. apply wp_bind.
  rewrite extend_extend.
  eapply wp_mono; [apply stop_spec; exact Hh|].
  intros r2 w2 (l2 & -> & [[-> Hin2] | (-> & [l' ->] & Hall)]).
  2:{ eexists. rewrite extend_extend. split; [reflexivity|]. split.
      - right. split; [reflexivity|].
        exists (([Print (Line "Shutting down services...")] ++ l1) ++ l').
        now rewrite <- !app_assoc.
      - intros p Hp. apply in_or_app. right. now apply Hall. }
  apply wp_emit. rewrite extend_extend, log_extend, extend_extend.
  eexists. split; [reflexivity|]. split; [now left|].
  intros p [Hp | Hp]; cbn [extend api_process streamlit_process] in *.
  - apply in_or_app. left. apply in_or_app. right. now apply Hin2.
  - apply in_or_app. left. apply in_or_app. left. apply in_or_app. right.
    now apply Hin1.
Qed.

Lemma installed_terminating (E : environment) (d : nat) :
  terminating_handler (StartSystem.installed E d).
Proof.
  induction d as [|d IH]; intros handler Hhandler w; [discriminate|].
  cbn [StartSystem.installed] in Hhandler. injection Hhandler as <-.
  pose proof (cleanup_body_spec E (StartSystem.installed E d) w IH) as Hc.
  unfold wp in Hc. destruct Hc as (l & Hw & Hend & Hall).
  unfold bind.
  destruct (StartSystem.cleanup_body E (StartSystem.installed E d) w)
    as [r w1]. cbn [fst snd] in *. subst w1.
  destruct Hend as [-> | (-> & [l' ->])].
  - exists l. unfold sys_exit. rewrite log_extend, extend_extend. auto.
  - exists l'. split; [reflexivity|].
    intros p Hp. specialize (Hall p Hp).
    apply in_app_or in Hall as [Hin | [Hin | []]]; [exact Hin | discriminate].
Qed.

(** [cleanup] at any depth, begun in any world. *)
Lemma cleanup_spec (E : environment) (d : nat) (w : world) :
  exists l,
    snd (StartSystem.cleanup E d w) = extend w l /\
    ended (fst (StartSystem.cleanup E d w)) l /\
    forall p, owned w p -> In (Terminate p) l.
Proof.
  exact (cleanup_body_spec E (StartSystem.installed E d) w
                           (installed_terminating E d)).
Qed.

(** ** The exit status *)

Lemma not_monitoring_log (e : event) (w : world) :
  is_poll e = false -> not_monitoring w -> not_monitoring (log e w).
Proof. intros He Hw. apply Forall_app. split; [exact Hw | auto]. Qed.

Lemma not_monitoring_spawned (s : service) (w : world) :
  not_monitoring w -> not_monitoring (spawned s w).
Proof.
  intros Hw. destruct s; apply Forall_app; (split; [exact Hw | auto]).
Qed.

Lemma main_after_api_exit (E : environment) (d fuel : nat) (w : world) :
  not_monitoring w ->
  wp (StartSystem.main_after_api E d fuel) main_outcome w.
Proof.
  intros Hw. unfold StartSystem.main_after_api. apply wp_bind.
  eapply wp_mono.
  { apply (start_streamlit_safe E not_monitoring);
      try exact Hw; try apply installed_leaves; intros;
      solve [now apply not_monitoring_log | now apply not_monitoring_spawned]. }
  intros [[|]|e|] w1 [HI1 Hr]; cbn in Hr; [| |now left | contradiction].
  - apply wp_bind, wp_ret. do 5 apply wp_bind, wp_emit.
    eapply wp_mono.
    { apply (monitor_finally_safe E (fun _ => True)); auto. }
    intros [[]|e|] w2 [_ Hr2]; cbn in *; auto.
  - apply wp_bind, wp_bind.
    eapply wp_mono.
    { apply (cleanup_safe E not_monitoring); try exact HI1;
        intros; now apply not_monitoring_log. }
    intros [[]|e|] w2 [HI2 Hr2]; cbn in Hr2; [| now left | contradiction].
    unfold wp, sys_exit. cbn [fst snd main_outcome]. right.
    split; [reflexivity|]. split.
    + apply in_or_app. right. now left.
    + now apply not_monitoring_log.
Qed.

Lemma main_exit (E : environment) (d fuel : nat) :
  wp (StartSystem.main E d fuel) main_outcome initial.
Proof.
  assert (Hlog : forall e w, is_poll e = false ->
                             not_monitoring w -> not_monitoring (log e w))
    by (intros; now apply not_monitoring_log).
  assert (Hh : leaves not_monitoring (StartSystem.installed E d)).
  { apply installed_leaves; intros; now apply Hlog. }
  unfold StartSystem.main. do 2 apply wp_bind, wp_emit. apply wp_bind.
  eapply wp_mono.
  { apply (check_api_running_safe E not_monitoring) with (R := fun _ => True);
      auto. repeat apply Hlog; auto. constructor. }
  intros [[|]|e|] w1 [HI1 Hr]; cbn in Hr; [| |now left | contradiction].
  - apply wp_bind, wp_emit. apply main_after_api_exit. now apply Hlog.
  - apply wp_bind, wp_bind.
    eapply wp_mono.
    { apply (start_api_safe E not_monitoring) with (R := fun _ => True); auto.
      intros w Hw. now apply not_monitoring_spawned. }
    intros [[|]|e|] w2 [HI2 Hr2]; cbn in Hr2; [| |now left | contradiction].
    + apply wp_ret. now apply main_after_api_exit.
    + apply wp_bind, wp_emit. unfold wp, sys_exit. cbn [fst snd main_outcome].
      right. split; [reflexivity|]. split.
      * apply in_or_app. right. now left.
      * repeat apply Hlog; auto.
Qed.

(** ** The signal handler *)

(** *** Where the handler's exit goes

    [cleanup] and the probe never sleep, so no signal is logged as
    arriving in a sleep while they run, handlers included. *)

Ltac calm := repeat (apply never_log; [reflexivity|]); assumption.

Lemma stop_sleepless (E : environment) (h : option (M unit))
      (o : option service) (w : world) :
  leaves (never is_sleep_signal) h -> never is_sleep_signal w ->
  wp (StartSystem.stop E h o)
     (fun r w' => never is_sleep_signal w' /\ returns_or_exits r) w.
Proof.
  intros Hh HI. destruct o as [p|]; [|apply wp_ret; split; [auto | exact Logic.I]].
  cbn [StartSystem.stop]. apply wp_bind, wp_emit, wp_try_except, wp_blocking.
  - unfold wp. cbn [now]. destruct (exits_within E p _); cbn [fst snd].
    + split; [calm | exact Logic.I].
    + cbn [is_TimeoutExpired]. unfold wp, kill, emit. cbn [fst snd].
      split; [calm | exact Logic.I].
  - intros handler Hhandler.
    eapply wp_mono; [apply (Hh handler Hhandler); calm|].
    intros o w' [HI' ->]. cbn [is_TimeoutExpired]. split; [auto | reflexivity].
Qed.

Lemma cleanup_body_sleepless (E : environment) (h : option (M unit)) (w : world) :
  leaves (never is_sleep_signal) h -> never is_sleep_signal w ->
  wp (StartSystem.cleanup_body E h)
     (fun r w' => never is_sleep_signal w' /\ returns_or_exits r) w.
Proof.
  intros Hh HI. unfold StartSystem.cleanup_body.
  apply wp_bind, wp_emit, wp_bind. unfold wp at 1, get_streamlit. cbn [fst snd].
  apply wp_bind.
  eapply wp_mono; [apply stop_sleepless; [exact Hh | calm]|].
  intros [[]|e|] w1 [HI1 Hr]; cbn in Hr;
    [|split; [auto | exact Hr] | contradiction].
  apply wp_bind. unfold wp at 1, get_api. cbn [fst snd].
  apply wp_bind.
  eapply wp_mono; [apply stop_sleepless; auto|].
  intros [[]|e|] w2 [HI2 Hr2]; cbn in Hr2;
    [|split; [auto | exact Hr2] | contradiction].
  apply wp_emit. split; [calm | exact Logic.I].
Qed.

Lemma installed_sleepless (E : environment) (d : nat) :
  leaves (never is_sleep_signal) (StartSystem.installed E d).
Proof.
  induction d as [|d IH]; intros handler Hhandler w HI; [discriminate|].
  cbn [StartSystem.installed] in Hhandler. injection Hhandler as <-.
  apply wp_bind.
  eapply wp_mono; [apply cleanup_body_sleepless; auto|].
  intros [[]|e|] w1 [HI1 Hr]; cbn in Hr; [| |contradiction].
  - unfold wp, sys_exit. cbn [fst snd]. split; [calm | reflexivity].
  - subst e. auto.
Qed.

Lemma cleanup_sleepless (E : environment) (d : nat) (w : world) :
  never is_sleep_signal w ->
  wp (StartSystem.cleanup E d)
     (fun r w' => never is_sleep_signal w' /\ returns_or_exits r) w.
Proof.
  intros HI. apply cleanup_body_sleepless; [apply installed_sleepless | exact HI].
Qed.

Lemma check_api_running_sleepless (E : environment) (d : nat) (w : world) :
  never is_sleep_signal w ->
  wp (StartSystem.check_api_running E (StartSystem.installed E d))
     (fun r w' => never is_sleep_signal w' /\ exists b, r = Normal b) w.
Proof.
  intros HI. unfold StartSystem.check_api_running.
  apply wp_try_except, wp_bind. unfold requests_get. apply wp_blocking.
  - unfold wp. destruct (health E (probes (trace w))) as [c| |];
      cbn [fst snd any_exception ret]; (split; [calm | eauto]).
  - intros handler Hhandler.
    eapply wp_mono; [apply (installed_sleepless E d handler Hhandler); calm|].
    intros o w' [HI' ->]. cbn [any_exception]. apply wp_ret. eauto.
Qed.

(** A signal that arrives in a sleep makes the sleep raise the handler's
    [SystemExit(0)]. *)
Lemma time_sleep_sleepy (E : environment) (d : nat) (s : Z) (w : world) :
  never is_sleep_signal w ->
  wp (time_sleep E (StartSystem.installed E d) s) sleep_outcome w.
Proof.
  intros HI. unfold time_sleep. apply wp_blocking.
  - apply wp_emit. left. calm.
  - intros handler Hhandler.
    destruct (installed_terminating E d handler Hhandler (log (Signal (Sleep s)) w))
      as (l & Hrun & _).
    unfold wp. rewrite Hrun. cbn [fst snd]. now right.
Qed.

Lemma sleep_outcome_normal (A : Type) (a : A) (w : world) :
  sleep_outcome (Normal a) w -> never is_sleep_signal w.
Proof. intros [H | H]; [exact H | discriminate]. Qed.

(** What is not a normal return is passed on as it is. *)
Ltac passed H :=
  destruct H as [H | H];
  [now left | try discriminate; injection H as ->; now right].

Lemma wait_for_api_sleepy (E : environment) (d n i : nat) (w : world) :
  never is_sleep_signal w ->
  wp (StartSystem.wait_for_api E (StartSystem.installed E d) n i) sleep_outcome w.
Proof.
  revert i w. induction n as [|n IH]; intros i w HI.
  - apply wp_ret. now left.
  - cbn [StartSystem.wait_for_api]. apply wp_bind.
    eapply wp_mono; [apply time_sleep_sleepy; exact HI|].
    intros [[]|e|] w1 H1; [|passed H1 | passed H1].
    apply sleep_outcome_normal in H1.
    apply wp_bind.
    eapply wp_mono; [apply check_api_running_sleepless; exact H1|].
    intros r w2 [H2 [[|] ->]].
    + apply wp_bind, wp_emit, wp_ret. left. calm.
    + apply wp_bind, wp_emit. apply IH. calm.
Qed.

Lemma start_api_sleepy (E : environment) (d : nat) (w : world) :
  never is_sleep_signal w ->
  wp (StartSystem.start_api E (StartSystem.installed E d)) sleep_outcome w.
Proof.
  intros HI. unfold StartSystem.start_api.
  apply wp_bind, wp_emit, wp_try_except, wp_bind.
  unfold wp at 1, popen.
  destruct (spawns E Backend); cbn [fst snd is_Exception].
  - apply wp_bind. unfold wp at 1, set_api. cbn [fst snd].
    apply wp_bind, wp_emit, wp_bind.
    eapply wp_mono.
    { apply wait_for_api_sleepy.
      apply (never_log is_sleep_signal (Print (Line "Waiting for API to start...")));
        [reflexivity|].
      apply Forall_app. split; [|auto]. cbn [trace]. calm. }
    intros [[|]|e|] w2 H2.
    + apply wp_ret. exact H2.
    + apply sleep_outcome_normal in H2.
      apply wp_bind, wp_emit, wp_bind. unfold wp at 1, get_api. cbn [fst snd].
      set (w3 := log _ w2). assert (H3 : never is_sleep_signal w3) by (subst w3; calm).
      clearbody w3.
      destruct (api_process w3) as [p|].
      * apply wp_bind, wp_emit, wp_ret. left. calm.
      * apply wp_bind, wp_ret, wp_ret. now left.
    + destruct H2 as [H2 | H2].
      * destruct (is_Exception e); [|now left].
        apply wp_bind, wp_emit, wp_ret. left. calm.
      * injection H2 as ->. cbn [is_Exception]. now right.
    + passed H2.
  - apply wp_bind, wp_emit, wp_ret. left. calm.
Qed.

Lemma start_streamlit_sleepy (E : environment) (d : nat) (w : world) :
  never is_sleep_signal w ->
  wp (StartSystem.start_streamlit E (StartSystem.installed E d)) sleep_outcome w.
Proof.
  intros HI. unfold StartSystem.start_streamlit.
  apply wp_bind, wp_emit, wp_try_except, wp_bind.
  unfold wp at 1, popen.
  destruct (spawns E Frontend); cbn [fst snd is_Exception].
  - apply wp_bind. unfold wp at 1, set_streamlit. cbn [fst snd].
    apply wp_bind.
    eapply wp_mono.
    { apply time_sleep_sleepy.
      apply Forall_app. split; [|auto]. cbn [trace]. calm. }
    intros [[]|e|] w2 H2.
    + apply sleep_outcome_normal in H2.
      apply wp_bind, wp_emit, wp_ret. left. calm.
    + destruct H2 as [H2 | H2].
      * destruct (is_Exception e); [|now left].
        apply wp_bind, wp_emit, wp_ret. left. calm.
      * injection H2 as ->. cbn [is_Exception]. now right.
    + passed H2.
  - apply wp_bind, wp_emit, wp_ret. left. calm.
Qed.

Lemma poll_sleepless (E : environment) (o : option service) (w : world) :
  never is_sleep_signal w ->
  wp (match o with
      | Some proc => rc <- poll E proc ;; ret (is_some rc)
      | None => ret false
      end)
     (fun r w' => never is_sleep_signal w' /\ exists b, r = Normal b) w.
Proof.
  intros HI. destruct o as [p|].
  - apply wp_bind. unfold wp at 1, poll. cbn [fst snd]. apply wp_ret.
    split; [calm | eauto].
  - apply wp_ret. eauto.
Qed.

Lemma monitor_sleepy (E : environment) (d fuel : nat) (w : world) :
  never is_sleep_signal w ->
  wp (StartSystem.monitor E (StartSystem.installed E d) fuel) sleep_outcome w.
Proof.
  revert w. induction fuel as [|fuel IH]; intros w HI.
  - unfold wp. cbn. now left.
  - cbn [StartSystem.monitor]. apply wp_bind.
    eapply wp_mono; [apply time_sleep_sleepy; exact HI|].
    intros [[]|e|] w1 H1; [|passed H1 | passed H1].
    apply sleep_outcome_normal in H1.
    apply wp_bind. unfold wp at 1, get_api. cbn [fst snd]. apply wp_bind.
    eapply wp_mono; [apply poll_sleepless; exact H1|].
    intros r w2 [H2 [b ->]]. destruct b.
    + apply wp_emit. left. calm.
    + apply wp_bind. unfold wp at 1, get_streamlit. cbn [fst snd]. apply wp_bind.
      eapply wp_mono; [apply poll_sleepless; exact H2|].
      intros r w3 [H3 [b ->]]. destruct b.
      * apply wp_emit. left. calm.
      * apply IH. exact H3.
Qed.

(** Lines 133-150: the [finally] keeps the [SystemExit(0)], or replaces
    it by another one. *)
Lemma monitor_finally_sleepy (E : environment) (d fuel : nat) (w : world) :
  never is_sleep_signal w ->
  wp (try_finally
        (try_except (StartSystem.monitor E (StartSystem.installed E d) fuel)
                    is_KeyboardInterrupt (ret tt))
        (StartSystem.cleanup E d))
     sleep_outcome w.
Proof.
  intros HI.
  assert (Hcalm : forall (o : outcome unit) u,
             never is_sleep_signal u ->
             wp (StartSystem.cleanup E d)
                (fun o2 w'' =>
                   match o2 with
                   | Normal _ => sleep_outcome o w''
                   | Raised e => sleep_outcome (A := unit) (Raised e) w''
                   | StillRunning => sleep_outcome (A := unit) StillRunning w''
                   end) u).
  { intros o u Hu.
    eapply wp_mono; [apply cleanup_sleepless; exact Hu|].
    intros [[]|e|] w2 [H2 _]; now left. }
  assert (Hexit : forall u,
             wp (StartSystem.cleanup E d)
                (fun o2 w'' =>
                   match o2 with
                   | Normal _ => sleep_outcome (A := unit) (Raised (SystemExit 0)) w''
                   | Raised e => sleep_outcome (A := unit) (Raised e) w''
                   | StillRunning => sleep_outcome (A := unit) StillRunning w''
                   end) u).
  { intros u.
    eapply wp_mono; [apply (cleanup_safe E (fun _ => True)); auto|].
    intros [[]|e|] w2 [_ Hr]; cbn in Hr; [now right | subst e; now right | contradiction]. }
  apply wp_try_finally, wp_try_except.
  eapply wp_mono; [apply monitor_sleepy; exact HI|].
  intros [[]|e|] w1 H1.
  - apply Hcalm. now apply sleep_outcome_normal in H1.
  - destruct H1 as [H1 | H1].
    + destruct (is_KeyboardInterrupt e).
      * apply wp_ret. now apply Hcalm.
      * now apply Hcalm.
    + injection H1 as ->. cbn [is_KeyboardInterrupt]. apply Hexit.
  - passed H1.
Qed.

Lemma main_after_api_sleepy (E : environment) (d fuel : nat) (w : world) :
  never is_sleep_signal w ->
  wp (StartSystem.main_after_api E d fuel) sleep_outcome w.
Proof.
  intros HI. unfold StartSystem.main_after_api. apply wp_bind.
  eapply wp_mono; [apply start_streamlit_sleepy; exact HI|].
  intros [[|]|e|] w1 H1; [| |passed H1 | passed H1];
    apply sleep_outcome_normal in H1.
  - apply wp_bind, wp_ret. do 5 apply wp_bind, wp_emit.
    apply monitor_finally_sleepy. calm.
  - apply wp_bind, wp_bind.
    eapply wp_mono; [apply cleanup_sleepless; exact H1|].
    intros [[]|e|] w2 [H2 Hr2]; cbn in Hr2; [|now left | contradiction].
    unfold wp, sys_exit. cbn [fst snd]. left. calm.
Qed.

Lemma main_sleepy (E : environment) (d fuel : nat) :
  wp (StartSystem.main E d fuel) sleep_outcome initial.
Proof.
  unfold StartSystem.main. do 2 apply wp_bind, wp_emit. apply wp_bind.
  eapply wp_mono.
  { apply check_api_running_sleepless.
    repeat (apply never_log; [reflexivity|]). constructor. }
  intros r w1 [H1 [[|] ->]].
  - apply wp_bind, wp_emit. apply main_after_api_sleepy. calm.
  - apply wp_bind, wp_bind.
    eapply wp_mono; [apply start_api_sleepy; exact H1|].
    intros [[|]|e|] w2 H2; [| |passed H2 | passed H2];
      apply sleep_outcome_normal in H2.
    + apply wp_ret. now apply main_after_api_sleepy.
    + apply wp_bind, wp_emit. unfold wp, sys_exit. cbn [fst snd]. left. calm.
Qed.

(** A run whose log has a signal delivered in a sleep has ended, with
    exit status 0. *)
Lemma sleep_signal_ends_run (E : environment) (d fuel : nat) (s : Z) :
  In (Signal (Sleep s)) (trace (snd (StartSystem.run E d fuel))) ->
  fst (StartSystem.run E d fuel) = Exited 0.
Proof.
  intros Hin.
  pose proof (main_sleepy E d fuel) as Hmain. unfold wp in Hmain.
  unfold StartSystem.run in *.
  assert (Hno : forall u, never is_sleep_signal u ->
                          ~ In (Signal (Sleep s)) (trace u)).
  { intros u Hu Hs. unfold never in Hu. rewrite Forall_forall in Hu.
    specialize (Hu _ Hs). discriminate. }
  assert (Hclean : forall u, never is_sleep_signal u ->
                     never is_sleep_signal (snd (StartSystem.cleanup E d u))).
  { intros u Hu. exact (proj1 (cleanup_sleepless E d u Hu)). }
  destruct (StartSystem.main E d fuel initial) as [[[]|e|] w1];
    cbn [fst snd] in *.
  - reflexivity.
  - destruct Hmain as [Hcalm | Hexit].
    + exfalso. destruct e; cbn [snd] in Hin;
        exact (Hno _ (Hclean _ Hcalm) Hin).
    + injection Hexit as ->. reflexivity.
  - exfalso. destruct Hmain as [Hcalm | Hexit]; [|discriminate].
    exact (Hno _ Hcalm Hin).
Qed.

(** A signal that arrives during a probe made with the handler installed:
    the handler's [sys.exit(0)] does not get out of the probe. *)
Lemma check_api_running_signalled (E : environment) (d : nat) (w : world) :
  signalled E (now w) = true ->
  exists l,
    StartSystem.check_api_running E (StartSystem.installed E (S d)) w =
      (Normal false, extend w (Signal (Get 3) :: l ++ [Exit 0])) /\
    forall p, owned w p -> In (Terminate p) l.
Proof.
  intros Hsig.
  assert (Hh : StartSystem.installed E (S d) =
               Some (StartSystem.signal_handler E d)) by reflexivity.
  rewrite Hh. set (handler := StartSystem.signal_handler E d) in *.
  clearbody handler.
  destruct (installed_terminating E (S d) handler Hh (log (Signal (Get 3)) w))
    as (l & Hrun & Hall).
  exists l. split; [|exact Hall].
  unfold StartSystem.check_api_running, try_except, bind at 1, requests_get.
  rewrite blocking_signalled by exact Hsig.
  unfold bind, emit. rewrite Hrun. cbn [any_exception ret].
  rewrite log_extend, extend_extend. reflexivity.
Qed.

(** C2, as the script has it.  There is no shutdown flag.  The handler
    itself runs [cleanup]: while it is running it sends a termination
    request to every owned process; it changes neither global; and it
    always ends with [sys.exit(0)], the last thing it logs, which raises
    [SystemExit(0)] in the call the signal has interrupted.  When that
    call is a sleep (of the polling loop, of [start_streamlit] or of the
    monitoring loop) the exception ends the run, with exit status 0.
    When it is the request of a readiness probe, the bare [except] of
    the probe swallows it: the probe answers [False] and the run goes
    on. *)
Theorem signal_handler_cleans_up_itself :
  forall (E : environment) (d : nat),
    (forall w, exists l,
       StartSystem.signal_handler E d w =
         (Raised (SystemExit 0), extend w (l ++ [Exit 0])) /\
       forall p, owned w p -> In (Terminate p) l) /\
    (forall fuel s,
       In (Signal (Sleep s)) (trace (snd (StartSystem.run E d fuel))) ->
       fst (StartSystem.run E d fuel) = Exited 0) /\
    (forall w,
       signalled E (now w) = true ->
       exists l,
         StartSystem.check_api_running E (StartSystem.installed E (S d)) w =
           (Normal false, extend w (Signal (Get 3) :: l ++ [Exit 0])) /\
         forall p, owned w p -> In (Terminate p) l).
Proof.
  intros E d. split; [|split].
  - intros w.
    exact (installed_terminating E (S d) (StartSystem.signal_handler E d) eq_refl w).
  - intros fuel s. apply sleep_signal_ends_run.
  - intros w. apply check_api_running_signalled.
Qed.

(** C2, counterexample.  A signal during the first sleep of the
    monitoring loop: between its delivery and the handler's [sys.exit]
    the dashboard is sent a termination request and waited for. *)
Lemma handler_manipulates_processes :
  handler_calls false (trace (snd (StartSystem.run interrupted 1 1))) =
    [Terminate Frontend; Waited Frontend 5 true] /\
  fst (StartSystem.signal_handler external 0 both_owned) = Raised (SystemExit 0) /\
  In (Terminate Backend)
     (trace (snd (StartSystem.signal_handler external 0 both_owned))).
Proof. vm_compute. auto 10. Qed.

(** ** Stopping a process *)

(** C6, as the script has it.  With no signal about, the block that stops
    an owned process sends the termination request, waits up to 5 seconds
    and returns if the process has exited by then, the wait having
    collected its status; if not, it sends the kill and returns at once:
    nothing waits for the killed process.  [cleanup] runs the block for
    the dashboard, then for the backend. *)
Theorem terminate_wait_then_kill :
  forall (E : environment) (h : option (M unit)) (d : nat) (p : service) (w : world),
    quiet E ->
    let in_time := exits_within E p (S (now w)) in
    StartSystem.stop E h (Some p) w =
      (Normal tt,
       extend w (Terminate p :: Waited p 5 in_time
                   :: if in_time then [] else [Kill p])) /\
    StartSystem.cleanup E d w =
      (Normal tt,
       extend w
         (Print (Line "Shutting down services...")
            :: owned_stop_events E (streamlit_process w) (S (now w))
            ++ owned_stop_events E (api_process w)
                 (S (now w) + List.length
                                (owned_stop_events E (streamlit_process w) (S (now w))))
            ++ [Print (Line "All services stopped")])).
Proof.
  intros E h d p w Hq in_time. split.
  - rewrite stop_quiet by exact Hq. subst in_time.
    cbn [owned_stop_events]. unfold stop_events.
    now destruct (exits_within E p (S (now w))).
  - rewrite cleanup_quiet by exact Hq. unfold cleanup_events.
    cbn [List.length app]. rewrite Nat.add_succ_r. reflexivity.
Qed.

(** C6, counterexample.  Processes that outlast the 5 seconds are killed
    and never waited for. *)
Lemma killed_process_is_not_reaped :
  trace (snd (StartSystem.cleanup stubborn 0 both_owned)) =
    [Print (Line "Shutting down services...");
     Terminate Frontend; Waited Frontend 5 false; Kill Frontend;
     Terminate Backend; Waited Backend 5 false; Kill Backend;
     Print (Line "All services stopped")] /\
  ~ reaped_after_kill Frontend
      (trace (snd (StartSystem.cleanup stubborn 0 both_owned))).
Proof.
  split; [reflexivity|].
  intros H.
  destruct (H [Print (Line "Shutting down services...");
               Terminate Frontend; Waited Frontend 5 false]
              [Terminate Backend; Waited Backend 5 false; Kill Backend;
               Print (Line "All services stopped")] eq_refl)
    as (e & Hin & He).
  cbn in Hin. destruct Hin as [<- | [<- | [<- | [<- | []]]]]; discriminate.
Qed.

(** ** Cleaning up again *)



(** ** Monitoring without a backend of one's own *)

Lemma start_streamlit_quiet (E : environment) (h : option (M unit)) (w : world) :
  quiet E -> spawns E Frontend = true ->
  StartSystem.start_streamlit E h w =
  (Normal true,
   mkWorld (trace w ++ dashboard_started) (api_process w) (Some Frontend)).
Proof.
  intros Hq Hs. unfold StartSystem.start_streamlit, try_except, bind, print, emit.
  rewrite popen_ok by exact Hs. unfold set_streamlit.
  rewrite time_sleep_quiet by apply Hq.
  unfold ret. worlds. now rewrite <- !app_assoc.
Qed.



(** ** The theorems at work *)

Lemma quiet_never_up : quiet never_up.
Proof. intros t. reflexivity. Qed.

Lemma quiet_slow_start : quiet slow_start.
Proof. intros t. reflexivity. Qed.

Lemma quiet_external : quiet external.
Proof. intros t. reflexivity. Qed.

Lemma quiet_stubborn : quiet stubborn.
Proof. intros t. reflexivity. Qed.

(** C2's theorem for a signal during the first sleep of the monitoring
    loop, and for one during a probe made while the dashboard is owned. *)
Lemma signal_handler_cleans_up_itself_witness :
  In (Signal (Sleep 1)) (trace (snd (StartSystem.run interrupted 1 1))) /\
  fst (StartSystem.run interrupted 1 1) = Exited 0 /\
  signalled interrupted (now monitoring_world) = true /\
  fst (StartSystem.check_api_running interrupted
         (StartSystem.installed interrupted 2) monitoring_world) = Normal false /\
  fst (StartSystem.signal_handler interrupted 1 both_owned) = Raised (SystemExit 0).
Proof.
  assert (Hin : In (Signal (Sleep 1))
                   (trace (snd (StartSystem.run interrupted 1 1))))
    by (vm_compute; auto 30).
  destruct (signal_handler_cleans_up_itself interrupted 1)
    as (Hhandler & Hsleep & Hprobe).
  split; [exact Hin|]. split; [exact (Hsleep 1 1%Z Hin)|].
  split; [reflexivity|]. split.
  - destruct (Hprobe monitoring_world eq_refl) as (l & Hrun & _).
    now rewrite Hrun.
  - destruct (Hhandler both_owned) as (l & Hrun & _). now rewrite Hrun.
Defined.


(** C4's theorem with nothing behind the health endpoint. *)
Lemma startup_timeout_aborts_witness :
  quiet never_up /\ spawns never_up Backend = true /\
  (forall k, health never_up k <> Status 200) /\
  fst (StartSystem.run never_up 1 7) = Exited 1 /\
  forall ok, ~ In (Popen Frontend ok) (trace (snd (StartSystem.run never_up 1 7))).
Proof.
  assert (Hnever : forall k, health never_up k <> Status 200)
    by (intros k; discriminate).
  split; [exact quiet_never_up|]. split; [reflexivity|]. split; [exact Hnever|].
  destruct (startup_timeout_aborts never_up 1 7 quiet_never_up eq_refl Hnever)
    as (Hcode & _ & _ & _ & _ & _ & Hfront & _).
  split; assumption.
Defined.

(** C6's theorem for a process that outlasts the 5 seconds. *)
Lemma terminate_wait_then_kill_witness :
  quiet stubborn /\
  StartSystem.stop stubborn None (Some Frontend) both_owned =
    (Normal tt,
     extend both_owned [Terminate Frontend; Waited Frontend 5 false; Kill Frontend]).
Proof.
  split; [exact quiet_stubborn|].
  exact (proj1 (terminate_wait_then_kill stubborn None 0 Frontend both_owned
                  quiet_stubborn)).
Defined.


(** C8's theorem for a refused connection. *)
Lemma probe_single_round_trip_uniform_witness :
  signalled never_up (now initial) = false /\
  snd (StartSystem.check_api_running never_up None initial) =
    extend initial [Http 3 ConnectionFailed] /\
  fst (StartSystem.check_api_running never_up None initial) = Normal false.
Proof.
  split; [reflexivity|].
  destruct (probe_single_round_trip_uniform never_up None initial eq_refl)
    as (Hlog & _ & _ & _ & _ & Hfalse).
  split; [exact Hlog|]. apply Hfalse. left. reflexivity.
Defined.



(** * Further properties of the launchers *)

(** ** The polling loop as a search *)

Lemma is_ready_true (o : http_outcome) : is_ready o = true <-> o = Status 200.
Proof.
  destruct o as [c| |]; cbn; split; try discriminate.
  - intros H. apply Z.eqb_eq in H. now subst.
  - intros [= ->]. reflexivity.
Qed.

Lemma first_ready_some (E : environment) (n p k : nat) :
  first_ready E p n = Some k ->
  k < n /\ health E (p + k) = Status 200 /\
  forall j, j < k -> health E (p + j) <> Status 200.
Proof.
  revert p k. induction n as [|n IH]; intros p k H; [discriminate|].
  cbn [first_ready] in H. destruct (is_ready (health E p)) eqn:Hr.
  - injection H as <-. rewrite Nat.add_0_r. split; [lia|].
    split; [now apply is_ready_true | intros j Hj; lia].
  - destruct (first_ready E (S p) n) as [k'|] eqn:Hf; [|discriminate].
    injection H as <-. destruct (IH _ _ Hf) as (Hk & Hhit & Hmiss).
    split; [lia|]. split.
    + now replace (p + S k') with (S p + k') by lia.
    + intros [|j] Hj.
      * rewrite Nat.add_0_r. intros Hc. apply is_ready_true in Hc. congruence.
      * replace (p + S j) with (S p + j) by lia. apply Hmiss. lia.
Qed.

Lemma first_ready_none (E : environment) (n p : nat) :
  first_ready E p n = None ->
  forall j, j < n -> health E (p + j) <> Status 200.
Proof.
  revert p. induction n as [|n IH]; intros p H j Hj; [lia|].
  cbn [first_ready] in H. destruct (is_ready (health E p)) eqn:Hr; [discriminate|].
  destruct (first_ready E (S p) n) eqn:Hf; [discriminate|].
  destruct j as [|j].
  - rewrite Nat.add_0_r. intros Hc. apply is_ready_true in Hc. congruence.
  - replace (p + S j) with (S p + j) by lia. apply (IH _ Hf). lia.
Qed.

(** X1.  With no signal about, the polling loop of [start_api] is a
    linear search: it sleeps one second and probes until the first answer
    200 among the next [n] answers of the health endpoint, and returns
    [True] right there; it runs all [n] rounds and falls through when
    there is none.  Either way it makes at most [n] requests and changes
    no global. *)
Theorem wait_for_api_is_first_ready :
  forall (E : environment) (h : option (M unit)) (n i : nat) (w : world),
    quiet E ->
    let p := probes (trace w) in
    (match first_ready E p n with
     | Some k =>
         StartSystem.wait_for_api E h n i w =
           (Normal true, extend w (failed_rounds E p i k ++ ready_round))
     | None =>
         StartSystem.wait_for_api E h n i w =
           (Normal false, extend w (failed_rounds E p i n))
     end) /\
    probes (trace (snd (StartSystem.wait_for_api E h n i w))) <= p + n.
Proof.
  intros E h n i w Hq p.
  assert (Hmain :
            match first_ready E p n with
            | Some k =>
                StartSystem.wait_for_api E h n i w =
                (Normal true, extend w (failed_rounds E p i k ++ ready_round))
            | None =>
                StartSystem.wait_for_api E h n i w =
                (Normal false, extend w (failed_rounds E p i n))
            end).
  { destruct (first_ready E p n) as [k|] eqn:Hf.
    - destruct (first_ready_some E n p k Hf) as (Hk & Hhit & Hmiss).
      replace n with (k + S (n - S k)) by lia.
      rewrite (wait_for_api_misses E h Hq k (S (n - S k)) i w Hmiss).
      rewrite wait_for_api_hit; [now rewrite extend_extend | exact Hq |].
      cbn [trace extend]. now rewrite probes_app, failed_rounds_probes.
    - pose proof (first_ready_none E n p Hf) as Hmiss.
      replace n with (n + 0) at 1 by lia.
      rewrite (wait_for_api_misses E h Hq n 0 i w Hmiss).
      reflexivity. }
  split; [exact Hmain|].
  destruct (first_ready E p n) as [k|] eqn:Hf; rewrite Hmain; cbn [snd trace extend].
  - destruct (first_ready_some E n p k Hf) as (Hk & _).
    rewrite !probes_app, failed_rounds_probes. unfold ready_round. cbn. fold p. lia.
  - rewrite probes_app, failed_rounds_probes. fold p. lia.
Qed.

(** ** Spawns that fail *)

Lemma start_api_not_spawned (E : environment) (h : option (M unit)) (w : world) :
  spawns E Backend = false ->
  StartSystem.start_api E h w = (Normal false, extend w backend_not_spawned).
Proof.
  intros Hs. unfold StartSystem.start_api, try_except, bind, print, emit, popen.
  cbn [log trace api_process streamlit_process]. rewrite Hs.
  cbn [is_Exception ret]. worlds. now rewrite <- !app_assoc.
Qed.

Lemma start_streamlit_not_spawned (E : environment) (h : option (M unit)) (w : world) :
  spawns E Frontend = false ->
  StartSystem.start_streamlit E h w = (Normal false, extend w dashboard_not_spawned).
Proof.
  intros Hs. unfold StartSystem.start_streamlit, try_except, bind, print, emit, popen.
  cbn [log trace api_process streamlit_process]. rewrite Hs.
  cbn [is_Exception ret]. worlds. now rewrite <- !app_assoc.
Qed.


(** [main] up to its second half, when the first probe does not see the
    backend. *)
Lemma main_not_found (E : environment) (d fuel : nat) :
  health E 0 <> Status 200 ->
  first_probe_undisturbed E d ->
  StartSystem.main E d fuel initial =
  ((started <- StartSystem.start_api E (StartSystem.installed E d) ;;
    if started then ret tt
    else print (Line "Cannot start system without API server") ;; sys_exit 1) ;;
   StartSystem.main_after_api E d fuel)
    (mkWorld (banner ++ [Http 3 (health E 0)]) None None).
Proof.
  intros Hdown Hq. unfold StartSystem.main, bind at 1 2 3, print, emit.
  unfold StartSystem.check_api_running, try_except, bind at 1, requests_get.
  rewrite blocking_undisturbed by exact Hq.
  cbn [log initial trace app probes filter is_http List.length].
  assert (Hr : is_ready (health E 0) = false).
  { destruct (is_ready (health E 0)) eqn:Hr; [|reflexivity].
    apply is_ready_true in Hr. contradiction. }
  unfold is_ready in Hr.
  destruct (health E 0) as [c| |]; cbn [any_exception ret];
    [rewrite Hr|..]; unfold bind at 1; reflexivity.
Qed.


Lemma cleanup_keeps_not_monitoring (E : environment) (d : nat) (w : world) :
  not_monitoring w -> not_monitoring (snd (StartSystem.cleanup E d w)).
Proof.
  intros Hw.
  apply (cleanup_safe E not_monitoring) with (d := d) in Hw;
    [exact (proj1 Hw) | intros; now apply not_monitoring_log ..].
Qed.

Lemma main_after_api_no_dashboard (E : environment) (d fuel : nat) (w : world) :
  quiet E -> spawns E Frontend = false ->
  exists l,
    StartSystem.main_after_api E d fuel w = (Raised (SystemExit 1), extend w l).
Proof.
  intros Hq Hs. unfold StartSystem.main_after_api. unfold bind at 1.
  rewrite start_streamlit_not_spawned by exact Hs.
  unfold bind at 1 2. rewrite cleanup_quiet by exact Hq.
  unfold sys_exit. rewrite log_extend, !extend_extend. eauto.
Qed.

(** [main] when the dashboard cannot be spawned and no signal arrives. *)
Lemma main_no_dashboard (E : environment) (d fuel : nat) :
  quiet E -> spawns E Frontend = false ->
  exists w1,
    StartSystem.main E d fuel initial = (Raised (SystemExit 1), w1) /\
    streamlit_process w1 = None.
Proof.
  intros Hq Hs.
  assert (Hfirst : first_probe_undisturbed E d) by (right; apply Hq).
  destruct (is_ready (health E 0)) eqn:Hr.
  - apply is_ready_true in Hr.
    rewrite main_found_running by assumption.
    destruct (main_after_api_no_dashboard E d fuel
                (mkWorld found_running None None) Hq Hs) as [l ->].
    eexists. split; reflexivity.
  - assert (Hdown : health E 0 <> Status 200).
    { intros Hc. apply is_ready_true in Hc. congruence. }
    rewrite main_not_found by assumption.
    set (w0 := mkWorld (banner ++ [Http 3 (health E 0)]) None None).
    destruct (spawns E Backend) eqn:Hb.
    + destruct (first_ready E (probes (trace w0)) 15) as [k|] eqn:Hf.
      * destruct (first_ready_some E 15 _ k Hf) as (Hk & Hhit & Hmiss).
        unfold bind at 1 2.
        rewrite (start_api_ready E _ w0 k Hq Hb Hk Hmiss Hhit).
        unfold ret at 1.
        match goal with
        | |- context [StartSystem.main_after_api E d fuel ?u] =>
            destruct (main_after_api_no_dashboard E d fuel u Hq Hs) as [l ->]
        end.
        eexists. split; reflexivity.
      * pose proof (first_ready_none E 15 _ Hf) as Hmiss.
        unfold bind at 1 2.
        rewrite (start_api_timeout E _ w0 Hq Hb Hmiss).
        unfold bind, print, emit, sys_exit. eexists. split; reflexivity.
    + unfold bind at 1 2. rewrite start_api_not_spawned by exact Hb.
      unfold bind, print, emit, sys_exit. eexists. split; reflexivity.
Qed.

(** X3.  When the dashboard cannot be spawned and no signal arrives, the
    launcher never gets to monitor anything: whatever the backend does,
    the run ends with exit status 1, without a dashboard handle and
    without a single liveness check. *)
Theorem dashboard_spawn_failure_exits_1 :
  forall (E : environment) (d fuel : nat),
    quiet E ->
    spawns E Frontend = false ->
    let r := StartSystem.run E d fuel in
    fst r = Exited 1 /\
    streamlit_process (snd r) = None /\
    not_monitoring (snd r).
Proof.
  intros E d fuel Hq Hs r. subst r.
  destruct (main_no_dashboard E d fuel Hq Hs) as (w1 & Hmain & Hnone).
  pose proof (main_exit E d fuel) as Hout. unfold wp in Hout.
  unfold StartSystem.run. rewrite Hmain in *. cbn [fst snd main_outcome] in *.
  destruct Hout as [Hc | (_ & _ & Hnm)]; [discriminate|].
  split; [reflexivity|]. split.
  - rewrite cleanup_quiet by exact Hq. exact Hnone.
  - now apply cleanup_keeps_not_monitoring.
Qed.

(** ** A signal during the first probe *)

Lemma check_api_running_undisturbed (E : environment) (d : nat) (w : world) :
  d = 0 \/ signalled E (now w) = false ->
  StartSystem.check_api_running E (StartSystem.installed E d) w =
    (Normal (is_ready (health E (probes (trace w)))),
     extend w [Http 3 (health E (probes (trace w)))]).
Proof.
  intros Hq. unfold StartSystem.check_api_running, try_except, bind, requests_get.
  rewrite blocking_undisturbed by assumption.
  destruct (health E (probes (trace w))); reflexivity.
Qed.




(** ** When the monitoring loop ends *)

Lemma time_sleep_cases (E : environment) (d : nat) (s : Z) (w : world) :
  wp (time_sleep E (StartSystem.installed E d) s)
     (fun o w' => (o = Normal tt /\ w' = extend w [Slept s]) \/
                  o = Raised (SystemExit 0)) w.
Proof.
  unfold time_sleep. apply wp_blocking.
  - apply wp_emit. left. split; reflexivity.
  - intros handler Hh.
    destruct (installed_terminating E d handler Hh (log (Signal (Sleep s)) w))
      as (l & Hrun & _).
    unfold wp. rewrite Hrun. cbn [fst snd]. now right.
Qed.

(** X5.  The monitoring loop returns (the [break]) only after a liveness
    check has found an owned process dead, and the last line it prints
    names the global that held that process.  A signal makes it raise
    [SystemExit]; otherwise it keeps going. *)
Theorem monitor_returns_only_on_dead_child :
  forall (E : environment) (d fuel : nat) (w w' : world),
    StartSystem.monitor E (StartSystem.installed E d) fuel w = (Normal tt, w') ->
    exists l p tail,
      w' = extend w (l ++ tail) /\ found_dead w p tail.
Proof.
  intros E d fuel.
  assert (H : forall w,
             wp (StartSystem.monitor E (StartSystem.installed E d) fuel)
                (fun o w' => o = Normal tt ->
                             exists l p tail,
                               w' = extend w (l ++ tail) /\ found_dead w p tail) w).
  { induction fuel as [|fuel IH]; intros w; [unfold wp; cbn; discriminate|].
    cbn [StartSystem.monitor]. apply wp_bind.
    eapply wp_mono; [apply time_sleep_cases|].
    intros o w1 [[-> ->] | ->]; [|discriminate].
    apply wp_bind. unfold wp at 1, get_api. cbn [fst snd extend api_process].
    apply wp_bind.
    assert (Hfin : forall (l : list event) (p : service) (rc : Z) (msg : string),
               (api_process w = Some p /\
                msg = "API server stopped unexpectedly"%string) \/
               (streamlit_process w = Some p /\
                msg = "Streamlit dashboard stopped unexpectedly"%string) ->
               wp (print (Line msg))
                  (fun o w' => o = Normal tt ->
                               exists l0 p0 tail,
                                 w' = extend w (l0 ++ tail) /\ found_dead w p0 tail)
                  (extend w (l ++ [Polled p (Some rc)]))).
    { intros l p rc msg Hp. apply wp_emit. intros _.
      exists l, p, [Polled p (Some rc); Print (Line msg)].
      split.
      - rewrite log_extend, extend_extend, <- app_assoc. reflexivity.
      - exists rc. destruct Hp as [[Hp ->] | [Hp ->]]; [left | right]; auto. }
    assert (Hsecond : forall l,
               wp (sp <- get_streamlit ;;
                   streamlit_gone <-
                     match sp with
                     | Some proc => rc <- poll E proc ;; ret (is_some rc)
                     | None => ret false
                     end ;;
                   if streamlit_gone
                   then print (Line "Streamlit dashboard stopped unexpectedly")
                   else StartSystem.monitor E (StartSystem.installed E d) fuel)
                  (fun o w' => o = Normal tt ->
                               exists l0 p0 tail,
                                 w' = extend w (l0 ++ tail) /\ found_dead w p0 tail)
                  (extend w l)).
    { intros l. apply wp_bind. unfold wp at 1, get_streamlit.
      cbn [fst snd extend streamlit_process].
      assert (Hnext : forall l',
                 wp (StartSystem.monitor E (StartSystem.installed E d) fuel)
                    (fun o w' => o = Normal tt ->
                                 exists l0 p0 tail,
                                   w' = extend w (l0 ++ tail) /\ found_dead w p0 tail)
                    (extend w l')).
      { intros l'. eapply wp_mono; [apply IH|].
        intros o w2 Hw2 Ho. destruct (Hw2 Ho) as (l0 & p0 & tail & -> & Hd).
        exists (l' ++ l0), p0, tail. split.
        - now rewrite extend_extend, app_assoc.
        - exact Hd. }
      apply wp_bind. destruct (streamlit_process w) as [p|] eqn:Hp.
      - apply wp_bind. unfold wp at 1, poll. cbn [fst snd]. apply wp_ret.
        rewrite log_extend, extend_extend.
        destruct (returncode E p _) as [rc|]; cbn [is_some].
        + apply Hfin. right. auto.
        + apply Hnext.
      - apply wp_ret. apply Hnext. }
    destruct (api_process w) as [p|] eqn:Hp.
    - apply wp_bind. unfold wp at 1, poll. cbn [fst snd]. apply wp_ret.
      rewrite log_extend, extend_extend.
      destruct (returncode E p _) as [rc|]; cbn [is_some].
      + apply Hfin. left. auto.
      + apply Hsecond.
    - apply wp_ret. apply Hsecond. }
  intros w w' Hrun. specialize (H w). unfold wp in H. rewrite Hrun in H.
  exact (H eq_refl).
Qed.

(** ** Properties kept by a whole run of start_system.py *)

Section WholeRun.

Variable E : environment.
Variable I : world -> Prop.

Hypothesis I_print : forall m w, I w -> I (log (Print m) w).
Hypothesis I_signal : forall c w, I w -> I (log (Signal c) w).
Hypothesis I_exit : forall c w, I w -> I (log (Exit c) w).
Hypothesis I_slept : forall s w, I w -> I (log (Slept s) w).
Hypothesis I_http : forall t r w, I w -> I (log (Http t r) w).
Hypothesis I_terminate :
  forall p w, I w -> owned w p -> I (log (Terminate p) w).
Hypothesis I_waited :
  forall p t b w, I w -> owned w p -> I (log (Waited p t b) w).
Hypothesis I_kill : forall p w, I w -> owned w p -> I (log (Kill p) w).
Hypothesis I_polled :
  forall p rc w, I w -> owned w p -> I (log (Polled p rc) w).
Hypothesis I_spawned : forall s w, I w -> I (spawned s w).
Hypothesis I_not_spawned : forall s w, I w -> I (log (Popen s false) w).

Lemma main_safe (d fuel : nat) (w : world) :
  I w ->
  wp (StartSystem.main E d fuel) (fun r w' => I w' /\ exits_0_or_1 r) w.
Proof using All.
  intros HI. unfold StartSystem.main. do 2 apply wp_bind, wp_emit. apply wp_bind.
  eapply wp_mono.
  { apply (check_api_running_safe E I) with (R := fun _ => True); auto.
    apply installed_leaves; auto. }
  intros [[|]|e|] w1 [HI1 Hr]; cbn in Hr;
    [| |subst e; cbn; auto | contradiction].
  - apply wp_bind, wp_emit. apply main_after_api_safe; auto.
  - apply wp_bind, wp_bind.
    eapply wp_mono.
    { apply (start_api_safe E I) with (R := fun _ => True); auto.
      apply installed_leaves; auto. }
    intros [[|]|e|] w2 [HI2 Hr2]; cbn in Hr2;
      [| |subst e; cbn; auto | contradiction].
    + apply wp_ret. apply main_after_api_safe; auto.
    + apply wp_bind, wp_emit. unfold wp, sys_exit. cbn. auto.
Qed.

Lemma run_safe (d fuel : nat) : I initial -> I (snd (StartSystem.run E d fuel)).
Proof using All.
  intros H0. pose proof (main_safe d fuel initial H0) as Hmain.
  unfold wp in Hmain. unfold StartSystem.run.
  assert (Hclean : forall w, I w -> I (snd (StartSystem.cleanup E d w))).
  { intros w Hw. apply (cleanup_safe E I) with (d := d) in Hw; auto.
    exact (proj1 Hw). }
  destruct (StartSystem.main E d fuel initial) as [[[]|e|] w1];
    cbn [fst snd] in *; destruct Hmain as [Hw1 _].
  - now apply Hclean.
  - destruct e; cbn [snd]; now apply Hclean.
  - exact Hw1.
Qed.

End WholeRun.

(** ** Only its own children *)

Lemma spawned_first_snoc (l : list event) (e : event) :
  spawned_first l ->
  (forall p, process_of e = Some p -> In (Popen p true) l) ->
  spawned_first (l ++ [e]).
Proof.
  intros Hl He pre x post p Heq Hx.
  destruct (exists_last (l := x :: post)) as (post' & y & Hlast);
    [discriminate|].
  rewrite Hlast, app_assoc in Heq. apply app_inj_tail in Heq as [Hl' <-].
  destruct post' as [|z post'].
  - cbn in Hlast. injection Hlast as <- ->. rewrite app_nil_r in Hl'. subst pre.
    now apply He.
  - cbn in Hlast. injection Hlast as <- Hpost.
    apply (Hl pre x post' p); assumption.
Qed.

Lemma own_only_log (e : event) (w : world) :
  own_only w ->
  (forall p, process_of e = Some p -> owned w p) ->
  own_only (log e w).
Proof.
  intros [Hs Ho] He. split.
  - apply spawned_first_snoc; [exact Hs|]. intros p Hp. apply Ho, He, Hp.
  - intros p Hp. apply in_or_app. left. apply Ho. exact Hp.
Qed.

Lemma own_only_spawned (s : service) (w : world) :
  own_only w -> own_only (spawned s w).
Proof.
  intros [Hs Ho]. destruct s; cbn [spawned]; split; cbn [trace].
  - apply spawned_first_snoc; [exact Hs | discriminate].
  - intros p [Hp | Hp]; cbn in Hp.
    + injection Hp as <-. apply in_or_app. right. now left.
    + apply in_or_app. left. apply Ho. now right.
  - apply spawned_first_snoc; [exact Hs | discriminate].
  - intros p [Hp | Hp]; cbn in Hp.
    + apply in_or_app. left. apply Ho. now left.
    + injection Hp as <-. apply in_or_app. right. now left.
Qed.

(** X6.  In every run of start_system.py, whatever the surroundings do,
    each terminate, wait, kill and poll is made on a process that the
    launcher itself has spawned successfully earlier in that run. *)
Theorem start_system_touches_only_its_children :
  forall (E : environment) (d fuel : nat),
    spawned_first (trace (snd (StartSystem.run E d fuel))).
Proof.
  intros E d fuel.
  refine (proj1 (run_safe E own_only _ _ _ _ _ _ _ _ _ _ _ d fuel _)).
  - intros; apply own_only_log; [assumption | discriminate].
  - intros; apply own_only_log; [assumption | discriminate].
  - intros; apply own_only_log; [assumption | discriminate].
  - intros; apply own_only_log; [assumption | discriminate].
  - intros; apply own_only_log; [assumption | discriminate].
  - intros p w Hw Hp. apply own_only_log; [assumption|]. now intros q [= <-].
  - intros p t b w Hw Hp. apply own_only_log; [assumption|]. now intros q [= <-].
  - intros p w Hw Hp. apply own_only_log; [assumption|]. now intros q [= <-].
  - intros p rc w Hw Hp. apply own_only_log; [assumption|]. now intros q [= <-].
  - intros; now apply own_only_spawned.
  - intros; apply own_only_log; [assumption | discriminate].
  - split.
    + intros [|x pre] e post p Heq; discriminate.
    + intros p [Hp | Hp]; discriminate.
Qed.

(** ** One spawn of each child at most *)

(** A property [P0] that holds up to the spawn of a child and gives way
    to [P1] there. *)
Section Staged.

Variable E : environment.
Variables P0 P1 : world -> Prop.

Hypothesis P0_log : forall e w, is_spawn e = false -> P0 w -> P0 (log e w).
Hypothesis P1_log : forall e w, is_spawn e = false -> P1 w -> P1 (log e w).

Lemma staged_leaves (d : nat) : leaves P1 (StartSystem.installed E d).
Proof using P1_log.
  apply installed_leaves; intros; now apply P1_log.
Qed.

Lemma start_api_staged (d : nat) (w : world) :
  (forall u, P0 u -> P1 (spawned Backend u)) ->
  (forall u, P0 u -> P1 (log (Popen Backend false) u)) ->
  P0 w ->
  wp (StartSystem.start_api E (StartSystem.installed E d))
     (fun r w' => P1 w' /\ answers (fun _ => True) r w') w.
Proof using P0_log P1_log.
  intros Hok Hfail Hw. unfold StartSystem.start_api.
  apply wp_bind, wp_emit, wp_try_except, wp_bind.
  assert (H0 : P0 (log (Print (Line "Starting API server...")) w))
    by now apply P0_log.
  unfold wp at 1, popen.
  destruct (spawns E Backend); cbn [fst snd is_Exception].
  - apply wp_bind. unfold wp at 1, set_api. cbn [fst snd].
    apply wp_bind, wp_emit, wp_bind.
    assert (H1 : P1 (log (Print (Line "Waiting for API to start..."))
                         (spawned Backend (log (Print (Line "Starting API server...")) w))))
      by (apply P1_log; auto).
    eapply wp_mono.
    { apply (wait_for_api_safe E P1) with (R := fun _ => True);
        try exact H1; try apply staged_leaves; intros; auto; now apply P1_log. }
    intros [[|]|e|] w2 [H2 Hr2]; cbn in Hr2;
      [| |subst e; cbn; split; [auto | reflexivity] | contradiction].
    + apply wp_ret. split; auto.
    + apply wp_bind, wp_emit, wp_bind. unfold wp at 1, get_api. cbn [fst snd].
      set (w3 := log _ w2). assert (H3 : P1 w3) by (subst w3; now apply P1_log).
      clearbody w3.
      destruct (api_process w3) as [p|].
      * apply wp_bind, wp_emit, wp_ret. split; [|exact Logic.I].
        now apply P1_log.
      * apply wp_bind, wp_ret, wp_ret. split; [auto | exact Logic.I].
  - apply wp_bind, wp_emit, wp_ret. split; [|exact Logic.I].
    apply P1_log; auto.
Qed.

Lemma start_streamlit_staged (d : nat) (w : world) :
  (forall u, P0 u -> P1 (spawned Frontend u)) ->
  (forall u, P0 u -> P1 (log (Popen Frontend false) u)) ->
  P0 w ->
  wp (StartSystem.start_streamlit E (StartSystem.installed E d))
     (fun r w' => P1 w' /\ answers (fun _ => True) r w') w.
Proof using P0_log P1_log.
  intros Hok Hfail Hw. unfold StartSystem.start_streamlit.
  apply wp_bind, wp_emit, wp_try_except, wp_bind.
  assert (H0 : P0 (log (Print (Line "Starting Streamlit dashboard...")) w))
    by now apply P0_log.
  unfold wp at 1, popen.
  destruct (spawns E Frontend); cbn [fst snd is_Exception].
  - apply wp_bind. unfold wp at 1, set_streamlit. cbn [fst snd].
    apply wp_bind.
    assert (H1 : P1 (spawned Frontend (log (Print (Line "Starting Streamlit dashboard...")) w)))
      by auto.
    eapply wp_mono.
    { apply (time_sleep_safe E P1);
        try exact H1; try apply staged_leaves; intros; now apply P1_log. }
    intros [[]|e|] w2 [H2 Hr2]; cbn in Hr2;
      [|subst e; cbn; split; [auto | reflexivity] | contradiction].
    apply wp_bind, wp_emit, wp_ret. split; [|exact Logic.I]. now apply P1_log.
  - apply wp_bind, wp_emit, wp_ret. split; [|exact Logic.I].
    apply P1_log; auto.
Qed.

Lemma cleanup_staged (d : nat) (w : world) :
  P1 w -> P1 (snd (StartSystem.cleanup E d w)).
Proof using P1_log.
  intros Hw.
  apply (cleanup_safe E P1) with (d := d) in Hw;
    [exact (proj1 Hw) | intros; now apply P1_log ..].
Qed.

Lemma main_after_api_staged (d fuel : nat) (w : world) :
  (forall u, P0 u -> P1 (spawned Frontend u)) ->
  (forall u, P0 u -> P1 (log (Popen Frontend false) u)) ->
  P0 w ->
  wp (StartSystem.main_after_api E d fuel) (fun _ w' => P1 w') w.
Proof using P0_log P1_log.
  intros Hok Hfail Hw. unfold StartSystem.main_after_api. apply wp_bind.
  eapply wp_mono; [apply start_streamlit_staged; assumption|].
  intros [[|]|e|] w1 [H1 Hr]; cbn in Hr; [| |exact H1 | contradiction].
  - apply wp_bind, wp_ret. do 5 apply wp_bind, wp_emit.
    eapply wp_mono.
    { apply (monitor_finally_safe E P1); intros; try now apply P1_log.
      repeat apply P1_log; auto. }
    intros o w2 [H2 _]. exact H2.
  - apply wp_bind, wp_bind.
    eapply wp_mono.
    { apply (cleanup_safe E P1); try exact H1; intros; now apply P1_log. }
    intros [[]|e|] w2 [H2 Hr2]; cbn in Hr2; [|exact H2 | contradiction].
    unfold wp, sys_exit. cbn [fst snd]. now apply P1_log.
Qed.

End Staged.

Lemma spawn_attempts_snoc (s : service) (l : list event) (e : event) :
  spawn_attempts s (l ++ [e]) =
  spawn_attempts s l + (if is_spawn_of s e then 1 else 0).
Proof.
  unfold spawn_attempts. rewrite filter_app, length_app. cbn [filter].
  now destruct (is_spawn_of s e).
Qed.

Lemma attempts_within_log (b f : nat) (e : event) (w : world) :
  is_spawn e = false -> attempts_within b f w -> attempts_within b f (log e w).
Proof.
  intros He [Hb Hf]. unfold attempts_within. cbn [log trace].
  rewrite !spawn_attempts_snoc.
  assert (is_spawn_of Backend e = false /\ is_spawn_of Frontend e = false) as [-> ->]
    by (destruct e as [| | |[] ?| | | | | | |]; try discriminate; auto).
  lia.
Qed.

Lemma attempts_backend (e : event) (u : world) :
  is_spawn_of Backend e = true ->
  attempts_within 0 0 u -> attempts_within 1 0 (log e u).
Proof.
  intros He [Hb Hf]. unfold attempts_within. cbn [log trace].
  rewrite !spawn_attempts_snoc, He.
  assert (is_spawn_of Frontend e = false) as ->
    by (destruct e as [| | |[] ?| | | | | | |]; try discriminate; auto).
  lia.
Qed.

Lemma attempts_frontend (e : event) (u : world) :
  is_spawn_of Frontend e = true ->
  attempts_within 1 0 u -> attempts_within 1 1 (log e u).
Proof.
  intros He [Hb Hf]. unfold attempts_within. cbn [log trace].
  rewrite !spawn_attempts_snoc, He.
  assert (is_spawn_of Backend e = false) as ->
    by (destruct e as [| | |[] ?| | | | | | |]; try discriminate; auto).
  lia.
Qed.

Lemma attempts_within_weaken (b f b' f' : nat) (w : world) :
  b <= b' -> f <= f' -> attempts_within b f w -> attempts_within b' f' w.
Proof. intros Hb Hf [H1 H2]. split; lia. Qed.

(** X7.  No run of start_system.py, however it goes, tries to spawn the
    backend more than once or the dashboard more than once. *)
Theorem start_system_spawns_each_child_once :
  forall (E : environment) (d fuel : nat) (s : service),
    spawn_attempts s (trace (snd (StartSystem.run E d fuel))) <= 1.
Proof.
  intros E d fuel s.
  cut (attempts_within 1 1 (snd (StartSystem.run E d fuel))).
  { intros [Hb Hf]. destruct s; assumption. }
  assert (Hlog : forall b f e w, is_spawn e = false ->
                   attempts_within b f w -> attempts_within b f (log e w))
    by (intros; now apply attempts_within_log).
  assert (Hfront : forall u, attempts_within 1 0 u ->
                             attempts_within 1 1 (spawned Frontend u))
    by (intros u Hu; now apply (attempts_frontend (Popen Frontend true))).
  assert (Hfront' : forall u, attempts_within 1 0 u ->
                              attempts_within 1 1 (log (Popen Frontend false) u))
    by (intros u Hu; now apply attempts_frontend).
  assert (Hback : forall u, attempts_within 0 0 u ->
                            attempts_within 1 0 (spawned Backend u))
    by (intros u Hu; now apply (attempts_backend (Popen Backend true))).
  assert (Hback' : forall u, attempts_within 0 0 u ->
                             attempts_within 1 0 (log (Popen Backend false) u))
    by (intros u Hu; now apply attempts_backend).
  assert (Hafter : forall w, attempts_within 1 0 w ->
             wp (StartSystem.main_after_api E d fuel)
                (fun _ w' => attempts_within 1 1 w') w).
  { intros w Hw.
    apply (main_after_api_staged E (attempts_within 1 0) (attempts_within 1 1));
      auto. }
  assert (Hmain : wp (StartSystem.main E d fuel)
                     (fun _ w' => attempts_within 1 1 w') initial).
  { unfold StartSystem.main. do 2 apply wp_bind, wp_emit. apply wp_bind.
    eapply wp_mono.
    { apply (check_api_running_safe E (attempts_within 0 0))
        with (R := fun _ => True); auto.
      - apply installed_leaves; intros; now apply Hlog.
      - repeat apply Hlog; auto. split; cbn; lia. }
    intros [[|]|e|] w1 [H1 Hr]; cbn in Hr; [| | |contradiction].
    - apply wp_bind, wp_emit. apply Hafter.
      apply Hlog; [reflexivity|].
      now apply (attempts_within_weaken 0 0 1 0); [lia | lia |].
    - apply wp_bind, wp_bind.
      eapply wp_mono.
      { apply (start_api_staged E (attempts_within 0 0) (attempts_within 1 0));
          auto. }
      intros [[|]|e|] w2 [H2 Hr2]; cbn in Hr2; [| | |contradiction].
      + apply wp_ret. now apply Hafter.
      + apply wp_bind, wp_emit. unfold wp, sys_exit. cbn [fst snd].
        apply (attempts_within_weaken 1 0 1 1); [lia | lia |].
        repeat apply Hlog; auto.
      + now apply (attempts_within_weaken 1 0 1 1); [lia | lia |].
    - now apply (attempts_within_weaken 0 0 1 1); [lia | lia |]. }
  unfold wp in Hmain. unfold StartSystem.run.
  assert (Hclean : forall w, attempts_within 1 1 w ->
                             attempts_within 1 1 (snd (StartSystem.cleanup E d w))).
  { intros w Hw. apply (cleanup_staged E (attempts_within 1 1)); auto. }
  destruct (StartSystem.main E d fuel initial) as [[[]|e|] w1];
    cbn [fst snd] in *.
  - now apply Hclean.
  - destruct e; cbn [snd]; now apply Hclean.
  - exact Hmain.
Qed.

(** ** run_dashboard.py: what is left running *)

Lemma never_weaken (f g : event -> bool) (w : world) :
  (forall e, f e = false -> g e = false) -> never f w -> never g w.
Proof. intros Hfg Hw. eapply Forall_impl; [|exact Hw]. exact Hfg. Qed.

Lemma calm_no_kill (w : world) :
  never is_process_call w -> never is_kill_or_timed_wait w.
Proof. apply never_weaken. intros []; cbn; congruence. Qed.

Lemma calm_no_terminate (w : world) :
  never is_process_call w -> never is_terminate w.
Proof. apply never_weaken. intros []; cbn; congruence. Qed.

Section RunDashboardCalls.

Variable E : environment.
Variable I : world -> Prop.

Hypothesis I_log :
  forall e w, is_process_call e = false -> is_spawn e = false ->
              I w -> I (log e w).

Lemma rdc_check_api_running (w : world) :
  I w ->
  wp (RunDashboard.check_api_running E)
     (fun r w' => I w' /\ exists b, r = Normal b) w.
Proof using I_log.
  intros HI. unfold RunDashboard.check_api_running.
  apply wp_try_except, wp_bind. unfold requests_get. apply wp_blocking.
  - unfold wp. destruct (health E (probes (trace w))) as [c| |];
      cbn [fst snd any_exception ret]; (split; [apply I_log; auto | eauto]).
  - intros handler Hhandler. injection Hhandler as <-.
    unfold wp, raise. cbn [fst snd any_exception ret].
    split; [apply I_log; auto | eauto].
Qed.

Lemma rdc_time_sleep (s : Z) (w : world) :
  I w ->
  wp (time_sleep E RunDashboard.default_int_handler s)
     (fun r w' => I w' /\ (r = Normal tt \/ r = Raised KeyboardInterrupt)) w.
Proof using I_log.
  intros HI. unfold time_sleep. apply wp_blocking.
  - apply wp_emit. split; [apply I_log; auto | now left].
  - intros handler Hhandler. injection Hhandler as <-.
    unfold wp, raise. cbn [fst snd]. split; [apply I_log; auto | now right].
Qed.

Lemma rdc_wait_for_api (p : service) (n i : nat) (w : world) :
  I w ->
  wp (RunDashboard.wait_for_api E p n i)
     (fun r w' => I w' /\
                  (r = Normal (Some p) \/ r = Normal None \/
                   r = Raised KeyboardInterrupt)) w.
Proof using I_log.
  revert i w. induction n as [|n IH]; intros i w HI.
  - apply wp_ret. auto.
  - cbn [RunDashboard.wait_for_api]. apply wp_bind.
    eapply wp_mono; [apply rdc_time_sleep; auto|].
    intros r w1 [HI1 [-> | ->]]; [|auto].
    apply wp_bind.
    eapply wp_mono; [apply rdc_check_api_running; auto|].
    intros r w2 [HI2 [[|] ->]].
    + apply wp_bind, wp_emit, wp_ret. split; [apply I_log; auto | auto].
    + apply wp_bind, wp_emit. apply IH. apply I_log; auto.
Qed.

End RunDashboardCalls.

Lemma rd_start_api_outcome (E : environment) (w : world) :
  never is_process_call w ->
  wp (RunDashboard.start_api E)
     (fun r w' =>
        never is_kill_or_timed_wait w' /\ never is_join w' /\
        match r with
        | Normal (Some q) => q = Backend /\ never is_process_call w'
        | Normal None => True
        | Raised e =>
            e = KeyboardInterrupt /\ never is_process_call w' /\
            In (Popen Backend true) (trace w')
        | StillRunning => False
        end) w.
Proof.
  intros Hw. unfold RunDashboard.start_api.
  set (I := fun u : world => never is_process_call u /\
                             In (Popen Backend true) (trace u)).
  assert (HI : forall e u, is_process_call e = false -> is_spawn e = false ->
                           I u -> I (log e u)).
  { intros e u He _ [H1 H2]. split; [now apply never_log|].
    apply in_or_app. now left. }
  assert (Hj : forall u, never is_process_call u -> never is_join u).
  { intros u. apply never_weaken. intros []; cbn; congruence. }
  apply wp_bind, wp_emit, wp_try_except, wp_bind.
  unfold wp at 1, popen.
  destruct (spawns E Backend); cbn [fst snd is_Exception].
  - apply wp_bind, wp_emit, wp_bind.
    eapply wp_mono.
    { apply (rdc_wait_for_api E I HI). apply HI; [reflexivity | reflexivity |].
      split.
      - repeat (apply never_log; [reflexivity|]). exact Hw.
      - apply in_or_app. right. now left. }
    intros r w2 [[H1 H2] [-> | [-> | ->]]].
    + apply wp_ret. auto using calm_no_kill.
    + apply wp_bind, wp_emit, wp_bind, wp_emit, wp_ret.
      split; [|split; [|exact Logic.I]];
        repeat (apply never_log; [reflexivity|]); auto using calm_no_kill.
    + cbn [is_Exception]. auto 6 using calm_no_kill.
  - apply wp_bind, wp_emit, wp_ret.
    split; [|split; [|exact Logic.I]];
      repeat (apply never_log; [reflexivity|]); auto using calm_no_kill.
Qed.

Lemma rd_main_tail_outcome (E : environment) (api_process : option service)
      (w : world) :
  never is_process_call w ->
  api_process = Some Backend \/
  (api_process = None /\ never (is_spawn_of Backend) w) ->
  wp (r <- RunDashboard.start_streamlit E ;;
      match r with
      | None =>
          match api_process with
          | Some p => terminate p
          | None => ret tt
          end ;;
          sys_exit 1
      | Some streamlit_process =>
          print (Line "Fraud Detection System is ready!") ;;
          print (Line "Dashboard: http://localhost:8501") ;;
          print (Line "API: http://localhost:8001/docs") ;;
          print (Line "Press Ctrl+C to stop all services") ;;
          try_except
            (wait_exit E RunDashboard.default_int_handler streamlit_process)
            is_KeyboardInterrupt
            (print (Line "Stopping services...") ;;
             match api_process with
             | Some p => terminate p
             | None => ret tt
             end ;;
             terminate streamlit_process ;;
             print (Line "All services stopped"))
      end)
     rd_main_outcome w.
Proof.
  intros Hw Hapi.
  assert (Hk : forall u, never is_process_call u -> never is_kill_or_timed_wait u)
    by apply calm_no_kill.
  assert (Hj : forall u, never is_process_call u -> never is_join u).
  { intros u. apply never_weaken. intros []; cbn; congruence. }
  apply wp_bind. unfold RunDashboard.start_streamlit.
  apply wp_bind, wp_emit, wp_try_except, wp_bind.
  unfold wp at 1, popen.
  destruct (spawns E Frontend); cbn [fst snd is_Exception].
  - apply wp_ret. do 4 apply wp_bind, wp_emit.
    match goal with
    | |- wp _ _ ?u =>
        assert (H2 : never is_process_call u)
          by (repeat (apply never_log; [reflexivity|]); exact Hw);
        assert (H3 : api_process = Some Backend \/
                     (api_process = None /\ never (is_spawn_of Backend) u))
          by (destruct Hapi as [Ha | [Ha Hn]]; [now left | right];
              split; [exact Ha|];
              repeat (apply never_log; [reflexivity|]); exact Hn);
        set (w2 := u) in *
    end.
    clearbody w2.
    apply wp_try_except. unfold wait_exit. apply wp_blocking.
    + unfold wp. destruct (exits_within E Frontend _); cbn [fst snd].
      * split; [apply never_log; auto|]. left. split.
        -- apply never_log; [reflexivity | now apply calm_no_terminate].
        -- apply in_or_app. right. now left.
      * split; auto.
    + intros handler Hhandler. injection Hhandler as <-.
      unfold wp at 1, raise. cbn [fst snd is_KeyboardInterrupt].
      apply wp_bind, wp_emit, wp_bind.
      destruct H3 as [-> | [-> Hn]].
      * apply wp_emit, wp_bind, wp_emit, wp_emit.
        split; [|right; split; [|split]].
        -- repeat (apply never_log; [reflexivity|]). auto.
        -- repeat (apply never_log; [reflexivity|]). auto.
        -- apply in_or_app. left. apply in_or_app. right. now left.
        -- intros _. apply in_or_app. left. apply in_or_app. left.
           apply in_or_app. right. now left.
      * apply wp_ret, wp_bind, wp_emit, wp_emit.
        split; [|right; split; [|split]].
        -- repeat (apply never_log; [reflexivity|]). auto.
        -- repeat (apply never_log; [reflexivity|]). auto.
        -- apply in_or_app. left. apply in_or_app. right. now left.
        -- intros Hin. exfalso.
           assert (Hn' : never (is_spawn_of Backend)
                           (log (Print (Line "All services stopped"))
                              (log (Terminate Frontend)
                                 (log (Print (Line "Stopping services..."))
                                    (log (Signal (WaitExit Frontend)) w2)))))
             by (repeat (apply never_log; [reflexivity|]); exact Hn).
           unfold never in Hn'. rewrite Forall_forall in Hn'.
           specialize (Hn' _ Hin). discriminate.
  - apply wp_bind, wp_emit, wp_ret, wp_bind.
    assert (Hend : forall u, never is_kill_or_timed_wait u ->
                             wp (sys_exit (A := unit) 1) rd_main_outcome u).
    { intros u Hu. unfold wp, sys_exit. cbn [fst snd]. split; [|reflexivity].
      now apply never_log. }
    destruct api_process as [p|].
    + apply wp_emit. apply Hend.
      repeat (apply never_log; [reflexivity|]). auto.
    + apply wp_ret. apply Hend.
      repeat (apply never_log; [reflexivity|]). auto.
Qed.

Lemma rd_main_spec (E : environment) :
  wp (RunDashboard.main E) rd_main_outcome initial.
Proof.
  set (I := fun u : world => never is_process_call u /\
                             never (is_spawn_of Backend) u).
  assert (HI : forall e u, is_process_call e = false -> is_spawn e = false ->
                           I u -> I (log e u)).
  { intros e u He Hs [H1 H2]. split; [now apply never_log|].
    apply never_log; [|exact H2].
    destruct e as [| | |s ok| | | | | | |]; try reflexivity. discriminate. }
  unfold RunDashboard.main. do 2 apply wp_bind, wp_emit. apply wp_bind.
  eapply wp_mono.
  { apply (rdc_check_api_running E I HI).
    split; repeat (apply never_log; [reflexivity|]); constructor. }
  intros r w1 [[H1 Hn] [[|] ->]].
  - apply wp_bind, wp_bind, wp_emit, wp_ret.
    apply (rd_main_tail_outcome E None); [now apply never_log|].
    right. split; [reflexivity | now apply never_log].
  - apply wp_bind, wp_bind.
    eapply wp_mono; [apply rd_start_api_outcome; exact H1|].
    intros [[q|]|e|] w2 (Hk & Hj & Hr); [| | |contradiction].
    + destruct Hr as [-> Hc]. apply wp_ret.
      apply (rd_main_tail_outcome E (Some Backend)); auto.
    + apply wp_bind, wp_emit. unfold wp, sys_exit. cbn [fst snd].
      split; [|reflexivity]. repeat (apply never_log; [reflexivity|]). exact Hk.
    + destruct Hr as (-> & Hc & Hin). split; [exact Hk | auto].
Qed.

(** *** An interrupt while the launcher waits for its backend *)

Lemma rd_failed_rounds_probes (E : environment) (k p i : nat) :
  probes (rd_failed_rounds E p i k) = k.
Proof.
  revert p i. induction k as [|k IH]; intros p i; [reflexivity|].
  simpl. unfold probes in *. simpl. now rewrite IH.
Qed.

Lemma rd_failed_rounds_length (E : environment) (k p i : nat) :
  List.length (rd_failed_rounds E p i k) = 3 * k.
Proof.
  revert p i. induction k as [|k IH]; intros p i; [reflexivity|].
  cbn [rd_failed_rounds app List.length]. rewrite IH. lia.
Qed.

(** One round of the polling loop that no interrupt disturbs and that
    does not see the backend. *)
Lemma rd_round_missed (E : environment) (q : service) (n i : nat) (w : world) :
  signalled E (now w) = false ->
  signalled E (S (now w)) = false ->
  health E (probes (trace w)) <> Status 200 ->
  RunDashboard.wait_for_api E q (S n) i w =
  RunDashboard.wait_for_api E q n (S i)
    (extend w (rd_failed_rounds E (probes (trace w)) i 1)).
Proof.
  intros Hq0 Hq1 Hmiss. simpl RunDashboard.wait_for_api at 1. unfold bind at 1.
  rewrite time_sleep_quiet by exact Hq0.
  unfold bind at 1. rewrite run_dashboard_check_quiet.
  2:{ unfold now, extend. cbn [trace]. rewrite length_app. cbn [List.length].
      now rewrite Nat.add_1_r. }
  cbn [trace extend]. rewrite probes_app.
  change (probes [Slept 1]) with 0. rewrite Nat.add_0_r.
  rewrite not_ready_false by assumption.
  unfold bind, print, emit. rewrite !log_extend, !extend_extend. reflexivity.
Qed.

(** An interrupt during the sleep of a round: [KeyboardInterrupt] comes
    out of the loop. *)
Lemma rd_sleep_interrupted (E : environment) (q : service) (n i : nat) (w : world) :
  signalled E (now w) = true ->
  RunDashboard.wait_for_api E q (S n) i w =
  (Raised KeyboardInterrupt, extend w [Signal (Sleep 1)]).
Proof.
  intros Hsig. simpl RunDashboard.wait_for_api. unfold bind at 1, time_sleep.
  unfold RunDashboard.default_int_handler.
  rewrite blocking_signalled by exact Hsig. reflexivity.
Qed.

(** [k] undisturbed rounds without a 200, then an interrupt during the
    sleep of the next one. *)
Lemma rd_wait_for_api_interrupted (E : environment) (q : service) :
  forall (k n i : nat) (w : world),
    k < n ->
    (forall j, j < k -> health E (probes (trace w) + j) <> Status 200) ->
    (forall t, now w <= t < now w + 3 * k -> signalled E t = false) ->
    signalled E (now w + 3 * k) = true ->
    RunDashboard.wait_for_api E q n i w =
    (Raised KeyboardInterrupt,
     extend w (rd_failed_rounds E (probes (trace w)) i k ++ [Signal (Sleep 1)])).
Proof.
  induction k as [|k IH]; intros n i w Hk Hmiss Hq Hsig.
  - destruct n as [|n]; [lia|].
    rewrite Nat.mul_0_r, Nat.add_0_r in Hsig.
    now rewrite rd_sleep_interrupted.
  - destruct n as [|n]; [lia|].
    rewrite rd_round_missed.
    2:{ apply Hq. lia. }
    2:{ apply Hq. lia. }
    2:{ specialize (Hmiss 0). rewrite Nat.add_0_r in Hmiss. apply Hmiss. lia. }
    assert (Hnow : now (extend w (rd_failed_rounds E (probes (trace w)) i 1))
                   = now w + 3).
    { unfold now, extend. cbn [trace]. rewrite length_app.
      now rewrite rd_failed_rounds_length. }
    assert (Hp : probes (trace (extend w (rd_failed_rounds E (probes (trace w)) i 1)))
                 = S (probes (trace w))).
    { cbn [trace extend]. rewrite probes_app, rd_failed_rounds_probes. lia. }
    rewrite IH.
    + rewrite extend_extend, Hp, app_assoc. reflexivity.
    + lia.
    + intros j Hj. rewrite Hp.
      replace (S (probes (trace w)) + j) with (probes (trace w) + S j) by lia.
      apply Hmiss. lia.
    + intros t Ht. rewrite Hnow in Ht. apply Hq. lia.
    + rewrite Hnow. replace (now w + 3 + 3 * k) with (now w + 3 * S k) by lia.
      exact Hsig.
Qed.

Lemma bind_normal (A B : Type) (m : M A) (k : A -> M B) (w w' : world) (a : A) :
  m w = (Normal a, w') -> bind m k w = k a w'.
Proof. intros H. unfold bind. now rewrite H. Qed.

Lemma bind_raised (A B : Type) (m : M A) (k : A -> M B) (w w' : world) (e : exn) :
  m w = (Raised e, w') -> bind m k w = (Raised e, w').
Proof. intros H. unfold bind. now rewrite H. Qed.

(** [start_api] of run_dashboard.py in that case: the interrupt is no
    [Exception], so the [except] clause lets it pass. *)
Lemma rd_start_api_interrupted (E : environment) (k : nat) (w : world) :
  k < 10 ->
  spawns E Backend = true ->
  (forall j, j < k -> health E (probes (trace w) + j) <> Status 200) ->
  (forall t, now w + 3 <= t < now w + 3 + 3 * k -> signalled E t = false) ->
  signalled E (now w + 3 + 3 * k) = true ->
  RunDashboard.start_api E w =
  (Raised KeyboardInterrupt,
   extend w (spawn_backend ++ rd_failed_rounds E (probes (trace w)) 0 k
               ++ [Signal (Sleep 1)])).
Proof.
  intros Hk Hs Hmiss Hq Hsig.
  assert (Hstart :
            RunDashboard.start_api E w =
            try_except
              (r <- RunDashboard.wait_for_api E Backend 10 0 ;;
               match r with
               | Some q => ret (Some q)
               | None =>
                   print (Line "API server failed to start within 10 seconds") ;;
                   terminate Backend ;;
                   ret None
               end)
              is_Exception
              (print (FailedWith "Failed to start API server") ;; ret None)
              (extend w spawn_backend)).
  { unfold RunDashboard.start_api, try_except, bind at 1 2 3, print, emit.
    rewrite popen_ok by assumption. worlds. now rewrite <- !app_assoc. }
  assert (Hp : probes (trace (extend w spawn_backend)) = probes (trace w)).
  { cbn [trace extend]. rewrite probes_app. cbn. lia. }
  assert (Hnow : now (extend w spawn_backend) = now w + 3).
  { unfold now, extend. cbn [trace]. now rewrite length_app. }
  rewrite Hstart. unfold try_except.
  rewrite (bind_raised _ _ _ _ _ _ _
             (rd_wait_for_api_interrupted E Backend k 10 0 (extend w spawn_backend)
                Hk
                ltac:(rewrite Hp; exact Hmiss)
                ltac:(rewrite Hnow; exact Hq)
                ltac:(rewrite Hnow; exact Hsig))).
  cbn [is_Exception]. now rewrite Hp, extend_extend.
Qed.

(** X8.  run_dashboard.py leaves the backend it has spawned running when
    an interrupt arrives while it sleeps in the polling loop of
    [start_api].  The first probe has not seen the backend, the spawn
    has worked, [k] rounds have gone by without a signal and without a
    200, and the interrupt arrives during the sleep of the next round:
    [KeyboardInterrupt] passes the [except Exception] of [start_api] and
    leaves [main], and the log, which is given in full, has the spawn of
    the backend and no terminate, wait or kill. *)
Theorem run_dashboard_interrupt_orphans_backend :
  forall (E : environment) (k : nat),
    k < 10 ->
    health E 0 <> Status 200 ->
    spawns E Backend = true ->
    (forall j, j < k -> health E (1 + j) <> Status 200) ->
    (forall t, t < 6 + 3 * k -> signalled E t = false) ->
    signalled E (6 + 3 * k) = true ->
    let r := RunDashboard.main E initial in
    r = (Raised KeyboardInterrupt,
         mkWorld (rd_banner ++ Http 5 (health E 0) :: spawn_backend
                    ++ rd_failed_rounds E 1 0 k ++ [Signal (Sleep 1)])
                 None None) /\
    In (Popen Backend true) (trace (snd r)) /\
    never is_process_call (snd r).
Proof.
  intros E k Hk Hdown Hs Hmiss Hq Hsig r.
  set (w1 := mkWorld (rd_banner ++ [Http 5 (health E 0)]) None None).
  assert (Hprobe : RunDashboard.check_api_running E
                     (log (Print (Line "=================================================="))
                        (log (Print (Line "Fraud Detection Dashboard Launcher")) initial))
                   = (Normal false, w1)).
  { rewrite run_dashboard_check_quiet by (apply Hq; cbn; lia).
    cbn [log initial trace app probes filter is_http List.length].
    now rewrite not_ready_false by exact Hdown. }
  assert (Hstart : RunDashboard.start_api E w1 =
                   (Raised KeyboardInterrupt,
                    extend w1 (spawn_backend ++ rd_failed_rounds E 1 0 k
                                 ++ [Signal (Sleep 1)]))).
  { apply (rd_start_api_interrupted E k w1 Hk Hs).
    - exact Hmiss.
    - intros t Ht. apply Hq. cbn in Ht. lia.
    - exact Hsig. }
  assert (Hrun : r = (Raised KeyboardInterrupt,
                      mkWorld (rd_banner ++ Http 5 (health E 0) :: spawn_backend
                                 ++ rd_failed_rounds E 1 0 k ++ [Signal (Sleep 1)])
                              None None)).
  { subst r. unfold RunDashboard.main.
    unfold bind at 1, print at 1, emit.
    unfold bind at 1, print at 1, emit.
    rewrite (bind_normal _ _ _ _ _ _ _ Hprobe).
    apply bind_raised. apply bind_raised. rewrite Hstart.
    unfold extend, w1. cbn [trace api_process streamlit_process].
    now rewrite <- app_assoc. }
  split; [exact Hrun|].
  pose proof (rd_main_spec E) as H. unfold wp in H. fold r in H.
  rewrite Hrun in H. cbn [fst snd rd_main_outcome] in H.
  rewrite Hrun. cbn [snd].
  destruct H as (_ & Hc & Hin). split; assumption.
Qed.

(** X9.  When run_dashboard.py returns because the dashboard has exited
    by itself (the unbounded wait on it has returned), it has sent no
    termination request: a backend it spawned is left running. *)
Theorem run_dashboard_exit_leaves_backend :
  forall (E : environment) (w : world),
    RunDashboard.main E initial = (Normal tt, w) ->
    In (Joined Frontend) (trace w) ->
    never is_terminate w.
Proof.
  intros E w Hrun Hj. pose proof (rd_main_spec E) as H. unfold wp in H.
  rewrite Hrun in H. destruct H as (_ & [[Hnt _] | [Hnj _]]); [exact Hnt|].
  unfold never in Hnj. rewrite Forall_forall in Hnj.
  specialize (Hnj _ Hj). discriminate.
Qed.

(** X10.  run_dashboard.py never kills a child and never waits for one
    with a timeout, however its run goes. *)
Theorem run_dashboard_never_kills :
  forall (E : environment),
    never is_kill_or_timed_wait (snd (RunDashboard.main E initial)).
Proof.
  intros E. pose proof (rd_main_spec E) as H. unfold wp in H.
  exact (proj1 H).
Qed.

(** X11.  When run_dashboard.py returns although the dashboard has not
    exited, which is what an interrupt during the wait on the dashboard
    leads to, it has sent a termination request to the dashboard, and to
    the backend if it had spawned one. *)
Theorem run_dashboard_interrupt_stops_both :
  forall (E : environment) (w : world),
    RunDashboard.main E initial = (Normal tt, w) ->
    ~ In (Joined Frontend) (trace w) ->
    In (Terminate Frontend) (trace w) /\
    (In (Popen Backend true) (trace w) -> In (Terminate Backend) (trace w)).
Proof.
  intros E w Hrun Hj. pose proof (rd_main_spec E) as H. unfold wp in H.
  rewrite Hrun in H. destruct H as (_ & [[_ Hin] | (_ & Hf & Hb)]).
  - contradiction.
  - split; assumption.
Qed.

(** ** run_dashboard.py: the polling loop *)

Lemma rd_wait_for_api_miss (E : environment) (q : service) (n i : nat) (w : world) :
  quiet E ->
  health E (probes (trace w)) <> Status 200 ->
  RunDashboard.wait_for_api E q (S n) i w =
  RunDashboard.wait_for_api E q n (S i)
    (extend w (rd_failed_rounds E (probes (trace w)) i 1)).
Proof.
  intros Hq Hmiss. simpl RunDashboard.wait_for_api at 1. unfold bind at 1.
  rewrite time_sleep_quiet by apply Hq.
  unfold bind at 1. rewrite run_dashboard_check_quiet by apply Hq.
  cbn [trace extend]. rewrite probes_app.
  change (probes [Slept 1]) with 0. rewrite Nat.add_0_r.
  rewrite not_ready_false by assumption.
  unfold bind, print, emit. rewrite !log_extend, !extend_extend. reflexivity.
Qed.

Lemma rd_wait_for_api_hit (E : environment) (q : service) (n i : nat) (w : world) :
  quiet E ->
  health E (probes (trace w)) = Status 200 ->
  RunDashboard.wait_for_api E q (S n) i w =
  (Normal (Some q), extend w rd_ready_round).
Proof.
  intros Hq Hhit. simpl RunDashboard.wait_for_api. unfold bind at 1.
  rewrite time_sleep_quiet by apply Hq.
  unfold bind at 1. rewrite run_dashboard_check_quiet by apply Hq.
  cbn [trace extend]. rewrite probes_app.
  change (probes [Slept 1]) with 0. rewrite Nat.add_0_r, Hhit.
  unfold bind, print, emit, ret. simpl.
  rewrite !log_extend, !extend_extend. reflexivity.
Qed.

Lemma rd_wait_for_api_misses (E : environment) (q : service) :
  quiet E ->
  forall (k n i : nat) (w : world),
    (forall j, j < k -> health E (probes (trace w) + j) <> Status 200) ->
    RunDashboard.wait_for_api E q (k + n) i w =
    RunDashboard.wait_for_api E q n (i + k)
      (extend w (rd_failed_rounds E (probes (trace w)) i k)).
Proof.
  intros Hq k. induction k as [|k IH]; intros n i w Hmiss.
  - simpl. now rewrite extend_nil, Nat.add_0_r.
  - change (S k + n) with (S (k + n)).
    rewrite rd_wait_for_api_miss; try assumption.
    2:{ specialize (Hmiss 0). rewrite Nat.add_0_r in Hmiss. apply Hmiss. lia. }
    rewrite IH.
    + rewrite extend_extend. cbn [trace extend].
      rewrite probes_app, rd_failed_rounds_probes.
      replace (S i + k) with (i + S k) by lia.
      replace (probes (trace w) + 1) with (S (probes (trace w))) by lia.
      reflexivity.
    + intros j Hj. cbn [trace extend].
      rewrite probes_app, rd_failed_rounds_probes.
      replace (probes (trace w) + 1 + j) with (probes (trace w) + S j) by lia.
      apply Hmiss. lia.
Qed.

(** X12.  With no interrupt about and a spawn that works, [start_api] of
    run_dashboard.py searches the next 10 answers of the health endpoint
    for the first 200, sleeping one second before each probe.  It returns
    the process handle right at that answer; when there is none it sends
    the backend a termination request, without waiting for it, and
    returns [None]. *)
Theorem run_dashboard_start_api_is_first_ready :
  forall (E : environment) (w : world),
    quiet E ->
    spawns E Backend = true ->
    let p := probes (trace w) in
    match first_ready E p 10 with
    | Some k =>
        RunDashboard.start_api E w =
          (Normal (Some Backend),
           extend w (spawn_backend ++ rd_failed_rounds E p 0 k ++ rd_ready_round))
    | None =>
        RunDashboard.start_api E w =
          (Normal None,
           extend w (spawn_backend ++ rd_failed_rounds E p 0 10
                       ++ rd_loop_exhausted))
    end.
Proof.
  intros E w Hq Hs p.
  assert (Hstart :
            RunDashboard.start_api E w =
            try_except
              (r <- RunDashboard.wait_for_api E Backend 10 0 ;;
               match r with
               | Some q => ret (Some q)
               | None =>
                   print (Line "API server failed to start within 10 seconds") ;;
                   terminate Backend ;;
                   ret None
               end)
              is_Exception
              (print (FailedWith "Failed to start API server") ;; ret None)
              (extend w spawn_backend)).
  { unfold RunDashboard.start_api, try_except, bind at 1 2 3, print, emit.
    rewrite popen_ok by assumption. worlds. now rewrite <- !app_assoc. }
  assert (Hp : probes (trace (extend w spawn_backend)) = p).
  { cbn [trace extend]. rewrite probes_app. cbn. subst p. lia. }
  rewrite Hstart. unfold try_except, bind at 1.
  destruct (first_ready E p 10) as [k|] eqn:Hf.
  - destruct (first_ready_some E 10 p k Hf) as (Hk & Hhit & Hmiss).
    replace (RunDashboard.wait_for_api E Backend 10 0)
      with (RunDashboard.wait_for_api E Backend (k + S (9 - k)) 0)
      by (f_equal; lia).
    rewrite (rd_wait_for_api_misses E Backend Hq k (S (9 - k)) 0
               (extend w spawn_backend))
      by (intros j Hj; rewrite Hp; auto).
    rewrite rd_wait_for_api_hit;
      [|exact Hq
       |cbn [trace extend]; rewrite probes_app, rd_failed_rounds_probes;
        rewrite probes_app; cbn; rewrite Nat.add_0_r; exact Hhit].
    unfold ret. rewrite Hp, !extend_extend. reflexivity.
  - pose proof (first_ready_none E 10 p Hf) as Hmiss.
    change (RunDashboard.wait_for_api E Backend 10 0)
      with (RunDashboard.wait_for_api E Backend (10 + 0) 0).
    unfold bind at 1.
    rewrite (rd_wait_for_api_misses E Backend Hq 10 0 0
               (extend w spawn_backend))
      by (intros j Hj; rewrite Hp; auto).
    cbn [RunDashboard.wait_for_api]. unfold bind, ret, print, terminate, emit.
    rewrite Hp, !log_extend, !extend_extend. reflexivity.
Qed.

(** ** Exit status 1, exactly *)

Lemma main_after_api_with_dashboard (E : environment) (d fuel : nat) (w : world) :
  quiet E -> spawns E Frontend = true ->
  exits_cleanly (fst (StartSystem.main_after_api E d fuel w)).
Proof.
  intros Hq Hs. unfold StartSystem.main_after_api. unfold bind at 1.
  rewrite start_streamlit_quiet by assumption.
  unfold bind at 1, ret at 1.
  assert (H : forall u,
             wp (print (Line "Fraud Detection System is ready!") ;;
                 print (Line "Dashboard: http://localhost:8501") ;;
                 print (Line "API: http://localhost:8001/docs") ;;
                 print (Line "Press Ctrl+C to stop all services") ;;
                 print (Line "==================================================") ;;
                 try_finally
                   (try_except
                      (StartSystem.monitor E (StartSystem.installed E d) fuel)
                      is_KeyboardInterrupt (ret tt))
                   (StartSystem.cleanup E d))
                (fun o _ => exits_cleanly o) u).
  { intros u. do 5 apply wp_bind, wp_emit.
    eapply wp_mono.
    { apply (monitor_finally_safe E (fun _ => True)); auto. }
    intros o u' [_ Ho]. exact Ho. }
  apply H.
Qed.

Lemma main_startup_ok (E : environment) (d fuel : nat) :
  quiet E -> startup_succeeds E = true ->
  exits_cleanly (fst (StartSystem.main E d fuel initial)).
Proof.
  intros Hq Hok. unfold startup_succeeds in Hok.
  apply andb_prop in Hok as [Hf Hb].
  assert (Hfirst : first_probe_undisturbed E d) by (right; apply Hq).
  destruct (is_ready (health E 0)) eqn:Hr.
  - apply is_ready_true in Hr. rewrite main_found_running by assumption.
    now apply main_after_api_with_dashboard.
  - cbn [orb] in Hb. apply andb_prop in Hb as [Hs Hsome].
    assert (Hdown : health E 0 <> Status 200).
    { intros Hc. apply is_ready_true in Hc. congruence. }
    rewrite main_not_found by assumption.
    set (w0 := mkWorld (banner ++ [Http 3 (health E 0)]) None None).
    destruct (first_ready E 1 15) as [k|] eqn:Hk; [|discriminate].
    destruct (first_ready_some E 15 1 k Hk) as (Hlt & Hhit & Hmiss).
    unfold bind at 1 2.
    rewrite (start_api_ready E _ w0 k Hq Hs Hlt Hmiss Hhit).
    unfold ret at 1. now apply main_after_api_with_dashboard.
Qed.

Lemma main_startup_fails (E : environment) (d fuel : nat) :
  quiet E -> startup_succeeds E = false ->
  exists w1, StartSystem.main E d fuel initial = (Raised (SystemExit 1), w1).
Proof.
  intros Hq Hko.
  destruct (spawns E Frontend) eqn:Hf.
  2:{ destruct (main_no_dashboard E d fuel Hq Hf) as (w1 & H & _). eauto. }
  unfold startup_succeeds in Hko. rewrite Hf in Hko. cbn [andb] in Hko.
  apply orb_false_elim in Hko as [Hr Hb].
  assert (Hfirst : first_probe_undisturbed E d) by (right; apply Hq).
  assert (Hdown : health E 0 <> Status 200).
  { intros Hc. apply is_ready_true in Hc. congruence. }
  rewrite main_not_found by assumption.
  set (w0 := mkWorld (banner ++ [Http 3 (health E 0)]) None None).
  destruct (spawns E Backend) eqn:Hs.
  - cbn [andb] in Hb.
    destruct (first_ready E 1 15) as [k|] eqn:Hk; [discriminate|].
    pose proof (first_ready_none E 15 1 Hk) as Hmiss.
    unfold bind at 1 2. rewrite (start_api_timeout E _ w0 Hq Hs Hmiss).
    unfold bind, print, emit, sys_exit. eauto.
  - unfold bind at 1 2. rewrite start_api_not_spawned by exact Hs.
    unfold bind, print, emit, sys_exit. eauto.
Qed.

(** C1, as the script has it.  A startup that fails (the dashboard
    cannot be spawned, or the backend is not there at the first probe
    and cannot be spawned or answers 200 to none of the 15 probes) ends
    the run with exit status 1 when no signal arrives.  Every run that
    ends, ends with exit status 0 or 1.  Status 1 comes from
    [sys.exit(1)] alone, which is called only before the monitoring loop
    has made its first liveness check; so a run in which the loop
    checked a child, and in particular one in which it found a child
    dead, ends with status 0, like one ended by a signal that arrived in
    a sleep.  However it ends, every process the launcher owns has been
    sent a termination request. *)
Theorem exit_status_of_a_run :
  forall (E : environment) (d fuel : nat),
    (quiet E -> startup_succeeds E = false ->
     fst (StartSystem.run E d fuel) = Exited 1) /\
    forall (code : Z) (w : world),
      StartSystem.run E d fuel = (Exited code, w) ->
      (code = 0%Z \/ code = 1%Z) /\
      (code = 1%Z -> In (Exit 1) (trace w) /\ not_monitoring w) /\
      (forall p rc, In (Polled p rc) (trace w) -> code = 0%Z) /\
      (forall s, In (Signal (Sleep s)) (trace w) -> code = 0%Z) /\
      (forall p, owned w p -> In (Terminate p) (trace w)).
Proof.
  intros E d fuel. split.
  { intros Hq Hko.
    destruct (main_startup_fails E d fuel Hq Hko) as (w1 & Hmain).
    unfold StartSystem.run. now rewrite Hmain. }
  intros code w Hrun.
  cut ((code = 0%Z \/ code = 1%Z) /\
       (code = 1%Z -> In (Exit 1) (trace w) /\ not_monitoring w) /\
       (forall p, owned w p -> In (Terminate p) (trace w))).
  { intros (Hcode & Hone & Hown).
    split; [exact Hcode|]. split; [exact Hone|].
    split; [|split; [|exact Hown]].
    - intros p rc Hin. destruct Hcode as [-> | ->]; [reflexivity|].
      destruct (Hone eq_refl) as [_ Hnm].
      unfold not_monitoring in Hnm. rewrite Forall_forall in Hnm.
      specialize (Hnm _ Hin). discriminate.
    - intros s Hin.
      pose proof (sleep_signal_ends_run E d fuel s) as Hs.
      rewrite Hrun in Hs. cbn [fst snd] in Hs.
      specialize (Hs Hin). now injection Hs. }
  pose proof (main_exit E d fuel) as Hmain. unfold wp in Hmain.
  unfold StartSystem.run in Hrun.
  destruct (StartSystem.main E d fuel initial) as [o w1]. cbn [fst snd] in Hmain.
  destruct (cleanup_spec E d w1) as (l & Hw & _ & Hterm).
  assert (Hkeep : In (Exit 1) (trace w1) /\ not_monitoring w1 ->
                  In (Exit 1) (trace (snd (StartSystem.cleanup E d w1))) /\
                  not_monitoring (snd (StartSystem.cleanup E d w1))).
  { rewrite Hw. intros [Hin Hnm]. split; [apply in_or_app; now left|].
    pose proof (cleanup_safe E not_monitoring) as Hc.
    specialize (Hc (fun m u => not_monitoring_log (Print m) u eq_refl)
                   (fun c u => not_monitoring_log (Signal c) u eq_refl)
                   (fun c u => not_monitoring_log (Exit c) u eq_refl)
                   (fun p u H _ => not_monitoring_log (Terminate p) u eq_refl H)
                   (fun p t b u H _ => not_monitoring_log (Waited p t b) u eq_refl H)
                   (fun p u H _ => not_monitoring_log (Kill p) u eq_refl H)
                   d w1 Hnm).
    unfold wp in Hc. rewrite Hw in Hc. exact (proj1 Hc). }
  assert (Hall : forall p, owned (snd (StartSystem.cleanup E d w1)) p ->
                           In (Terminate p) (trace (snd (StartSystem.cleanup E d w1)))).
  { rewrite Hw. intros p Hp. apply in_or_app. right. apply Hterm. exact Hp. }
  destruct o as [[]|e|].
  - injection Hrun as <- <-. split; [now left|]. split; [discriminate | exact Hall].
  - cbn [main_outcome] in Hmain.
    destruct Hmain as [-> | (-> & Hj)]; injection Hrun as <- <-.
    + split; [now left|]. split; [discriminate | exact Hall].
    + split; [now right|]. split; [intros _; now apply Hkeep | exact Hall].
  - discriminate.
Qed.

(** C1, counterexample.  The dashboard dies while being monitored and no
    signal arrives: the loop finds it dead, and the run ends with exit
    status 0. *)
Lemma unexpected_exit_of_child_exits_0 :
  fst (StartSystem.run frontend_dies 0 2) = Exited 0 /\
  In (Polled Frontend (Some 1%Z)) (trace (snd (StartSystem.run frontend_dies 0 2))) /\
  In (Print (Line "Streamlit dashboard stopped unexpectedly"))
     (trace (snd (StartSystem.run frontend_dies 0 2))) /\
  existsb is_signal (trace (snd (StartSystem.run frontend_dies 0 2))) = false.
Proof.
  vm_compute. repeat split; auto 30.
Qed.

(** X13.  With no signal about, start_system.py ends with exit status 1
    exactly when its startup cannot succeed: the dashboard cannot be
    spawned, or the backend is not there at the first probe and either
    cannot be spawned or answers 200 to none of the 15 probes that
    follow.  In every other case the launcher gets to its monitoring
    loop and is still running or ends with status 0. *)
Theorem exit_1_iff_startup_fails :
  forall (E : environment) (d fuel : nat),
    quiet E ->
    (fst (StartSystem.run E d fuel) = Exited 1 <-> startup_succeeds E = false).
Proof.
  intros E d fuel Hq. split.
  - intros Hrun. destruct (startup_succeeds E) eqn:Hok; [|reflexivity].
    exfalso. pose proof (main_startup_ok E d fuel Hq Hok) as Hmain.
    unfold StartSystem.run in Hrun.
    destruct (StartSystem.main E d fuel initial) as [[[]|e|] w1];
      cbn [fst exits_cleanly] in *; try discriminate.
    subst e. discriminate.
  - intros Hko. destruct (main_startup_fails E d fuel Hq Hko) as (w1 & Hmain).
    unfold StartSystem.run. now rewrite Hmain.
Qed.

(** ** streamlit_app.py: the URL of the health check *)

Lemma startswith_spec (p s : StreamlitApp.str) :
  StreamlitApp.startswith s p = true <-> exists t, s = p ++ t.
Proof.
  revert s. induction p as [|c p IH]; intros s.
  - split; [intros _; now exists s | intros _; now destruct s].
  - destruct s as [|d s]; cbn [StreamlitApp.startswith].
    + split; [discriminate | intros [t Ht]; discriminate].
    + rewrite andb_true_iff, Ascii.eqb_eq, IH. split.
      * intros [-> [t ->]]. now exists t.
      * intros [t [= -> ->]]. split; [reflexivity | now exists t].
Qed.

Lemma endswith_spec (p s : StreamlitApp.str) :
  StreamlitApp.endswith s p = true <-> exists h, s = h ++ p.
Proof.
  unfold StreamlitApp.endswith. rewrite startswith_spec. split.
  - intros [t Ht]. exists (rev t).
    apply (f_equal (@rev _)) in Ht.
    now rewrite rev_involutive, rev_app_distr, rev_involutive in Ht.
  - intros [h ->]. exists (rev h). now rewrite rev_app_distr.
Qed.

Lemma lstrip_char_head (c : Ascii.ascii) (s : StreamlitApp.str) :
  StreamlitApp.startswith (StreamlitApp.lstrip_char c s) [c] = false.
Proof.
  induction s as [|d s IH]; [reflexivity|].
  cbn [StreamlitApp.lstrip_char]. destruct (Ascii.eqb c d) eqn:Hc; [exact IH|].
  cbn [StreamlitApp.startswith]. now rewrite Hc.
Qed.

Lemma rstrip_char_last (c : Ascii.ascii) (s : StreamlitApp.str) :
  StreamlitApp.endswith (StreamlitApp.rstrip_char c s) [c] = false.
Proof.
  unfold StreamlitApp.endswith, StreamlitApp.rstrip_char.
  rewrite rev_involutive. apply lstrip_char_head.
Qed.

(** X14.  Whatever the environment variable [API_BASE_URL] holds, and
    also when it is not set, the base URL that streamlit_app.py ends up
    with is some prefix followed by [/api]; the adjustment changes
    nothing when applied to its own result; and when it appends [/api]
    to the value of the variable, no slash that ended that value is
    left before it. *)
Theorem api_base_url_ends_with_api :
  forall (env : option StreamlitApp.str),
    (exists h, StreamlitApp.api_base_url env = h ++ StreamlitApp.api_suffix) /\
    StreamlitApp.api_base_url (Some (StreamlitApp.api_base_url env)) =
      StreamlitApp.api_base_url env /\
    (forall v, env = Some v ->
               StreamlitApp.endswith v StreamlitApp.api_suffix = false ->
               exists h, StreamlitApp.api_base_url env = h ++ StreamlitApp.api_suffix /\
                         StreamlitApp.endswith h [StreamlitApp.slash] = false).
Proof.
  intros env.
  cut ((exists h, StreamlitApp.api_base_url env = h ++ StreamlitApp.api_suffix) /\
       StreamlitApp.api_base_url (Some (StreamlitApp.api_base_url env)) =
       StreamlitApp.api_base_url env).
  { intros [H1 H2]. split; [exact H1|]. split; [exact H2|].
    intros v -> Hv. exists (StreamlitApp.rstrip_char StreamlitApp.slash v).
    split; [|apply rstrip_char_last].
    unfold StreamlitApp.api_base_url. now rewrite Hv. }
  assert (Hend : StreamlitApp.endswith (StreamlitApp.api_base_url env)
                                       StreamlitApp.api_suffix = true).
  { unfold StreamlitApp.api_base_url.
    set (base := match env with
                 | Some v => v
                 | None => StreamlitApp.lit "http://localhost:8001"
                 end).
    destruct (StreamlitApp.endswith base StreamlitApp.api_suffix) eqn:He.
    - exact He.
    - apply endswith_spec. eauto. }
  split.
  - now apply endswith_spec.
  - unfold StreamlitApp.api_base_url at 1. now rewrite Hend.
Qed.

Lemma occurs_nil_false (old : StreamlitApp.str) :
  old <> [] -> ~ occurs old [].
Proof.
  intros Hold (pre & post & H). destruct pre; destruct old; try discriminate.
  contradiction.
Qed.

Lemma occurs_cons (old : StreamlitApp.str) (c : Ascii.ascii) (s : StreamlitApp.str) :
  occurs old s -> occurs old (c :: s).
Proof. intros (pre & post & ->). now exists (c :: pre), post. Qed.

Lemma occurs_tail (old : StreamlitApp.str) (c : Ascii.ascii) (s : StreamlitApp.str) :
  occurs old (c :: s) -> StreamlitApp.startswith (c :: s) old = false ->
  occurs old s.
Proof.
  intros (pre & post & H) Hs. destruct pre as [|d pre].
  - exfalso. cbn [app] in H.
    assert (Ht : StreamlitApp.startswith (c :: s) old = true)
      by (apply startswith_spec; eauto).
    congruence.
  - injection H as _ ->. now exists pre, post.
Qed.

(** [/api] cannot begin inside a string and end inside a [/api] put
    behind it. *)
Lemma api_no_straddle (x : StreamlitApp.str) :
  StreamlitApp.startswith (x ++ StreamlitApp.api_suffix) StreamlitApp.api_suffix = true ->
  x = [] \/ exists y, x = StreamlitApp.api_suffix ++ y.
Proof.
  intros H. apply startswith_spec in H as [t Ht].
  destruct x as [|c1 [|c2 [|c3 [|c4 x]]]]; [now left | exfalso ..|right].
  - cbn in Ht. injection Ht as _ Ht _ _ _. discriminate.
  - cbn in Ht. injection Ht as _ _ Ht _ _. discriminate.
  - cbn in Ht. injection Ht as _ _ _ Ht _. discriminate.
  - cbn in Ht. injection Ht as -> -> -> -> _. now exists x.
Qed.

Lemma replace_loop_nil (fuel : nat) (old new : StreamlitApp.str) :
  StreamlitApp.replace_loop fuel old new [] = [].
Proof. now destruct fuel. Qed.

(** Nothing to replace behind a clean prefix. *)
Lemma replace_clean_prefix (h : StreamlitApp.str) :
  ~ occurs StreamlitApp.api_suffix h ->
  forall fuel, List.length h < fuel ->
    StreamlitApp.replace_loop fuel StreamlitApp.api_suffix []
                              (h ++ StreamlitApp.api_suffix) = h.
Proof.
  induction h as [|c h IH]; intros Hno fuel Hf.
  - destruct fuel as [|fuel]; [cbn in Hf; lia|].
    cbn. now rewrite replace_loop_nil.
  - destruct fuel as [|fuel]; [cbn in Hf; lia|].
    cbn [StreamlitApp.replace_loop app].
    destruct (StreamlitApp.startswith (c :: h ++ StreamlitApp.api_suffix)
                                      StreamlitApp.api_suffix) eqn:Hs.
    + exfalso. apply (api_no_straddle (c :: h)) in Hs as [Hs | [y Hy]];
        [discriminate|].
      apply Hno. exists [], y. exact Hy.
    + f_equal. apply IH.
      * intros Ho. apply Hno. now apply occurs_cons.
      * cbn in Hf. lia.
Qed.

Lemma replace_loop_length (fuel : nat) (s : StreamlitApp.str) :
  List.length (StreamlitApp.replace_loop fuel StreamlitApp.api_suffix [] s)
  <= List.length s.
Proof.
  revert s. induction fuel as [|fuel IH]; intros s; [reflexivity|].
  destruct s as [|c s]; [reflexivity|].
  cbn [StreamlitApp.replace_loop].
  destruct (StreamlitApp.startswith (c :: s) StreamlitApp.api_suffix).
  - cbn [app]. etransitivity; [apply IH|]. rewrite length_skipn. lia.
  - cbn [List.length]. specialize (IH s). lia.
Qed.

(** Each replaced occurrence makes the string four characters shorter. *)
Lemma replace_loop_shrinks (s : StreamlitApp.str) :
  occurs StreamlitApp.api_suffix s ->
  forall fuel, List.length s < fuel ->
    List.length (StreamlitApp.replace_loop fuel StreamlitApp.api_suffix [] s) + 4
    <= List.length s.
Proof.
  induction s as [|c s IH]; intros Ho fuel Hf.
  - exfalso. revert Ho. apply occurs_nil_false. discriminate.
  - destruct fuel as [|fuel]; [cbn in Hf; lia|].
    cbn [StreamlitApp.replace_loop].
    destruct (StreamlitApp.startswith (c :: s) StreamlitApp.api_suffix) eqn:Hs.
    + cbn [app]. apply startswith_spec in Hs as [t Ht]. rewrite Ht.
      pose proof (replace_loop_length fuel
                    (skipn (List.length StreamlitApp.api_suffix)
                           (StreamlitApp.api_suffix ++ t))) as Hl.
      rewrite length_skipn in Hl. rewrite length_app in *. cbn in *. lia.
    + cbn [List.length]. apply occurs_tail in Ho; [|exact Hs].
      specialize (IH Ho fuel). cbn in Hf. lia.
Qed.

Lemma replace_dirty_prefix (h : StreamlitApp.str) :
  occurs StreamlitApp.api_suffix h ->
  forall fuel, List.length (h ++ StreamlitApp.api_suffix) < fuel ->
    List.length (StreamlitApp.replace_loop fuel StreamlitApp.api_suffix []
                   (h ++ StreamlitApp.api_suffix)) + 4
    <= List.length h.
Proof.
  induction h as [|c h IH]; intros Ho fuel Hf.
  - exfalso. revert Ho. apply occurs_nil_false. discriminate.
  - destruct fuel as [|fuel]; [cbn in Hf; lia|].
    cbn [StreamlitApp.replace_loop app].
    destruct (StreamlitApp.startswith (c :: h ++ StreamlitApp.api_suffix)
                                      StreamlitApp.api_suffix) eqn:Hs.
    + apply (api_no_straddle (c :: h)) in Hs as [Hs | [y Hy]]; [discriminate|].
      assert (Hocc : occurs StreamlitApp.api_suffix (y ++ StreamlitApp.api_suffix))
        by (exists y, []; now rewrite app_nil_r).
      pose proof (replace_loop_shrinks _ Hocc fuel) as Hl.
      cbn in Hy. injection Hy as -> ->.
      cbn [app skipn List.length StreamlitApp.api_suffix StreamlitApp.lit
             list_ascii_of_string] in *.
      rewrite !length_app in *. cbn [List.length] in *.
      specialize (Hl ltac:(lia)). lia.
    + cbn [List.length].
      assert (Hh : occurs StreamlitApp.api_suffix h).
      { destruct Ho as (pre & post & Hpp). destruct pre as [|d pre].
        - exfalso. cbn [app] in Hpp.
          assert (Ht : StreamlitApp.startswith (c :: h ++ StreamlitApp.api_suffix)
                                               StreamlitApp.api_suffix = true).
          { apply startswith_spec. exists (post ++ StreamlitApp.api_suffix).
            change (c :: h ++ StreamlitApp.api_suffix)
              with ((c :: h) ++ StreamlitApp.api_suffix).
            rewrite Hpp. now rewrite <- !app_assoc. }
          congruence.
        - injection Hpp as _ ->. now exists pre, post. }
      specialize (IH Hh fuel). cbn [app List.length] in Hf.
      specialize (IH ltac:(lia)). lia.
Qed.

(** X15.  The health URL that [check_api_status] derives from a base URL
    [h ++ "/api"] is [h ++ "/health"] exactly when [/api] does not occur
    in [h] itself: [str.replace] deletes every occurrence, so a host or
    path that contains [/api] (as in http://api.example.com) is mangled
    too. *)
Theorem health_url_round_trip :
  forall (h : StreamlitApp.str),
    StreamlitApp.health_url (h ++ StreamlitApp.api_suffix)
      = h ++ StreamlitApp.lit "/health"
    <-> ~ occurs StreamlitApp.api_suffix h.
Proof.
  intros h. unfold StreamlitApp.health_url, StreamlitApp.replace. split.
  - intros Heq Ho. apply app_inv_tail in Heq.
    pose proof (replace_dirty_prefix h Ho
                  (S (List.length (h ++ StreamlitApp.api_suffix)))
                  (Nat.lt_succ_diag_r _)) as Hl.
    rewrite Heq in Hl. lia.
  - intros Hno. f_equal. apply replace_clean_prefix; [exact Hno|].
    rewrite length_app. lia.
Qed.

(** A host whose name begins with [api]. *)
Lemma health_url_of_api_host :
  string_of_list_ascii
    (StreamlitApp.health_url
       (StreamlitApp.api_base_url (Some (StreamlitApp.lit "http://api.example.com"))))
  = "http:/.example.com/health"%string.
Proof. reflexivity. Qed.

(** ** The further theorems at work *)

Lemma quiet_no_dashboard : quiet no_dashboard.
Proof. intros t. reflexivity. Qed.

(** C1's theorem with nothing behind the health endpoint. *)
Lemma exit_status_of_a_run_witness :
  quiet never_up /\ startup_succeeds never_up = false /\
  StartSystem.run never_up 0 0 =
    (Exited 1, snd (StartSystem.run never_up 0 0)) /\
  In (Exit 1) (trace (snd (StartSystem.run never_up 0 0))) /\
  In (Terminate Backend) (trace (snd (StartSystem.run never_up 0 0))).
Proof.
  destruct (exit_status_of_a_run never_up 0 0) as [Hfail Hend].
  assert (Hrun : StartSystem.run never_up 0 0 =
                 (Exited 1, snd (StartSystem.run never_up 0 0))).
  { rewrite <- (Hfail quiet_never_up eq_refl). apply surjective_pairing. }
  split; [exact quiet_never_up|]. split; [reflexivity|]. split; [exact Hrun|].
  destruct (Hend 1%Z _ Hrun) as (_ & Hone & _ & _ & Hown).
  split.
  - exact (proj1 (Hone eq_refl)).
  - apply Hown. left. reflexivity.
Defined.

(** X1's theorem for a backend that answers 200 to the third attempt. *)
Lemma wait_for_api_is_first_ready_witness :
  quiet slow_start /\
  first_ready slow_start (probes (trace probed_once)) 15 = Some 2 /\
  StartSystem.wait_for_api slow_start None 15 0 probed_once =
    (Normal true,
     extend probed_once (failed_rounds slow_start 1 0 2 ++ ready_round)).
Proof.
  split; [exact quiet_slow_start|]. split; [reflexivity|].
  exact (proj1 (wait_for_api_is_first_ready slow_start None 15 0 probed_once
                  quiet_slow_start)).
Defined.


(** X3's theorem for a backend that starts and a dashboard that does
    not. *)
Lemma dashboard_spawn_failure_exits_1_witness :
  quiet no_dashboard /\ spawns no_dashboard Frontend = false /\
  fst (StartSystem.run no_dashboard 0 5) = Exited 1 /\
  api_process (snd (StartSystem.run no_dashboard 0 5)) = Some Backend.
Proof.
  split; [exact quiet_no_dashboard|]. split; [reflexivity|].
  split; [|reflexivity].
  exact (proj1 (dashboard_spawn_failure_exits_1 no_dashboard 0 5
                  quiet_no_dashboard eq_refl)).
Defined.


(** X5's theorem for a dashboard found dead in the second round. *)
Lemma monitor_returns_only_on_dead_child_witness :
  StartSystem.monitor frontend_dies (StartSystem.installed frontend_dies 0) 2
                      monitoring_world
  = (Normal tt,
     extend monitoring_world
       ([Slept 1; Polled Frontend None; Slept 1]
          ++ [Polled Frontend (Some 1%Z);
              Print (Line "Streamlit dashboard stopped unexpectedly")])) /\
  exists l p tail,
    extend monitoring_world
      ([Slept 1; Polled Frontend None; Slept 1]
         ++ [Polled Frontend (Some 1%Z);
             Print (Line "Streamlit dashboard stopped unexpectedly")])
    = extend monitoring_world (l ++ tail) /\
    found_dead monitoring_world p tail.
Proof.
  assert (Hrun : StartSystem.monitor frontend_dies
                   (StartSystem.installed frontend_dies 0) 2 monitoring_world
                 = (Normal tt,
                    extend monitoring_world
                      ([Slept 1; Polled Frontend None; Slept 1]
                         ++ [Polled Frontend (Some 1%Z);
                             Print (Line "Streamlit dashboard stopped unexpectedly")])))
    by reflexivity.
  split; [exact Hrun|].
  exact (monitor_returns_only_on_dead_child frontend_dies 0 2 _ _ Hrun).
Defined.

(** X8's theorem for an interrupt during the second sleep of the polling
    loop. *)
Lemma run_dashboard_interrupt_orphans_backend_witness :
  1 < 10 /\ health interrupted_polling 0 <> Status 200 /\
  spawns interrupted_polling Backend = true /\
  signalled interrupted_polling (6 + 3 * 1) = true /\
  fst (RunDashboard.main interrupted_polling initial) = Raised KeyboardInterrupt /\
  In (Popen Backend true)
     (trace (snd (RunDashboard.main interrupted_polling initial))) /\
  never is_process_call (snd (RunDashboard.main interrupted_polling initial)).
Proof.
  assert (Hk : 1 < 10) by lia.
  assert (Hdown : health interrupted_polling 0 <> Status 200) by discriminate.
  assert (Hmiss : forall j, j < 1 ->
                    health interrupted_polling (1 + j) <> Status 200)
    by (intros j _; discriminate).
  assert (Hq : forall t, t < 6 + 3 * 1 -> signalled interrupted_polling t = false).
  { intros t Ht. apply Nat.eqb_neq. lia. }
  split; [exact Hk|]. split; [exact Hdown|]. split; [reflexivity|].
  split; [reflexivity|].
  destruct (run_dashboard_interrupt_orphans_backend interrupted_polling 1
              Hk Hdown eq_refl Hmiss Hq eq_refl) as (Hrun & Hin & Hcalm).
  split; [now rewrite Hrun | split; assumption].
Defined.

(** X9's theorem for a backend spawned by the launcher and a dashboard
    that exits. *)
Lemma run_dashboard_exit_leaves_backend_witness :
  RunDashboard.main slow_start initial =
    (Normal tt, snd (RunDashboard.main slow_start initial)) /\
  In (Joined Frontend) (trace (snd (RunDashboard.main slow_start initial))) /\
  In (Popen Backend true) (trace (snd (RunDashboard.main slow_start initial))) /\
  never is_terminate (snd (RunDashboard.main slow_start initial)).
Proof.
  assert (Hrun : RunDashboard.main slow_start initial =
                 (Normal tt, snd (RunDashboard.main slow_start initial)))
    by reflexivity.
  assert (Hj : In (Joined Frontend)
                  (trace (snd (RunDashboard.main slow_start initial))))
    by (vm_compute; auto 30).
  split; [exact Hrun|]. split; [exact Hj|]. split; [vm_compute; auto 30|].
  exact (run_dashboard_exit_leaves_backend slow_start _ Hrun Hj).
Defined.

(** X11's theorem for an interrupt during the wait on the dashboard. *)
Lemma run_dashboard_interrupt_stops_both_witness :
  RunDashboard.main interrupted_dashboard initial =
    (Normal tt, snd (RunDashboard.main interrupted_dashboard initial)) /\
  ~ In (Joined Frontend) (trace (snd (RunDashboard.main interrupted_dashboard initial))) /\
  In (Terminate Frontend) (trace (snd (RunDashboard.main interrupted_dashboard initial))) /\
  In (Terminate Backend) (trace (snd (RunDashboard.main interrupted_dashboard initial))).
Proof.
  assert (Hrun : RunDashboard.main interrupted_dashboard initial =
                 (Normal tt, snd (RunDashboard.main interrupted_dashboard initial)))
    by reflexivity.
  assert (Hj : ~ In (Joined Frontend)
                    (trace (snd (RunDashboard.main interrupted_dashboard initial)))).
  { vm_compute. intros H.
    repeat (destruct H as [H | H]; [discriminate|]). exact H. }
  split; [exact Hrun|]. split; [exact Hj|].
  destruct (run_dashboard_interrupt_stops_both interrupted_dashboard _ Hrun Hj)
    as [Hf Hb].
  split; [exact Hf|]. apply Hb. vm_compute. auto 30.
Defined.

(** X12's theorem for a backend that answers 200 to the third attempt. *)
Lemma run_dashboard_start_api_is_first_ready_witness :
  quiet slow_start /\ spawns slow_start Backend = true /\
  RunDashboard.start_api slow_start probed_once =
    (Normal (Some Backend),
     extend probed_once
       (spawn_backend ++ rd_failed_rounds slow_start 1 0 2 ++ rd_ready_round)).
Proof.
  split; [exact quiet_slow_start|]. split; [reflexivity|].
  exact (run_dashboard_start_api_is_first_ready slow_start probed_once
           quiet_slow_start eq_refl).
Defined.

(** X13's theorem where nothing listens, and where a backend is there. *)
Lemma exit_1_iff_startup_fails_witness :
  quiet never_up /\ startup_succeeds never_up = false /\
  fst (StartSystem.run never_up 0 4) = Exited 1 /\
  quiet external /\ startup_succeeds external = true /\
  fst (StartSystem.run external 0 4) <> Exited 1.
Proof.
  split; [exact quiet_never_up|]. split; [reflexivity|].
  split; [exact (proj2 (exit_1_iff_startup_fails never_up 0 4 quiet_never_up)
                   eq_refl)|].
  split; [exact quiet_external|]. split; [reflexivity|].
  intros H.
  apply (proj1 (exit_1_iff_startup_fails external 0 4 quiet_external)) in H.
  discriminate.
Defined.

(** X14's theorem for a value with slashes at its end. *)
Lemma api_base_url_ends_with_api_witness :
  StreamlitApp.endswith (StreamlitApp.lit "http://host:9000//")
                        StreamlitApp.api_suffix = false /\
  exists h,
    StreamlitApp.api_base_url (Some (StreamlitApp.lit "http://host:9000//"))
      = h ++ StreamlitApp.api_suffix /\
    StreamlitApp.endswith h [StreamlitApp.slash] = false.
Proof.
  split; [reflexivity|].
  destruct (api_base_url_ends_with_api
              (Some (StreamlitApp.lit "http://host:9000//"))) as (_ & _ & H).
  exact (H _ eq_refl eq_refl).
Defined.
